(** * mpp-org: the dual-backend data-access and authorization layer

    A shallow embedding of the task and project services
    ([src/services/taskService.ts], the demo-capable [ProjectService], the
    raw-SQL [src/services/projectService.ts]) and of the schema with its
    row-level-security policies, followed by the properties of the
    specification that were checked against them.

    Conventions of the embedding.
    - Identifiers (UUIDs, principal ids) are strings.
    - Instants are integers ([Z]), counted in milliseconds as
      [Date.getTime()] counts them; a date string stands for the instant
      it denotes.  A DATE column keeps the calendar day of what it is
      given ([toDate]).
    - Every call receives an [Env]: the answers of the runtime to the clock
      reads ([new Date()], [NOW()]) and to the id generator
      ([generateId], [crypto.randomUUID], [gen_random_uuid()]) it performs,
      numbered in the order in which the call performs them.
    - A call returns a [result] together with the state it leaves behind;
      [Throw] is a rejected promise.
    - The browser storage is assumed to be present and writable. *)

From Stdlib Require Import String ZArith Bool Lia Arith List.
Import ListNotations.
Local Open Scope string_scope.
Local Open Scope list_scope.

(* ================================================================== *)
(** * Shared data model *)
(* ================================================================== *)

(** Error codes of the managed backend that the services can observe. *)
Inductive PgCode : Type :=
| RlsViolation          (* 42501: new row violates row-level security policy *)
| NotNullViolation      (* 23502 *)
| CheckViolation        (* 23514 *)
| UniqueViolation       (* 23505 *)
| ForeignKeyViolation   (* 23503 *)
| InvalidDatetime       (* 22007 *)
| UndefinedColumn       (* 42703: a key of the payload is no column of the table *)
| NoRows.               (* PGRST116: .single() on an empty result *)

Inductive Error : Type :=
| JsError (msg : string)   (* throw new Error(msg) *)
| RangeError               (* toISOString() of an invalid Date *)
| PgError (code : PgCode). (* the error object handed back by the backend *)

Inductive result (A : Type) : Type :=
| Ok (a : A)
| Throw (e : Error).
Arguments Ok {A} a.
Arguments Throw {A} e.

Definition is_ok {A} (r : result A) : bool :=
  match r with Ok _ => true | Throw _ => false end.

(** The runtime's answers during one call. *)
Record Env : Type := mkEnv {
  clock : nat -> Z;      (* k-th clock read of the call *)
  uuid  : nat -> string  (* k-th generated identifier of the call *)
}.

Inductive TaskType : Type := TTask | TMilestone | TDeliverable.

(** The eight statuses of the [Task] type of taskService.ts. *)
Inductive Status : Type :=
| NotStarted | InProgress | Completed | OnHold
| Impacted | OnGoing | DevInProgress | Done.

Definition Status_eqb (a b : Status) : bool :=
  match a, b with
  | NotStarted, NotStarted | InProgress, InProgress
  | Completed, Completed | OnHold, OnHold
  | Impacted, Impacted | OnGoing, OnGoing
  | DevInProgress, DevInProgress | Done, Done => true
  | _, _ => false
  end.

Inductive ProjectStatus : Type := Active | PCompleted | Archived.

(** [Record<string, any>] of custom-field values. *)
Definition FieldValues : Type := list (string * string).

(** A date string as a caller can supply it: missing (or empty, which is
    falsy), denoting an instant, or not parseable. *)
Inductive DateInput : Type :=
| NoDate
| DateOk (d : Z)
| DateBad.

Module Task.
Record t : Type := mk {
  id : string;
  project_id : string;
  name : string;
  description : option string;
  task_type : TaskType;
  status : Status;
  start_date : Z;
  end_date : Z;
  assignee : option string;
  progress : Z;
  dependencies : list string;
  custom_fields : FieldValues;
  created_at : Z;
  updated_at : Z
}.
End Task.

(** [Partial<TaskInsert>]: every key may be absent. *)
Module TaskInput.
Record t : Type := mk {
  project_id : option string;
  name : option string;
  description : option string;
  task_type : option TaskType;
  status : option Status;
  start_date : DateInput;
  end_date : DateInput;
  assignee : option string;
  progress : option Z;
  dependencies : option (list string);
  custom_fields : option FieldValues
}.
End TaskInput.

(** [TaskUpdate = Partial<Omit<Task, 'id' | 'project_id' | 'created_at'>>]. *)
Module TaskUpdate.
Record t : Type := mk {
  name : option string;
  description : option (option string);
  task_type : option TaskType;
  status : option Status;
  start_date : option Z;
  end_date : option Z;
  assignee : option string;
  progress : option Z;
  dependencies : option (list string);
  custom_fields : option FieldValues;
  updated_at : option Z
}.
Definition empty : t :=
  mk None None None None None None None None None None None.
End TaskUpdate.

Module CustomField.
Record t : Type := mk {
  id : string;
  project_id : string;
  name : string;
  value : string
}.
End CustomField.

(** [ProjectUpdate]: the keys of a project a caller may overwrite. *)
Module ProjectUpdate.
Record t : Type := mk {
  name : option string;
  description : option string;
  status : option ProjectStatus;
  last_modified : option Z;
  team_members : option (list string);
  tasks : option (list Task.t);
  custom_fields : option (list CustomField.t)
}.
End ProjectUpdate.

(** [ProjectInsert]. *)
Module ProjectInsert.
Record t : Type := mk {
  name : string;
  description : option string;
  status : option ProjectStatus;
  team_members : option (list string);
  tasks : option (list Task.t);                 (* [None]: the key is absent *)
  custom_fields : option (list CustomField.t)
}.
End ProjectInsert.

(** The [changes] payload of an activity entry, one constructor per object
    literal the services pass to [logActivity]. *)
Inductive Changes : Type :=
| ChTaskName (task_name : string)
| ChTaskUpdate (updates : TaskUpdate.t)
| ChTaskId (task_id : string)
| ChCount (count : nat)
| ChProjectName (project_name : string)
| ChProjectUpdate (updates : ProjectUpdate.t)
| ChProjectId (project_id : string).

Module ActivityLog.
Record t : Type := mk {
  id : string;
  project_id : string;
  task_id : option string;
  user_id : option string;
  action : string;
  changes : Changes;
  created_at : Z
}.
End ActivityLog.

(* ------------------------------------------------------------------ *)
(** ** JavaScript helpers *)

(** [x || d] on an optional string: [undefined], [null] and [''] are falsy. *)
Definition truthy (o : option string) : bool :=
  match o with
  | Some s => negb (s =? "")
  | None => false
  end.

Definition str_or (o : option string) (d : string) : string :=
  if truthy o then match o with Some s => s | None => d end else d.

(** [x || null] / [x || undefined]. *)
Definition str_or_null (o : option string) : option string :=
  if truthy o then o else None.

Definition or_default {A} (o : option A) (d : A) : A :=
  match o with Some a => a | None => d end.

(** [Array.prototype.findIndex], [None] standing for -1. *)
Fixpoint findIndex {A} (f : A -> bool) (l : list A) : option nat :=
  match l with
  | [] => None
  | x :: r => if f x then Some 0 else option_map S (findIndex f r)
  end.

(** [arr[i] = v]; the services only write at an index [findIndex] returned. *)
Fixpoint set_at {A} (i : nat) (v : A) (l : list A) : list A :=
  match l, i with
  | [], _ => []
  | _ :: r, 0 => v :: r
  | x :: r, S j => x :: set_at j v r
  end.

(** [arr.includes(s)]. *)
Definition includes (l : list string) (s : string) : bool :=
  existsb (String.eqb s) l.

(** [p.id === projectId] against a possibly missing id. *)
Definition id_is (o : option string) (s : string) : bool :=
  match o with Some x => s =? x | None => false end.

(* ================================================================== *)
(** * Progress-driven status derivation (taskService.ts, updateTaskProgress) *)
(* ================================================================== *)

(** The [if / else if / else if] chain of [updateTaskProgress]. *)
Definition deriveStatus (progress : Z) (prior : Status) : Status :=
  if (progress <=? 0)%Z then NotStarted
  else if (progress >=? 100)%Z then Completed
  else if Status_eqb prior NotStarted || Status_eqb prior Completed then InProgress
  else prior.

(** The [updates] object [updateTaskProgress] hands to [updateTask]:
    [progress] always, [status] only when it differs from the stored one. *)
Definition progressUpdates (progress : Z) (prior : Status) : TaskUpdate.t :=
  let newStatus := deriveStatus progress prior in
  TaskUpdate.mk None None None
    (if Status_eqb newStatus prior then None else Some newStatus)
    None None None (Some progress) None None None.

(* ================================================================== *)
(** * Dependency gating (taskService.ts, canStartTask) *)
(* ================================================================== *)

(** [dep.status === 'completed' || dep.status === 'done']. *)
Definition isFinished (dep : Task.t) : bool :=
  Status_eqb (Task.status dep) Completed || Status_eqb (Task.status dep) Done.

(** The verdict of [canStartTask] on the tasks [getTaskDependencies]
    returned: [true] on none, else [every(isFinished)]. *)
Definition allFinished (dependencies : list Task.t) : bool :=
  match dependencies with
  | [] => true
  | _ :: _ => forallb isFinished dependencies
  end.

(* ================================================================== *)
(** * Local (demo) persistence *)
(* ================================================================== *)

(** A project object of the demo blob.  [tasks] may be missing on an object
    read back from storage (the task service guards every access with
    [p.tasks?] and [!p.tasks]); [lastModified] is the extra camel-case key
    the task service writes next to [last_modified]. *)
Module DemoProject.
Record t : Type := mk {
  id : string;
  name : string;
  description : option string;
  status : ProjectStatus;
  created_at : Z;
  last_modified : Z;
  created_by : string;
  team_members : list string;
  tasks : option (list Task.t);
  custom_fields : list CustomField.t;
  lastModified : option Z
}.

Definition with_tasks (p : t) (ts : list Task.t) (lm : option Z) : t :=
  mk (id p) (name p) (description p) (status p) (created_at p)
     (last_modified p) (created_by p) (team_members p)
     (Some ts) (custom_fields p) lm.
End DemoProject.

(** The two storage keys and the two module variables of the demo mode. *)
Record LocalStore : Type := mkLocalStore {
  ls_projects : option (list DemoProject.t);   (* 'lovable-demo-projects' *)
  ls_activity : option (list ActivityLog.t);   (* 'lovable-demo-activity-log' *)
  demoProjects : list DemoProject.t;           (* let demoProjects *)
  demoActivityLog : list ActivityLog.t         (* let demoActivityLog *)
}.

(** [loadDemoProjects]: [stored ? JSON.parse(stored) : []]. *)
Definition loadDemoProjects (st : LocalStore) : list DemoProject.t :=
  match ls_projects st with
  | Some ps => ps
  | None => []
  end.

(** [saveDemoProjects] / [saveToLocalStorage(DEMO_PROJECTS_KEY, _)]. *)
Definition saveDemoProjects (ps : list DemoProject.t) (st : LocalStore) : LocalStore :=
  mkLocalStore (Some ps) (ls_activity st) (demoProjects st) (demoActivityLog st).

Definition setDemoProjects (ps : list DemoProject.t) (st : LocalStore) : LocalStore :=
  mkLocalStore (ls_projects st) (ls_activity st) ps (demoActivityLog st).

Definition setDemoActivityLog (log : list ActivityLog.t) (st : LocalStore) : LocalStore :=
  mkLocalStore (ls_projects st) (ls_activity st) (demoProjects st) log.

Definition saveDemoActivityLog (log : list ActivityLog.t) (st : LocalStore) : LocalStore :=
  mkLocalStore (ls_projects st) (Some log) (demoProjects st) (demoActivityLog st).

(** [s ? new Date(s).toISOString() : now] in demo mode, [s || now] sent to a
    DATE column in managed mode: a missing date becomes [now], a string that
    is no date makes the call fail ([None]). *)
Definition dateOr (d : DateInput) (now : Z) : option Z :=
  match d with
  | NoDate => Some now
  | DateOk z => Some z
  | DateBad => None
  end.

(** The value a DATE column keeps of an instant: the start of its calendar
    day (the day as [toISOString] writes it). *)
Definition msPerDay : Z := 86400000.

Definition toDate (z : Z) : Z := (z / msPerDay * msPerDay)%Z.

(** [{ ...task, ...updates, updated_at: now }]. *)
Definition mergeTask (old : Task.t) (u : TaskUpdate.t) (now : Z) : Task.t :=
  Task.mk (Task.id old) (Task.project_id old)
    (or_default (TaskUpdate.name u) (Task.name old))
    (or_default (TaskUpdate.description u) (Task.description old))
    (or_default (TaskUpdate.task_type u) (Task.task_type old))
    (or_default (TaskUpdate.status u) (Task.status old))
    (or_default (TaskUpdate.start_date u) (Task.start_date old))
    (or_default (TaskUpdate.end_date u) (Task.end_date old))
    (match TaskUpdate.assignee u with Some a => Some a | None => Task.assignee old end)
    (or_default (TaskUpdate.progress u) (Task.progress old))
    (or_default (TaskUpdate.dependencies u) (Task.dependencies old))
    (or_default (TaskUpdate.custom_fields u) (Task.custom_fields old))
    (Task.created_at old)
    now.

(** [finalUpdates = { ...updates, last_modified }] of [updateProject],
    computed before the branch on the backend. *)
Definition finalUpdates (u : ProjectUpdate.t) (last_modified : Z) : ProjectUpdate.t :=
  ProjectUpdate.mk (ProjectUpdate.name u) (ProjectUpdate.description u)
    (ProjectUpdate.status u) (Some last_modified)
    (ProjectUpdate.team_members u) (ProjectUpdate.tasks u)
    (ProjectUpdate.custom_fields u).

Module Demo.

Definition projectHasId (pid : string) (p : DemoProject.t) : bool :=
  DemoProject.id p =? pid.

Definition taskHasId (tid : string) (t : Task.t) : bool :=
  Task.id t =? tid.

(** ** TaskService, branch [if (!supabase)] *)

Definition getProjectTasks (projectId : string) (st : LocalStore) : list Task.t :=
  match find (projectHasId projectId) (loadDemoProjects st) with
  | Some project => or_default (DemoProject.tasks project) []
  | None => []
  end.

(** The object literal [newTask] of [createTask], once both dates are
    known. *)
Definition newTaskOf (env : Env) (task : TaskInput.t) (sd ed : Z) : Task.t :=
  let now := clock env 0 in
  Task.mk (uuid env 0)
    (or_default (TaskInput.project_id task) "")
    (str_or (TaskInput.name task) "Untitled Task")
    (str_or_null (TaskInput.description task))
    (or_default (TaskInput.task_type task) TTask)
    (or_default (TaskInput.status task) NotStarted)
    sd ed
    (str_or_null (TaskInput.assignee task))
    (or_default (TaskInput.progress task) 0%Z)
    (or_default (TaskInput.dependencies task) [])
    (or_default (TaskInput.custom_fields task) [])
    now now.

Definition createTask (env : Env) (task : TaskInput.t) (st : LocalStore)
  : result Task.t * LocalStore :=
  let demoProjects := loadDemoProjects st in
  match findIndex (fun p => id_is (TaskInput.project_id task) (DemoProject.id p))
                  demoProjects with
  | Some projectIndex =>
      let now := clock env 0 in
      match nth_error demoProjects projectIndex with
      | None => (Throw (JsError "Project not found"), st)
      | Some project =>
      match dateOr (TaskInput.start_date task) now,
            dateOr (TaskInput.end_date task) now with
      | Some sd, Some ed =>
          let newTask := newTaskOf env task sd ed in
          let project' :=
            DemoProject.with_tasks project
              (or_default (DemoProject.tasks project) [] ++ [newTask])
              (Some (clock env 1)) in
          (Ok newTask,
           saveDemoProjects (set_at projectIndex project' demoProjects) st)
      | _, _ => (Throw RangeError, st)
      end
      end
  | None => (Throw (JsError "Project not found"), st)
  end.

Definition updateTask (env : Env) (id projectId : string) (updates : TaskUpdate.t)
           (st : LocalStore) : result Task.t * LocalStore :=
  let demoProjects := loadDemoProjects st in
  match findIndex (projectHasId projectId) demoProjects with
  | Some projectIndex =>
      match nth_error demoProjects projectIndex with
      | Some project =>
          match DemoProject.tasks project with
          | Some tasks =>
              match findIndex (taskHasId id) tasks with
              | Some taskIndex =>
                  match nth_error tasks taskIndex with
                  | Some old =>
                      let updatedTask := mergeTask old updates (clock env 0) in
                      let project' :=
                        DemoProject.with_tasks project
                          (set_at taskIndex updatedTask tasks)
                          (DemoProject.lastModified project) in
                      (Ok updatedTask,
                       saveDemoProjects (set_at projectIndex project' demoProjects) st)
                  | None => (Throw (JsError "Task not found"), st)
                  end
              | None => (Throw (JsError "Task not found"), st)
              end
          | None => (Throw (JsError "Task not found"), st)
          end
      | None => (Throw (JsError "Task not found"), st)
      end
  | None => (Throw (JsError "Task not found"), st)
  end.

Definition deleteTask (id projectId : string) (st : LocalStore)
  : result unit * LocalStore :=
  let demoProjects := loadDemoProjects st in
  match findIndex (projectHasId projectId) demoProjects with
  | Some projectIndex =>
      match nth_error demoProjects projectIndex with
      | Some project =>
          match DemoProject.tasks project with
          | Some tasks =>
              let initialLength := length tasks in
              let kept := filter (fun t => negb (taskHasId id t)) tasks in
              if (length kept <? initialLength)%nat then
                let project' :=
                  DemoProject.with_tasks project kept
                    (DemoProject.lastModified project) in
                (Ok tt,
                 saveDemoProjects (set_at projectIndex project' demoProjects) st)
              else (Throw (JsError "Task not found"), st)
          | None => (Throw (JsError "Task not found"), st)
          end
      | None => (Throw (JsError "Task not found"), st)
      end
  | None => (Throw (JsError "Task not found"), st)
  end.

(** [project?.tasks?.find(t => t.id === id)] of [updateTaskProgress]. *)
Definition findTask (id projectId : string) (st : LocalStore) : option Task.t :=
  match find (projectHasId projectId) (loadDemoProjects st) with
  | Some project =>
      match DemoProject.tasks project with
      | Some tasks => find (taskHasId id) tasks
      | None => None
      end
  | None => None
  end.

Definition updateTaskProgress (env : Env) (id projectId : string) (progress : Z)
           (st : LocalStore) : result Task.t * LocalStore :=
  match findTask id projectId st with
  | None => (Throw (JsError "Task not found"), st)
  | Some taskToUpdate =>
      updateTask env id projectId
        (progressUpdates progress (Task.status taskToUpdate)) st
  end.

(** The [for (const task of tasks)] loop of [importTasks]; [envs k] serves
    the [createTask] call of the k-th element. *)
Fixpoint importLoop (envs : nat -> Env) (k : nat) (tasks : list TaskInput.t)
         (results : list Task.t) (st : LocalStore) : list Task.t * LocalStore :=
  match tasks with
  | [] => (results, st)
  | task :: rest =>
      if truthy (TaskInput.project_id task) then
        match createTask (envs k) task st with
        | (Ok r, st') => importLoop envs (S k) rest (results ++ [r]) st'
        | (Throw _, st') => importLoop envs (S k) rest results st'
        end
      else importLoop envs (S k) rest results st
  end.

Definition importTasks (envs : nat -> Env) (tasks : list TaskInput.t)
           (st : LocalStore) : result (list Task.t) * LocalStore :=
  let (results, st') := importLoop envs 0 tasks [] st in
  (Ok results, st').

(** The [for (const p of demoProjects)] search of [getTaskDependencies]:
    the first project holding a task with that id, and that task. *)
Fixpoint findOwner (taskId : string) (ps : list DemoProject.t)
  : option (Task.t * DemoProject.t) :=
  match ps with
  | [] => None
  | p :: rest =>
      match find (taskHasId taskId) (or_default (DemoProject.tasks p) []) with
      | Some task => Some (task, p)
      | None => findOwner taskId rest
      end
  end.

Definition getTaskDependencies (taskId : string) (st : LocalStore) : list Task.t :=
  match findOwner taskId (loadDemoProjects st) with
  | Some (task, project) =>
      match Task.dependencies task with
      | [] => []
      | _ :: _ =>
          filter (fun t => includes (Task.dependencies task) (Task.id t))
                 (or_default (DemoProject.tasks project) [])
      end
  | None => []
  end.

Definition canStartTask (taskId : string) (st : LocalStore) : bool :=
  allFinished (getTaskDependencies taskId st).

(** [TaskService.logActivity]: [if (!supabase) return;]. *)
Definition taskLogActivity (projectId action : string) (changes : Changes)
           (taskId : option string) (st : LocalStore) : LocalStore := st.

(** ** ProjectService, branch [if (!supabase)] *)

(** [logActivity]: the entry is put in front ([unshift]) and the log saved.
    [k] and [j] say which clock read and which generated id of the
    enclosing call the entry consumes. *)
Definition logActivity (env : Env) (j k : nat) (projectId userId action : string)
           (changes : Changes) (taskId : option string) (st : LocalStore)
  : LocalStore :=
  let logEntry :=
    ActivityLog.mk (uuid env j) projectId (str_or_null taskId) (Some userId)
                   action changes (clock env k) in
  let log := logEntry :: demoActivityLog st in
  saveDemoActivityLog log (setDemoActivityLog log st).

Definition getProject (id : string) (st : LocalStore) : option DemoProject.t :=
  find (projectHasId id) (demoProjects st).

Definition createProject (env : Env) (project : ProjectInsert.t) (st : LocalStore)
  : result DemoProject.t * LocalStore :=
  let newProject :=
    DemoProject.mk (uuid env 0)
      (ProjectInsert.name project)
      (Some (str_or (ProjectInsert.description project) ""))
      (or_default (ProjectInsert.status project) Active)
      (clock env 0) (clock env 1) "demo_user"
      (or_default (ProjectInsert.team_members project) [])
      (Some []) [] None in
  let ps := demoProjects st ++ [newProject] in
  let st1 := saveDemoProjects ps (setDemoProjects ps st) in
  (Ok newProject,
   logActivity env 1 2 (DemoProject.id newProject) "demo_user" "project_created"
               (ChProjectName (DemoProject.name newProject)) None st1).

(** [{ ...demoProjects[projectIndex], ...finalUpdates }]. *)
Definition mergeProject (old : DemoProject.t) (u : ProjectUpdate.t) : DemoProject.t :=
  DemoProject.mk (DemoProject.id old)
    (or_default (ProjectUpdate.name u) (DemoProject.name old))
    (match ProjectUpdate.description u with
     | Some d => Some d | None => DemoProject.description old end)
    (or_default (ProjectUpdate.status u) (DemoProject.status old))
    (DemoProject.created_at old)
    (or_default (ProjectUpdate.last_modified u) (DemoProject.last_modified old))
    (DemoProject.created_by old)
    (or_default (ProjectUpdate.team_members u) (DemoProject.team_members old))
    (match ProjectUpdate.tasks u with
     | Some ts => Some ts | None => DemoProject.tasks old end)
    (or_default (ProjectUpdate.custom_fields u) (DemoProject.custom_fields old))
    (DemoProject.lastModified old).

Definition updateProject (env : Env) (id : string) (updates : ProjectUpdate.t)
           (st : LocalStore) : result DemoProject.t * LocalStore :=
  let fu := finalUpdates updates (clock env 0) in
  match findIndex (projectHasId id) (demoProjects st) with
  | None => (Throw (JsError "Project not found in demo storage"), st)
  | Some projectIndex =>
      match nth_error (demoProjects st) projectIndex with
      | None => (Throw (JsError "Project not found in demo storage"), st)
      | Some old =>
          let merged := mergeProject old fu in
          let ps := set_at projectIndex merged (demoProjects st) in
          let st1 := saveDemoProjects ps (setDemoProjects ps st) in
          (Ok merged,
           logActivity env 0 1 id "demo_user" "project_updated"
                       (ChProjectUpdate fu) None st1)
      end
  end.

Definition deleteProject (env : Env) (id : string) (st : LocalStore)
  : result unit * LocalStore :=
  let initialLength := length (demoProjects st) in
  let ps := filter (fun p => negb (projectHasId id p)) (demoProjects st) in
  let st1 := setDemoProjects ps st in
  if (length ps <? initialLength)%nat then
    (Ok tt,
     logActivity env 0 0 id "demo_user" "project_deleted" (ChProjectId id) None
                 (saveDemoProjects ps st1))
  else (Ok tt, st1).

Definition getProjectActivity (projectId : string) (st : LocalStore)
  : list ActivityLog.t :=
  filter (fun log => ActivityLog.project_id log =? projectId) (demoActivityLog st).

(** [new Date('2024-01-01')], in milliseconds. *)
Definition sampleCreatedAt : Z := 1704067200000%Z.

(** [initializeDemoData]: when no project is in memory, the sample project
    and a one-entry log replace what is there and both are saved. *)
Definition initializeDemoData (env : Env) (st : LocalStore) : LocalStore :=
  match demoProjects st with
  | [] =>
      let demoId := "1" in
      let ps :=
        [DemoProject.mk demoId "Sample Project"
           (Some "This is a sample project. Connect Supabase to store real data.")
           Active sampleCreatedAt (clock env 0) "demo_user" ["Demo User"]
           (Some []) [] None] in
      let log :=
        [ActivityLog.mk (uuid env 0) demoId None (Some "demo_user") "project_created"
           (ChProjectName "Sample Project") (clock env 1)] in
      saveDemoActivityLog log
        (saveDemoProjects ps (setDemoActivityLog log (setDemoProjects ps st)))
  | _ :: _ => st
  end.

End Demo.

(* ================================================================== *)
(** * Managed backend: schema, constraints and row-level security *)
(* ================================================================== *)

Module ProjectRow.
Record t : Type := mk {
  id : string;
  name : string;
  description : option string;
  status : ProjectStatus;
  created_date : Z;
  last_modified : Z;
  created_by : option string;            (* ON DELETE SET NULL *)
  team_members : option (list string)    (* JSONB, nullable *)
}.
End ProjectRow.

Inductive FieldType : Type := FText | FNumber | FDate | FSelect | FBoolean.

Module CustomFieldRow.
Record t : Type := mk {
  id : string;
  project_id : string;
  name : string;
  field_type : FieldType;
  required : bool;
  default_value : option string;
  created_at : Z
}.
End CustomFieldRow.

(** The tables of the schema; [users] stands for [auth.users]. *)
Record Db : Type := mkDb {
  users : list string;
  projects : list ProjectRow.t;
  tasks : list Task.t;
  custom_fields : list CustomFieldRow.t;
  activity_log : list ActivityLog.t
}.

(** ** SQL truth values *)

(** A boolean expression evaluates to TRUE, FALSE or NULL ([None]). *)
Definition sqlbool : Type := option bool.

Definition sql_eq (a b : option string) : sqlbool :=
  match a, b with
  | Some x, Some y => Some (x =? y)
  | _, _ => None
  end.

Definition sql_or (a b : sqlbool) : sqlbool :=
  match a, b with
  | Some true, _ | _, Some true => Some true
  | Some false, Some false => Some false
  | _, _ => None
  end.

Definition sql_and (a b : sqlbool) : sqlbool :=
  match a, b with
  | Some false, _ | _, Some false => Some false
  | Some true, Some true => Some true
  | _, _ => None
  end.

(** [team_members @> to_jsonb(uid::text)]: the array holds the string. *)
Definition jsonb_contains (members : option (list string)) (s : option string) : sqlbool :=
  match members, s with
  | Some l, Some x => Some (includes l x)
  | _, _ => None
  end.

(** A row passes a WHERE, USING or WITH CHECK clause only on TRUE. *)
Definition holds (b : sqlbool) : bool :=
  match b with
  | Some true => true
  | _ => false
  end.

(** ** Policies *)

Inductive Command : Type := SELECT | INSERT | UPDATE | DELETE.

Inductive Row : Type :=
| RProject (r : ProjectRow.t)
| RTask (r : Task.t)
| RCustomField (r : CustomFieldRow.t)
| RActivity (r : ActivityLog.t).

(** [auth.uid() = created_by OR team_members @> to_jsonb(auth.uid()::text)]. *)
Definition access_expr (uid : option string) (r : ProjectRow.t) : sqlbool :=
  sql_or (sql_eq uid (ProjectRow.created_by r))
         (jsonb_contains (ProjectRow.team_members r) uid).

(** [public.can_access_project(p_project_id)].  The function runs with the
    caller's rights, so its SELECT sees the rows the SELECT policy of
    [projects] lets through. *)
Definition can_access_project (uid : option string) (db : Db)
           (p_project_id : option string) : bool :=
  existsb
    (fun r => holds (sql_and (sql_eq (Some (ProjectRow.id r)) p_project_id)
                             (access_expr uid r)))
    (filter (fun r => holds (access_expr uid r)) (projects db)).

(** The USING clause of the policy of a table for a command, on an existing
    row.  A command without a policy is denied; INSERT has no USING. *)
Definition using_ok (uid : option string) (db : Db) (c : Command) (row : Row) : bool :=
  match c, row with
  | INSERT, _ => true
  | _, RProject r => holds (access_expr uid r)
  | _, RTask r => can_access_project uid db (Some (Task.project_id r))
  | _, RCustomField r => can_access_project uid db (Some (CustomFieldRow.project_id r))
  | SELECT, RActivity r => can_access_project uid db (Some (ActivityLog.project_id r))
  | _, RActivity _ => false
  end.

(** The WITH CHECK clause of the policy, on a new or modified row. *)
Definition with_check_ok (uid : option string) (db : Db) (c : Command) (row : Row) : bool :=
  match c, row with
  | INSERT, RProject r => holds (sql_eq uid (ProjectRow.created_by r))
  | UPDATE, RProject r => holds (access_expr uid r)
  | (INSERT | UPDATE), RTask r => can_access_project uid db (Some (Task.project_id r))
  | (INSERT | UPDATE), RCustomField r =>
      can_access_project uid db (Some (CustomFieldRow.project_id r))
  | INSERT, RActivity r =>
      holds (sql_and (sql_eq (ActivityLog.user_id r) uid)
                     (Some (can_access_project uid db (Some (ActivityLog.project_id r)))))
  | UPDATE, RActivity _ => false
  | (SELECT | DELETE), _ => true
  end.

(** What the policies let a principal do: SELECT and DELETE look at the
    stored row, INSERT at the new one, UPDATE at both images. *)
Definition permitted (uid : option string) (db : Db) (c : Command)
           (pre post : Row) : bool :=
  match c with
  | SELECT | DELETE => using_ok uid db c pre
  | INSERT => with_check_ok uid db c post
  | UPDATE => using_ok uid db c pre && with_check_ok uid db c post
  end.

(** The project a row belongs to, as a row of [projects] when it exists. *)
Definition row_project_id (row : Row) : string :=
  match row with
  | RProject r => ProjectRow.id r
  | RTask r => Task.project_id r
  | RCustomField r => CustomFieldRow.project_id r
  | RActivity r => ActivityLog.project_id r
  end.

(** ** Constraints *)

(** [CHECK (status IN ('not-started','in-progress','completed','on-hold'))]. *)
Definition status_check (s : Status) : bool :=
  match s with
  | NotStarted | InProgress | Completed | OnHold => true
  | _ => false
  end.

(** The CHECK constraints of [tasks]: status, progress range and
    [end_date_after_start_date]. *)
Definition task_checks (r : Task.t) : bool :=
  status_check (Task.status r)
  && (0 <=? Task.progress r)%Z && (Task.progress r <=? 100)%Z
  && (Task.end_date r >=? Task.start_date r)%Z.

(** The foreign keys of a [tasks] row. *)
Definition task_fks (db : Db) (r : Task.t) : bool :=
  existsb (fun p => ProjectRow.id p =? Task.project_id r) (projects db)
  && match Task.assignee r with
     | Some a => includes (users db) a
     | None => true
     end.

(** Statement-level error monad: the first violated rule aborts. *)
Definition pg (A : Type) : Type := (PgCode + A)%type.

Definition guard (b : bool) (c : PgCode) : pg unit :=
  if b then inr tt else inl c.

Definition notnull {A} (o : option A) (c : PgCode) : pg A :=
  match o with Some a => inr a | None => inl c end.

Notation "x <- e ;; k" :=
  (match e with inl c => inl c | inr x => k end)
  (at level 61, e at next level, right associativity).

(** The JSON row the task service sends to [insert]. *)
Module TaskInsert.
Record t : Type := mk {
  project_id : option string;
  name : option string;
  description : option string;
  task_type : TaskType;
  status : Status;
  start_date : option Z;     (* [None]: a string that is no date *)
  end_date : option Z;
  assignee : option string;
  progress : Z;
  dependencies : list string;
  custom_fields : FieldValues
}.
End TaskInsert.

Definition Task_eq_dec : forall a b : Task.t, {a = b} + {a <> b}.
Proof.
  repeat decide equality; try apply string_dec; try apply Z.eq_dec.
Defined.

Definition ProjectRow_eq_dec : forall a b : ProjectRow.t, {a = b} + {a <> b}.
Proof.
  repeat decide equality; try apply string_dec; try apply Z.eq_dec.
Defined.

Notation "'check' e ;; k" :=
  (match e with inl c => inl c | inr _ => k end)
  (at level 61, e at next level, right associativity).

Module Managed.

Definition taskHasId (tid : string) (t : Task.t) : bool :=
  Task.id t =? tid.

Definition projectHasId (pid : string) (p : ProjectRow.t) : bool :=
  ProjectRow.id p =? pid.

Definition setTasks (ts : list Task.t) (db : Db) : Db :=
  mkDb (users db) (projects db) ts (custom_fields db) (activity_log db).

Definition setProjects (ps : list ProjectRow.t) (db : Db) : Db :=
  mkDb (users db) ps (tasks db) (custom_fields db) (activity_log db).

Definition setActivity (log : list ActivityLog.t) (db : Db) : Db :=
  mkDb (users db) (projects db) (tasks db) (custom_fields db) log.

(** ** Statements on [tasks] *)

(** Both date strings of a row of the payload can be read as dates. *)
Definition dates_convert (p : TaskInsert.t) : bool :=
  match TaskInsert.start_date p, TaskInsert.end_date p with
  | Some _, Some _ => true
  | _, _ => false
  end.

(** One row of an INSERT.  The payload is converted to the column types
    first, the two dates to DATE; then come the policy, NOT NULL, the
    defaults ([id], [created_at], [updated_at]), the CHECKs, the primary
    key and the foreign keys.  [taken] are the ids already in the table or
    earlier in the statement. *)
Definition insert_task_row (uid : option string) (db : Db) (taken : list string)
           (new_id : string) (now : Z) (p : TaskInsert.t) : pg Task.t :=
  sd <- notnull (TaskInsert.start_date p) InvalidDatetime ;;
  ed <- notnull (TaskInsert.end_date p) InvalidDatetime ;;
  check guard (can_access_project uid db (TaskInsert.project_id p)) RlsViolation ;;
  pid <- notnull (TaskInsert.project_id p) NotNullViolation ;;
  nm <- notnull (TaskInsert.name p) NotNullViolation ;;
  let row :=
    Task.mk new_id pid nm (TaskInsert.description p) (TaskInsert.task_type p)
      (TaskInsert.status p) (toDate sd) (toDate ed) (TaskInsert.assignee p)
      (TaskInsert.progress p)
      (TaskInsert.dependencies p) (TaskInsert.custom_fields p) now now in
  check guard (task_checks row) CheckViolation ;;
  check guard (negb (includes taken new_id)) UniqueViolation ;;
  check guard (task_fks db row) ForeignKeyViolation ;;
  inr row.

(** The rows of a multi-row INSERT, one after the other: the first failing
    row aborts the statement and nothing is stored. *)
Fixpoint insert_task_rows (uid : option string) (db : Db) (taken : list string)
         (ids : nat -> string) (k : nat) (now : Z) (ps : list TaskInsert.t)
  : pg (list Task.t) :=
  match ps with
  | [] => inr []
  | p :: rest =>
      r <- insert_task_row uid db taken (ids k) now p ;;
      rs <- insert_task_rows uid db (Task.id r :: taken) ids (S k) now rest ;;
      inr (r :: rs)
  end.

(** A multi-row INSERT: every row of the payload is converted to the
    column types before the first one is inserted. *)
Definition insert_task_stmt (uid : option string) (db : Db) (taken : list string)
           (ids : nat -> string) (now : Z) (ps : list TaskInsert.t)
  : pg (list Task.t) :=
  check guard (forallb dates_convert ps) InvalidDatetime ;;
  insert_task_rows uid db taken ids 0 now ps.

(** The SET list of an UPDATE as the columns take it: the two dates are
    converted to DATE. *)
Definition castUpdate (u : TaskUpdate.t) : TaskUpdate.t :=
  TaskUpdate.mk (TaskUpdate.name u) (TaskUpdate.description u)
    (TaskUpdate.task_type u) (TaskUpdate.status u)
    (option_map toDate (TaskUpdate.start_date u))
    (option_map toDate (TaskUpdate.end_date u))
    (TaskUpdate.assignee u) (TaskUpdate.progress u)
    (TaskUpdate.dependencies u) (TaskUpdate.custom_fields u)
    (TaskUpdate.updated_at u).

(** The new row of an UPDATE, with the BEFORE UPDATE trigger:
    [updated_at = NOW()] when the row changed. *)
Definition apply_update (old : Task.t) (u : TaskUpdate.t) (now : Z) : Task.t :=
  let c := castUpdate u in
  let new := mergeTask old c (or_default (TaskUpdate.updated_at c) (Task.updated_at old)) in
  if Task_eq_dec old new then new else mergeTask old c now.

(** The rows [UPDATE ... WHERE id = _] reaches under the policy. *)
Definition update_target (uid : option string) (db : Db) (id : string) (r : Task.t) : bool :=
  taskHasId id r && using_ok uid db UPDATE (RTask r).

(** [.update(updates).eq('id', id).select().single()]: exactly one row
    must come back, and it must pass WITH CHECK and the constraints. *)
Definition update_task_stmt (uid : option string) (db : Db) (now : Z) (id : string)
           (u : TaskUpdate.t) : pg (Task.t * list Task.t) :=
  match filter (update_target uid db id) (tasks db) with
  | [old] =>
      let new := apply_update old u now in
      check guard (with_check_ok uid db UPDATE (RTask new)) RlsViolation ;;
      check guard (task_checks new) CheckViolation ;;
      check guard (task_fks db new) ForeignKeyViolation ;;
      inr (new, map (fun r => if update_target uid db id r then new else r) (tasks db))
  | _ => inl NoRows
  end.

(** [ON DELETE SET NULL] of [activity_log.task_id]. *)
Definition clear_task_ref (gone : list string) (l : ActivityLog.t) : ActivityLog.t :=
  match ActivityLog.task_id l with
  | Some t =>
      if includes gone t then
        ActivityLog.mk (ActivityLog.id l) (ActivityLog.project_id l) None
          (ActivityLog.user_id l) (ActivityLog.action l) (ActivityLog.changes l)
          (ActivityLog.created_at l)
      else l
  | None => l
  end.

Definition delete_target (uid : option string) (db : Db) (id : string) (r : Task.t) : bool :=
  taskHasId id r && using_ok uid db DELETE (RTask r).

(** [.delete().eq('id', id)] on [tasks]; never an error. *)
Definition delete_task_stmt (uid : option string) (db : Db) (id : string) : Db :=
  let gone := map Task.id (filter (delete_target uid db id) (tasks db)) in
  mkDb (users db) (projects db)
    (filter (fun r => negb (delete_target uid db id r)) (tasks db))
    (custom_fields db)
    (map (clear_task_ref gone) (activity_log db)).

(** ** Statements on [activity_log] *)

Definition insert_activity_row (uid : option string) (db : Db) (new_id : string)
           (now : Z) (project_id : string) (task_id : option string)
           (user_id : string) (action : string) (changes : Changes)
  : pg ActivityLog.t :=
  let row := ActivityLog.mk new_id project_id task_id (Some user_id) action changes now in
  check guard (with_check_ok uid db INSERT (RActivity row)) RlsViolation ;;
  check guard (negb (includes (map ActivityLog.id (activity_log db)) new_id))
              UniqueViolation ;;
  check guard
    (existsb (projectHasId project_id) (projects db)
     && match task_id with
        | Some t => existsb (taskHasId t) (tasks db)
        | None => true
        end
     && includes (users db) user_id) ForeignKeyViolation ;;
  inr row.

(** [await supabase.from('activity_log').insert([...])]: the outcome is
    not looked at, a refused row is simply not there. *)
Definition insert_activity (uid : option string) (env : Env) (j k : nat)
           (project_id : string) (task_id : option string) (user_id : string)
           (action : string) (changes : Changes) (db : Db) : Db :=
  match insert_activity_row uid db (uuid env j) (clock env k) project_id
                            (str_or_null task_id) user_id action changes with
  | inr row => setActivity (activity_log db ++ [row]) db
  | inl _ => db
  end.

(** ** TaskService, managed branch *)

(** [logActivity]: the acting user is [supabase.auth.getUser()]. *)
Definition taskLogActivity (uid : option string) (env : Env) (j k : nat)
           (projectId action : string) (changes : Changes) (taskId : option string)
           (db : Db) : Db :=
  match uid with
  | Some user => insert_activity uid env j k projectId taskId user action changes db
  | None => db
  end.

Definition getProjectTasks (uid : option string) (projectId : string) (db : Db)
  : list Task.t :=
  filter (fun r => (Task.project_id r =? projectId)
                   && using_ok uid db SELECT (RTask r)) (tasks db).

(** [taskData] of [createTask]; the two dates go out as the instants
    given, the table keeps their days ([insert_task_row]). *)
Definition taskData (env : Env) (task : TaskInput.t) : TaskInsert.t :=
  TaskInsert.mk (TaskInput.project_id task) (TaskInput.name task)
    (str_or_null (TaskInput.description task))
    (or_default (TaskInput.task_type task) TTask)
    (or_default (TaskInput.status task) NotStarted)
    (dateOr (TaskInput.start_date task) (clock env 0))
    (dateOr (TaskInput.end_date task) (clock env 1))
    (str_or_null (TaskInput.assignee task))
    (or_default (TaskInput.progress task) 0%Z)
    (or_default (TaskInput.dependencies task) [])
    (or_default (TaskInput.custom_fields task) []).

Definition createTask (uid : option string) (env : Env) (task : TaskInput.t) (db : Db)
  : result Task.t * Db :=
  match insert_task_row uid db (map Task.id (tasks db)) (uuid env 0) (clock env 2)
                        (taskData env task) with
  | inl c => (Throw (PgError c), db)
  | inr data =>
      let db1 := setTasks (tasks db ++ [data]) db in
      (Ok data,
       taskLogActivity uid env 1 3 (Task.project_id data) "task_created"
                       (ChTaskName (Task.name data)) (Some (Task.id data)) db1)
  end.

Definition updateTask (uid : option string) (env : Env) (id projectId : string)
           (updates : TaskUpdate.t) (db : Db) : result Task.t * Db :=
  match update_task_stmt uid db (clock env 0) id updates with
  | inl c => (Throw (PgError c), db)
  | inr (data, ts) =>
      (Ok data,
       taskLogActivity uid env 0 1 (Task.project_id data) "task_updated"
                       (ChTaskUpdate updates) (Some id) (setTasks ts db))
  end.

Definition deleteTask (uid : option string) (env : Env) (id projectId : string) (db : Db)
  : result unit * Db :=
  (Ok tt,
   taskLogActivity uid env 0 0 projectId "task_deleted" (ChTaskId id) (Some id)
                   (delete_task_stmt uid db id)).

(** [.select('*').eq('id', id).single()]. *)
Definition selectTask (uid : option string) (id : string) (db : Db) : pg Task.t :=
  match filter (fun r => taskHasId id r && using_ok uid db SELECT (RTask r)) (tasks db) with
  | [t] => inr t
  | _ => inl NoRows
  end.

Definition updateTaskProgress (uid : option string) (env : Env) (id projectId : string)
           (progress : Z) (db : Db) : result Task.t * Db :=
  match selectTask uid id db with
  | inl c => (Throw (PgError c), db)
  | inr taskToUpdate =>
      updateTask uid env id projectId
        (progressUpdates progress (Task.status taskToUpdate)) db
  end.

(** [preparedTasks] of [importTasks]; the k-th element reads the clock at
    2k and 2k+1. *)
Definition prepareTask (env : Env) (k : nat) (task : TaskInput.t) : TaskInsert.t :=
  TaskInsert.mk (TaskInput.project_id task)
    (Some (str_or (TaskInput.name task) "Untitled Task"))
    (str_or_null (TaskInput.description task))
    (or_default (TaskInput.task_type task) TTask)
    (or_default (TaskInput.status task) NotStarted)
    (dateOr (TaskInput.start_date task) (clock env (2 * k)))
    (dateOr (TaskInput.end_date task) (clock env (2 * k + 1)))
    (str_or_null (TaskInput.assignee task))
    (or_default (TaskInput.progress task) 0%Z)
    (or_default (TaskInput.dependencies task) [])
    (or_default (TaskInput.custom_fields task) []).

Fixpoint prepareTasks (env : Env) (k : nat) (tasks : list TaskInput.t)
  : list TaskInsert.t :=
  match tasks with
  | [] => []
  | t :: rest => prepareTask env k t :: prepareTasks env (S k) rest
  end.

Definition importTasks (uid : option string) (env : Env) (tasks_in : list TaskInput.t)
           (db : Db) : result (list Task.t) * Db :=
  let n := length tasks_in in
  match insert_task_stmt uid db (map Task.id (tasks db)) (uuid env)
                         (clock env (2 * n)) (prepareTasks env 0 tasks_in) with
  | inl c => (Throw (PgError c), db)
  | inr data =>
      let db1 := setTasks (tasks db ++ data) db in
      match data with
      | first :: _ =>
          (Ok data,
           taskLogActivity uid env n (2 * n + 1) (Task.project_id first)
                           "tasks_imported" (ChCount (length data)) None db1)
      | [] => (Ok data, db1)
      end
  end.

Definition getTaskDependencies (uid : option string) (taskId : string) (db : Db)
  : result (list Task.t) :=
  match selectTask uid taskId db with
  | inl c => Throw (PgError c)
  | inr task =>
      match Task.dependencies task with
      | [] => Ok []
      | _ :: _ =>
          Ok (filter (fun r => includes (Task.dependencies task) (Task.id r)
                               && using_ok uid db SELECT (RTask r)) (tasks db))
      end
  end.

Definition canStartTask (uid : option string) (taskId : string) (db : Db) : result bool :=
  match getTaskDependencies uid taskId db with
  | Throw e => Throw e
  | Ok dependencies => Ok (allFinished dependencies)
  end.

(** ** Statements on [projects] *)

(** [tasks] and [custom_fields] are keys of the objects the project
    service passes on, and no columns of [projects]: a payload that carries
    one of them is refused before any row is looked at. *)
Definition only_columns {A B} (tasks : option A) (custom_fields : option B) : bool :=
  match tasks, custom_fields with
  | None, None => true
  | _, _ => false
  end.

(** The row [createProject] sends: [{ ...project, created_by: user.id }].
    Missing [status] and [team_members] take the column defaults. *)
Definition insert_project_row (uid : option string) (db : Db) (new_id : string)
           (now : Z) (project : ProjectInsert.t) (created_by : string)
  : pg ProjectRow.t :=
  check guard (only_columns (ProjectInsert.tasks project)
                               (ProjectInsert.custom_fields project))
              UndefinedColumn ;;
  let row :=
    ProjectRow.mk new_id (ProjectInsert.name project)
      (ProjectInsert.description project)
      (or_default (ProjectInsert.status project) Active)
      now now (Some created_by)
      (Some (or_default (ProjectInsert.team_members project) [])) in
  check guard (with_check_ok uid db INSERT (RProject row)) RlsViolation ;;
  check guard (negb (includes (map ProjectRow.id (projects db)) new_id))
              UniqueViolation ;;
  check guard (includes (users db) created_by) ForeignKeyViolation ;;
  inr row.

(** The row an UPDATE of [projects] sets from a payload made of columns
    only ([update_project_stmt] refuses the others beforehand). *)
Definition mergeProjectRow (old : ProjectRow.t) (u : ProjectUpdate.t) (lm : Z)
  : ProjectRow.t :=
  ProjectRow.mk (ProjectRow.id old)
    (or_default (ProjectUpdate.name u) (ProjectRow.name old))
    (match ProjectUpdate.description u with
     | Some d => Some d | None => ProjectRow.description old end)
    (or_default (ProjectUpdate.status u) (ProjectRow.status old))
    (ProjectRow.created_date old)
    lm
    (ProjectRow.created_by old)
    (match ProjectUpdate.team_members u with
     | Some m => Some m | None => ProjectRow.team_members old end).

(** The BEFORE UPDATE trigger of [projects]. *)
Definition apply_project_update (old : ProjectRow.t) (u : ProjectUpdate.t) (now : Z)
  : ProjectRow.t :=
  let new := mergeProjectRow old u
               (or_default (ProjectUpdate.last_modified u) (ProjectRow.last_modified old)) in
  if ProjectRow_eq_dec old new then new else mergeProjectRow old u now.

Definition project_update_target (uid : option string) (db : Db) (id : string)
           (r : ProjectRow.t) : bool :=
  projectHasId id r && using_ok uid db UPDATE (RProject r).

Definition update_project_stmt (uid : option string) (db : Db) (now : Z) (id : string)
           (u : ProjectUpdate.t) : pg (ProjectRow.t * list ProjectRow.t) :=
  check guard (only_columns (ProjectUpdate.tasks u) (ProjectUpdate.custom_fields u))
              UndefinedColumn ;;
  match filter (project_update_target uid db id) (projects db) with
  | [old] =>
      let new := apply_project_update old u now in
      check guard (with_check_ok uid db UPDATE (RProject new)) RlsViolation ;;
      inr (new,
           map (fun r => if project_update_target uid db id r then new else r)
               (projects db))
  | _ => inl NoRows
  end.

Definition project_delete_target (uid : option string) (db : Db) (id : string)
           (r : ProjectRow.t) : bool :=
  projectHasId id r && using_ok uid db DELETE (RProject r).

(** [.delete().eq('id', id)] on [projects] with its referential actions:
    ON DELETE CASCADE removes the project's tasks, custom fields and
    activity entries; the removed tasks in turn clear [task_id] in the
    activity entries that are left. *)
Definition delete_project_stmt (uid : option string) (db : Db) (id : string) : Db :=
  if existsb (project_delete_target uid db id) (projects db) then
    let gone :=
      map Task.id (filter (fun t => Task.project_id t =? id) (tasks db)) in
    mkDb (users db)
      (filter (fun r => negb (project_delete_target uid db id r)) (projects db))
      (filter (fun t => negb (Task.project_id t =? id)) (tasks db))
      (filter (fun c => negb (CustomFieldRow.project_id c =? id)) (custom_fields db))
      (map (clear_task_ref gone)
           (filter (fun l => negb (ActivityLog.project_id l =? id)) (activity_log db)))
  else db.

(** ** ProjectService, managed branch *)

(** [logActivity(projectId, userId, action, changes, taskId)]. *)
Definition logActivity (uid : option string) (env : Env) (j k : nat)
           (projectId userId action : string) (changes : Changes)
           (taskId : option string) (db : Db) : Db :=
  insert_activity uid env j k projectId taskId userId action changes db.

Definition createProject (uid : option string) (env : Env) (project : ProjectInsert.t)
           (db : Db) : result ProjectRow.t * Db :=
  match uid with
  | None => (Throw (JsError "User not authenticated"), db)
  | Some user =>
      match insert_project_row uid db (uuid env 0) (clock env 0) project user with
      | inl c => (Throw (PgError c), db)
      | inr data =>
          (Ok data,
           logActivity uid env 1 1 (ProjectRow.id data) user "project_created"
                       (ChProjectName (ProjectRow.name data)) None
                       (setProjects (projects db ++ [data]) db))
      end
  end.

Definition updateProject (uid : option string) (env : Env) (id : string)
           (updates : ProjectUpdate.t) (db : Db) : result ProjectRow.t * Db :=
  let fu := finalUpdates updates (clock env 0) in
  match uid with
  | None => (Throw (JsError "User not authenticated"), db)
  | Some user =>
      match update_project_stmt uid db (clock env 1) id fu with
      | inl c => (Throw (PgError c), db)
      | inr (data, ps) =>
          (Ok data,
           logActivity uid env 0 2 id user "project_updated" (ChProjectUpdate fu) None
                       (setProjects ps db))
      end
  end.

Definition deleteProject (uid : option string) (env : Env) (id : string) (db : Db)
  : result unit * Db :=
  match uid with
  | None => (Throw (JsError "User not authenticated"), db)
  | Some user =>
      (Ok tt,
       logActivity uid env 0 0 id user "project_deleted" (ChProjectId id) None
                   (delete_project_stmt uid db id))
  end.

Definition getProjectActivity (uid : option string) (projectId : string) (db : Db)
  : list ActivityLog.t :=
  filter (fun l => (ActivityLog.project_id l =? projectId)
                   && using_ok uid db SELECT (RActivity l)) (activity_log db).

End Managed.

(* ================================================================== *)
(** * The raw-SQL project service (src/services/projectService.ts) *)
(* ================================================================== *)

Module SqlServer.

(** [import.meta.env.VITE_BACKEND_TYPE]. *)
Inductive Backend : Type := Sqlserver | Supabase.

(** [getUserProjects]: ['SELECT * FROM projects'] against SQL Server,
    [.from('projects').select('*')] against the managed backend, where
    the SELECT policy filters the rows.  The function takes no principal;
    [uid] is the session the managed backend sees. *)
Definition getUserProjects (backend : Backend) (uid : option string) (db : Db)
  : list ProjectRow.t :=
  match backend with
  | Sqlserver => projects db
  | Supabase => filter (fun r => using_ok uid db SELECT (RProject r)) (projects db)
  end.

(** [createProject]: the SQL Server INSERT names the columns [name],
    [description], [status], [team_members] and no owner; the managed
    branch refuses an anonymous caller and stores [created_by].  The SQL
    Server table itself is not among the sources: the row handed back by
    [OUTPUT INSERTED.*] is taken to carry the four values sent and no
    owner. *)
Definition createProject (backend : Backend) (uid : option string) (env : Env)
           (project : ProjectInsert.t) (db : Db) : result ProjectRow.t * Db :=
  match backend with
  | Sqlserver =>
      let row :=
        ProjectRow.mk (uuid env 0) (ProjectInsert.name project)
          (ProjectInsert.description project)
          (or_default (ProjectInsert.status project) Active)
          (clock env 0) (clock env 0) None
          (Some (or_default (ProjectInsert.team_members project) [])) in
      (Ok row, Managed.setProjects (projects db ++ [row]) db)
  | Supabase =>
      match uid with
      | None => (Throw (JsError "User must be authenticated to create a project."), db)
      | Some user =>
          match Managed.insert_project_row uid db (uuid env 0) (clock env 0) project user with
          | inl c => (Throw (PgError c), db)
          | inr row => (Ok row, Managed.setProjects (projects db ++ [row]) db)
          end
      end
  end.

End SqlServer.

(* ================================================================== *)
(** * Vocabulary of the properties *)
(* ================================================================== *)

Definition none_of {A} (f : A -> bool) (l : list A) : Prop :=
  forall x, In x l -> f x = false.

(** [Located st pid id ps1 P ps2 ts1 T ts2]: in the stored blob, [P] is the
    first project with id [pid] and [T] the first of its tasks with id
    [id]; the other letters name what surrounds them. *)
Definition Located (st : LocalStore) (pid id : string)
           (ps1 : list DemoProject.t) (P : DemoProject.t) (ps2 : list DemoProject.t)
           (ts1 : list Task.t) (T : Task.t) (ts2 : list Task.t) : Prop :=
  loadDemoProjects st = ps1 ++ P :: ps2
  /\ none_of (Demo.projectHasId pid) ps1
  /\ Demo.projectHasId pid P = true
  /\ DemoProject.tasks P = Some (ts1 ++ T :: ts2)
  /\ none_of (Demo.taskHasId id) ts1
  /\ Demo.taskHasId id T = true.

(** The transition table of the specification, as a relation between the
    progress value, the status before and the status after. *)
Definition progress_rule (p : Z) (prior post : Status) : Prop :=
  (p <= 0 -> post = NotStarted)%Z
  /\ (0 < p -> p >= 100 -> post = Completed)%Z
  /\ (0 < p < 100 -> prior = NotStarted \/ prior = Completed -> post = InProgress)%Z
  /\ (0 < p < 100 -> prior <> NotStarted -> prior <> Completed -> post = prior)%Z.

(** The fields of a task other than [progress], [status] and
    [updated_at]. *)
Definition same_but_progress (T T' : Task.t) : Prop :=
  Task.id T' = Task.id T
  /\ Task.project_id T' = Task.project_id T
  /\ Task.name T' = Task.name T
  /\ Task.description T' = Task.description T
  /\ Task.task_type T' = Task.task_type T
  /\ Task.start_date T' = Task.start_date T
  /\ Task.end_date T' = Task.end_date T
  /\ Task.assignee T' = Task.assignee T
  /\ Task.dependencies T' = Task.dependencies T
  /\ Task.custom_fields T' = Task.custom_fields T
  /\ Task.created_at T' = Task.created_at T.

(** ** Sample data *)

Definition sampleEnv : Env :=
  mkEnv (fun k => 1000 + Z.of_nat k)%Z
        (fun k => match k with
                  | 0 => "new-0" | 1 => "new-1" | 2 => "new-2"
                  | 3 => "new-3" | 4 => "new-4" | _ => "new-5"
                  end).

Definition sampleTask (id : string) (st : Status) (deps : list string) : Task.t :=
  Task.mk id "p1" "Task" None TTask st 10 20 None 50 deps [] 1 1.

Definition sampleProject (ts : list Task.t) : DemoProject.t :=
  DemoProject.mk "p1" "Sample Project" (Some "") Active 1 1 "demo_user" [] (Some ts) [] None.

Definition sampleStore (ts : list Task.t) : LocalStore :=
  mkLocalStore (Some [sampleProject ts]) None [sampleProject ts] [].

Definition sampleRow (owner : option string) (members : list string) : ProjectRow.t :=
  ProjectRow.mk "p1" "Sample Project" None Active 1 1 owner (Some members).

Definition sampleDb (ts : list Task.t) (log : list ActivityLog.t) : Db :=
  mkDb ["alice"; "bob"; "carol"] [sampleRow (Some "alice") ["bob"]] ts [] log.

(** ** C4 in the words of the specification *)

(** A dependency id resolves to a task: some stored project holds a task
    with that id. *)
Definition resolves (st : LocalStore) (d : string) (D : Task.t) : Prop :=
  exists P, In P (loadDemoProjects st)
            /\ In D (or_default (DemoProject.tasks P) [])
            /\ Task.id D = d.

Definition finished (s : Status) : Prop := s = Completed \/ s = Done.

(** "Every task id in T's dependencies list resolves to a task whose status
    is completed (or done)". *)
Definition every_dependency_completed (st : LocalStore) (T : Task.t) : Prop :=
  forall d, In d (Task.dependencies T) ->
            exists D, resolves st d D /\ finished (Task.status D).

(** A task whose only dependency names no stored task. *)
Definition danglingTask : Task.t := sampleTask "t1" NotStarted ["ghost"].

Definition danglingStore : LocalStore := sampleStore [danglingTask].

(** ** C5 in the words of the specification *)



(** A task specification with the given dates for project [pid]. *)
Definition datedInput (pid : string) (s e : DateInput) : TaskInput.t :=
  TaskInput.mk (Some pid) (Some "Dated") None None None s e None None None None.

(** An update that sets both dates. *)
Definition datedUpdate (s e : Z) : TaskUpdate.t :=
  TaskUpdate.mk None None None None (Some s) (Some e) None None None None None.

(** ** C6 in the words of the specification *)

(** The project a specification is addressed to:
    [p.id === task.project_id]. *)
Definition targets (task : TaskInput.t) (p : DemoProject.t) : bool :=
  id_is (TaskInput.project_id task) (DemoProject.id p).

(** A task is stored: some project of the blob lists it. *)
Definition stored (st : LocalStore) (t : Task.t) : Prop :=
  exists P, In P (loadDemoProjects st) /\ In t (or_default (DemoProject.tasks P) []).

(** What the k-th specification yields when it is imported on its own into
    the store [st]: the created task, or nothing when it is skipped or its
    creation fails. *)
Definition alone (envs : nat -> Env) (k : nat) (task : TaskInput.t) (st : LocalStore)
  : option Task.t :=
  if truthy (TaskInput.project_id task) then
    match fst (Demo.createTask (envs k) task st) with
    | Ok t => Some t
    | Throw _ => None
    end
  else None.

(** The successfully created subset, in the order of the specifications. *)
Fixpoint created_subset (envs : nat -> Env) (k : nat) (tasks : list TaskInput.t)
         (st : LocalStore) : list Task.t :=
  match tasks with
  | [] => []
  | task :: rest =>
      match alone envs k task st with
      | Some t => t :: created_subset envs (S k) rest st
      | None => created_subset envs (S k) rest st
      end
  end.

(** A row the managed backend refuses whatever id it is given. *)
Definition refused (uid : option string) (db : Db) (p : TaskInsert.t) : Prop :=
  forall taken new_id now, exists c,
    Managed.insert_task_row uid db taken new_id now p = inl c.

(** Five specifications for project p1, the third with a start date that is
    no date. *)
Definition fiveSpecs : list TaskInput.t :=
  [ datedInput "p1" (DateOk 1) (DateOk 2);
    datedInput "p1" (DateOk 2) (DateOk 3);
    datedInput "p1" DateBad (DateOk 4);
    datedInput "p1" (DateOk 4) (DateOk 5);
    datedInput "p1" NoDate NoDate ].

(** Per-element environments of an import. *)
Definition sampleEnvs (k : nat) : Env :=
  mkEnv (fun j => 1000 + Z.of_nat (2 * k + j))%Z
        (fun _ => match k with
                  | 0 => "imp-0" | 1 => "imp-1" | 2 => "imp-2"
                  | 3 => "imp-3" | _ => "imp-4"
                  end).

(** ** C1 in the words of the specification *)

(** "P is the owner (created_by) of X or P's identifier is an element of
    X's team_members set". *)
Definition owner_or_member (P : string) (X : ProjectRow.t) : Prop :=
  ProjectRow.created_by X = Some P
  \/ exists members, ProjectRow.team_members X = Some members /\ In P members.

(** The predicate on the project a row belongs to: the row itself for a
    row of [projects], the stored project with the row's [project_id] for
    the other tables. *)
Definition may_access (P : string) (db : Db) (row : Row) : Prop :=
  match row with
  | RProject X => owner_or_member P X
  | _ => exists X, In X (projects db)
                   /\ ProjectRow.id X = row_project_id row
                   /\ owner_or_member P X
  end.

Definition is_project_row (row : Row) : bool :=
  match row with RProject _ => true | _ => false end.

Definition is_activity_row (row : Row) : bool :=
  match row with RActivity _ => true | _ => false end.

Definition row_user_id (row : Row) : option string :=
  match row with RActivity l => ActivityLog.user_id l | _ => None end.

Definition row_created_by (row : Row) : option string :=
  match row with RProject r => ProjectRow.created_by r | _ => None end.

(** ** C7 in the words of the specification *)

(** An entry "recording the action tag, the acting principal and a
    structured payload of what changed". *)
Definition entry (id project_id : string) (task_id : option string) (user : string)
           (action : string) (changes : Changes) (at_ : Z) : ActivityLog.t :=
  ActivityLog.mk id project_id task_id (Some user) action changes at_.

(** The session user is a row of [auth.users]. *)
Definition session_ok (uid : option string) (db : Db) : Prop :=
  forall user, uid = Some user -> In user (users db).

(** The id the backend draws for the entry is not taken. *)
Definition fresh_log_id (id : string) (db : Db) : Prop :=
  ~ In id (map ActivityLog.id (activity_log db)).

(** ** C8 in the words of the specification *)

Definition twoIds (a b : string) : Env :=
  mkEnv (fun k => Z.of_nat k) (fun k => match k with 0 => a | _ => b end).

Definition emptyDb : Db := mkDb ["alice"] [] [] [] [].

(** Create a project, then three tasks under it. *)
Definition roundTripBefore : Db :=
  let db1 := snd (Managed.createProject (Some "alice") (twoIds "P" "log-P")
                    (ProjectInsert.mk "Round trip" None None None None None) emptyDb) in
  let db2 := snd (Managed.createTask (Some "alice") (twoIds "T1" "log-T1")
                    (datedInput "P" (DateOk 1) (DateOk 2)) db1) in
  let db3 := snd (Managed.createTask (Some "alice") (twoIds "T2" "log-T2")
                    (datedInput "P" (DateOk 2) (DateOk 3)) db2) in
  snd (Managed.createTask (Some "alice") (twoIds "T3" "log-T3")
         (datedInput "P" (DateOk 3) (DateOk 4)) db3).

(** ... then delete the project. *)
Definition roundTripAfter : Db :=
  snd (Managed.deleteProject (Some "alice") (twoIds "log-D" "log-D") "P" roundTripBefore).

(** "Every ActivityLog row that referenced the deleted tasks still exists
    with its task reference cleared to null". *)
Definition task_entries_survive (before after : Db) : Prop :=
  forall l t,
    In l (activity_log before) ->
    ActivityLog.task_id l = Some t ->
    ~ In t (map Task.id (tasks after)) ->
    exists l', In l' (activity_log after)
               /\ ActivityLog.id l' = ActivityLog.id l
               /\ ActivityLog.task_id l' = None.

(** The task id belongs to a task of project [pid]. *)
Definition task_of_project (db : Db) (pid t : string) : Prop :=
  exists T, In T (tasks db) /\ Task.project_id T = pid /\ Task.id T = t.

(** Two activity entries that differ at most in their task reference. *)
Definition same_entry_but_task (l l' : ActivityLog.t) : Prop :=
  ActivityLog.id l' = ActivityLog.id l
  /\ ActivityLog.project_id l' = ActivityLog.project_id l
  /\ ActivityLog.user_id l' = ActivityLog.user_id l
  /\ ActivityLog.action l' = ActivityLog.action l
  /\ ActivityLog.changes l' = ActivityLog.changes l
  /\ ActivityLog.created_at l' = ActivityLog.created_at l.

(* ================================================================== *)
(** * Identifier validation (idGenerator, isValidUUID) *)
(* ================================================================== *)

From Stdlib Require Import Ascii.

Definition ascii_between (lo hi c : Ascii.ascii) : bool :=
  (Ascii.nat_of_ascii lo <=? Ascii.nat_of_ascii c)%nat
  && (Ascii.nat_of_ascii c <=? Ascii.nat_of_ascii hi)%nat.

(** [[0-9a-f]] under the [i] flag. *)
Definition isHexDigit (c : Ascii.ascii) : bool :=
  ascii_between "0"%char "9"%char c || ascii_between "a"%char "f"%char c
  || ascii_between "A"%char "F"%char c.

(** [[89ab]] under the [i] flag. *)
Definition isVariantDigit (c : Ascii.ascii) : bool :=
  existsb (Ascii.eqb c) ["8"; "9"; "a"; "b"; "A"; "B"]%char.

(** One character class, then the rest of the input. *)
Definition matchClass (f : Ascii.ascii -> bool) (s : string) : option string :=
  match s with
  | String c rest => if f c then Some rest else None
  | EmptyString => None
  end.

(** [cls{n}]. *)
Fixpoint matchRun (f : Ascii.ascii -> bool) (n : nat) (s : string) : option string :=
  match n with
  | 0 => Some s
  | S k =>
      match matchClass f s with
      | Some rest => matchRun f k rest
      | None => None
      end
  end.

Definition andThen (o : option string) (k : string -> option string) : option string :=
  match o with Some s => k s | None => None end.

(** [/^[0-9a-f]{8}-[0-9a-f]{4}-4[0-9a-f]{3}-[89ab][0-9a-f]{3}-[0-9a-f]{12}$/i]. *)
Definition isValidUUID (id : string) : bool :=
  let dash := matchClass (Ascii.eqb "-"%char) in
  match
    andThen (andThen (andThen (andThen (andThen (andThen (andThen (andThen (andThen
    (andThen (matchRun isHexDigit 8 id)
      dash) (matchRun isHexDigit 4))
      dash) (matchClass (Ascii.eqb "4"%char))) (matchRun isHexDigit 3))
      dash) (matchClass isVariantDigit)) (matchRun isHexDigit 3))
      dash) (matchRun isHexDigit 12)
  with
  | Some EmptyString => true
  | _ => false
  end.

(** ASCII lower-casing, to speak about the [i] flag. *)
Definition lowerAscii (c : Ascii.ascii) : Ascii.ascii :=
  if ascii_between "A"%char "Z"%char c
  then Ascii.ascii_of_nat (Ascii.nat_of_ascii c + 32)
  else c.

Fixpoint lowerString (s : string) : string :=
  match s with
  | EmptyString => EmptyString
  | String c rest => String (lowerAscii c) (lowerString rest)
  end.

(* ================================================================== *)
(** * Project statistics (pages/ProjectDetail.tsx, projectStats) *)
(* ================================================================== *)

(** The string a task type is stored as. *)
Definition task_type_str (t : TaskType) : string :=
  match t with
  | TTask => "task"
  | TMilestone => "milestone"
  | TDeliverable => "deliverable"
  end.

Record ProjectStats : Type := mkStats {
  total : nat;
  completed : nat;
  inProgress : nat;
  impacted : nat;
  milestones : nat
}.

(** [projectStats]; [None] is the page without a loaded project.  The
    tasks of the page are those the services hand over, so they are taken
    at the [Task] type of the task service, whose [task_type] has the
    three values of the table. *)
Definition projectStats (project : option (list Task.t)) : ProjectStats :=
  match project with
  | None => mkStats 0 0 0 0 0
  | Some tasks =>
      mkStats
        (length tasks)
        (length (filter (fun task => Status_eqb (Task.status task) Completed) tasks))
        (length (filter (fun task => Status_eqb (Task.status task) InProgress) tasks))
        (length (filter (fun task => task_type_str (Task.task_type task) =? "impacted") tasks))
        (length (filter (fun task => task_type_str (Task.task_type task) =? "milestone") tasks))
  end.

(* ================================================================== *)
(** * Vocabulary of the further properties *)
(* ================================================================== *)

(** The stored blob holds a project with this id. *)
Definition has_project (st : LocalStore) (pid : string) : Prop :=
  exists P, In P (loadDemoProjects st) /\ DemoProject.id P = pid.

(** Storage and module state of the project service agree. *)
Definition in_sync (st : LocalStore) : Prop :=
  ls_projects st = Some (demoProjects st)
  /\ ls_activity st = Some (demoActivityLog st).

(** No row of [tasks] with this id is visible to the caller. *)
Definition task_hidden (uid : option string) (db : Db) (id : string) : Prop :=
  forall t, In t (tasks db) -> Task.id t = id ->
            can_access_project uid db (Some (Task.project_id t)) = false.


(** A specification with a name and everything else left out. *)
Definition namedInput (pid : string) (name : option string) : TaskInput.t :=
  TaskInput.mk (Some pid) name None None None NoDate NoDate None None None None.

(** An update that only sets the status. *)
Definition statusUpdate (s : Status) : TaskUpdate.t :=
  TaskUpdate.mk None None None (Some s) None None None None None None None.

(** An update that only sets the team. *)
Definition teamUpdate (members : list string) : ProjectUpdate.t :=
  ProjectUpdate.mk None None None None (Some members) None None.

(** A specification the demo import can store under project [pid]: it
    names that project and neither date fails to parse. *)
Definition importable (pid : string) (s : TaskInput.t) : Prop :=
  TaskInput.project_id s = Some pid
  /\ TaskInput.start_date s <> DateBad
  /\ TaskInput.end_date s <> DateBad.

(* ================================================================== *)
(** * Properties *)
(* ================================================================== *)

(** ** Lists as JavaScript arrays *)


Lemma find_split {A} (f : A -> bool) (l : list A) (x : A) :
  find f l = Some x ->
  exists l1 l2, l = l1 ++ x :: l2 /\ none_of f l1 /\ f x = true.
Proof.
  induction l as [|a l IH]; simpl; [discriminate|].
  destruct (f a) eqn:Fa.
  - intros [= ->]. exists [], l. repeat split; auto. intros ? [].
  - intros H. destruct (IH H) as (l1 & l2 & -> & N & Fx).
    exists (a :: l1), l2. repeat split; auto.
    intros y [<-|Hy]; auto.
Qed.

Lemma find_none_of {A} (f : A -> bool) (l : list A) :
  find f l = None -> none_of f l.
Proof.
  intros H x Hx. apply (find_none f l H x Hx).
Qed.

Lemma find_at_split {A} (f : A -> bool) (l1 l2 : list A) (x : A) :
  none_of f l1 -> f x = true -> find f (l1 ++ x :: l2) = Some x.
Proof.
  induction l1 as [|a l1 IH]; simpl; intros N Fx.
  - now rewrite Fx.
  - rewrite (N a (or_introl eq_refl)). apply IH; auto.
    intros y Hy. apply N. now right.
Qed.

Lemma findIndex_at_split {A} (f : A -> bool) (l1 l2 : list A) (x : A) :
  none_of f l1 -> f x = true -> findIndex f (l1 ++ x :: l2) = Some (length l1).
Proof.
  induction l1 as [|a l1 IH]; simpl; intros N Fx.
  - now rewrite Fx.
  - rewrite (N a (or_introl eq_refl)). rewrite IH; auto.
    intros y Hy. apply N. now right.
Qed.

Lemma findIndex_none {A} (f : A -> bool) (l : list A) :
  none_of f l -> findIndex f l = None.
Proof.
  induction l as [|a l IH]; simpl; intros N; auto.
  rewrite (N a (or_introl eq_refl)). rewrite IH; auto.
  intros y Hy. apply N. now right.
Qed.

Lemma nth_error_at_split {A} (l1 l2 : list A) (x : A) :
  nth_error (l1 ++ x :: l2) (length l1) = Some x.
Proof.
  induction l1; simpl; auto.
Qed.

Lemma set_at_split {A} (l1 l2 : list A) (x v : A) :
  set_at (length l1) v (l1 ++ x :: l2) = l1 ++ v :: l2.
Proof.
  induction l1; simpl; auto. now rewrite IHl1.
Qed.

Lemma Status_eqb_eq (a b : Status) : Status_eqb a b = true <-> a = b.
Proof.
  destruct a, b; simpl; split; intros H; try reflexivity; discriminate.
Qed.

Lemma includes_In (l : list string) (s : string) : includes l s = true <-> In s l.
Proof.
  unfold includes. rewrite existsb_exists. split.
  - intros (x & Hx & E). apply String.eqb_eq in E. now subst.
  - intros H. exists s. split; auto. apply String.eqb_refl.
Qed.

(** ** The demo store seen through its first matching project and task *)


Lemma findTask_Located (st : LocalStore) (pid id : string) (T : Task.t) :
  Demo.findTask id pid st = Some T ->
  exists ps1 P ps2 ts1 ts2, Located st pid id ps1 P ps2 ts1 T ts2.
Proof.
  unfold Demo.findTask.
  destruct (find (Demo.projectHasId pid) (loadDemoProjects st)) as [P|] eqn:FP;
    [|discriminate].
  destruct (DemoProject.tasks P) as [ts|] eqn:TP; [|discriminate].
  intros FT.
  destruct (find_split _ _ _ FP) as (ps1 & ps2 & E1 & N1 & H1).
  destruct (find_split _ _ _ FT) as (ts1 & ts2 & E2 & N2 & H2).
  exists ps1, P, ps2, ts1, ts2. unfold Located. subst ts. auto 10.
Qed.

Lemma Located_findTask st pid id ps1 P ps2 ts1 T ts2 :
  Located st pid id ps1 P ps2 ts1 T ts2 -> Demo.findTask id pid st = Some T.
Proof.
  intros (E & N1 & H1 & TP & N2 & H2). unfold Demo.findTask.
  rewrite E, (find_at_split _ _ _ _ N1 H1), TP.
  now apply find_at_split.
Qed.

(** What [updateTask] does to a located task. *)
Lemma demo_updateTask_Located env st pid id u ps1 P ps2 ts1 T ts2 :
  Located st pid id ps1 P ps2 ts1 T ts2 ->
  Demo.updateTask env id pid u st =
  (Ok (mergeTask T u (clock env 0)),
   saveDemoProjects
     (ps1 ++ DemoProject.with_tasks P (ts1 ++ mergeTask T u (clock env 0) :: ts2)
                                    (DemoProject.lastModified P) :: ps2) st).
Proof.
  intros (E & N1 & H1 & TP & N2 & H2). unfold Demo.updateTask.
  rewrite E, (findIndex_at_split _ _ _ _ N1 H1), nth_error_at_split, TP.
  rewrite (findIndex_at_split _ _ _ _ N2 H2), nth_error_at_split.
  now rewrite !set_at_split.
Qed.

Lemma mergeTask_progressUpdates_status (T : Task.t) (p now : Z) :
  Task.status (mergeTask T (progressUpdates p (Task.status T)) now)
  = deriveStatus p (Task.status T).
Proof.
  unfold mergeTask, progressUpdates. simpl.
  destruct (Status_eqb (deriveStatus p (Task.status T)) (Task.status T)) eqn:E; simpl; auto.
  apply Status_eqb_eq in E. now rewrite E.
Qed.


Lemma deriveStatus_rule (p : Z) (prior : Status) :
  progress_rule p prior (deriveStatus p prior).
Proof.
  unfold progress_rule, deriveStatus.
  destruct (p <=? 0)%Z eqn:L; [apply Z.leb_le in L | apply Z.leb_gt in L].
  - repeat split; intros; auto; lia.
  - destruct (p >=? 100)%Z eqn:G; rewrite Z.geb_leb in G;
      [apply Z.leb_le in G | apply Z.leb_gt in G].
    + repeat split; intros; auto; lia.
    + repeat split; intros; try lia.
      * destruct H0 as [-> | ->]; reflexivity.
      * destruct prior; simpl; auto; congruence.
Qed.

(** ** The managed statements, read backwards *)

Lemma taskLogActivity_tables uid env j k pid action ch tid db :
  let db' := Managed.taskLogActivity uid env j k pid action ch tid db in
  users db' = users db /\ projects db' = projects db
  /\ tasks db' = tasks db /\ custom_fields db' = custom_fields db.
Proof.
  unfold Managed.taskLogActivity, Managed.insert_activity.
  destruct uid as [user|]; simpl; auto.
  destruct Managed.insert_activity_row; simpl; auto.
Qed.

Lemma select_is_update_target uid db id :
  filter (fun r => Managed.taskHasId id r && using_ok uid db SELECT (RTask r)) (tasks db)
  = filter (Managed.update_target uid db id) (tasks db).
Proof. reflexivity. Qed.

Lemma update_task_stmt_inv uid db now id u new ts :
  Managed.update_task_stmt uid db now id u = inr (new, ts) ->
  exists old,
    filter (Managed.update_target uid db id) (tasks db) = [old]
    /\ new = Managed.apply_update old u now
    /\ ts = map (fun r => if Managed.update_target uid db id r then new else r) (tasks db)
    /\ task_checks new = true.
Proof.
  unfold Managed.update_task_stmt.
  destruct (filter _ (tasks db)) as [|old [|? ?]] eqn:F; try discriminate.
  destruct (with_check_ok _ _ _ _); simpl; try discriminate.
  destruct (task_checks _) eqn:C; simpl; try discriminate.
  destruct (task_fks _ _); simpl; try discriminate.
  intros [= <- <-]. exists old. auto.
Qed.

Lemma apply_update_fields old u now :
  let new := Managed.apply_update old u now in
  Task.id new = Task.id old
  /\ Task.project_id new = Task.project_id old
  /\ Task.created_at new = Task.created_at old
  /\ Task.status new = or_default (TaskUpdate.status u) (Task.status old)
  /\ Task.progress new = or_default (TaskUpdate.progress u) (Task.progress old).
Proof.
  unfold Managed.apply_update.
  destruct Task_eq_dec; simpl; auto.
Qed.

Lemma or_default_progress_status (p : Z) (prior : Status) :
  or_default (TaskUpdate.status (progressUpdates p prior)) prior = deriveStatus p prior.
Proof.
  unfold progressUpdates. simpl.
  destruct (Status_eqb (deriveStatus p prior) prior) eqn:E; simpl; auto.
  apply Status_eqb_eq in E. now rewrite E.
Qed.

(** A successful managed [updateTaskProgress], unfolded: the row it read,
    the row it wrote and the table it left. *)
Lemma managed_updateTaskProgress_inv uid env id pid p db T' db' :
  Managed.updateTaskProgress uid env id pid p db = (Ok T', db') ->
  exists T,
    Managed.selectTask uid id db = inr T
    /\ filter (Managed.update_target uid db id) (tasks db) = [T]
    /\ T' = Managed.apply_update T (progressUpdates p (Task.status T)) (clock env 0)
    /\ tasks db' = map (fun r => if Managed.update_target uid db id r then T' else r) (tasks db)
    /\ users db' = users db /\ projects db' = projects db
    /\ custom_fields db' = custom_fields db.
Proof.
  unfold Managed.updateTaskProgress.
  destruct (Managed.selectTask uid id db) as [c|T] eqn:S; [discriminate|].
  unfold Managed.updateTask.
  destruct (Managed.update_task_stmt _ _ _ _ _) as [c|[new ts]] eqn:U; [discriminate|].
  intros [= <- <-].
  destruct (update_task_stmt_inv _ _ _ _ _ _ _ U) as (old & F & -> & -> & _).
  assert (old = T) as ->.
  { unfold Managed.selectTask in S. rewrite select_is_update_target, F in S.
    now injection S. }
  exists T. repeat split; auto;
    match goal with
    | |- context [Managed.taskLogActivity ?a ?b ?c ?d ?e ?f ?g ?h ?i] =>
        destruct (taskLogActivity_tables a b c d e f g h i) as (? & ? & ? & ?)
    end; simpl in *; congruence.
Qed.

(** ** C3: progress-driven status *)

(** The boundary values of the table, and a task on hold at 50. *)
Lemma deriveStatus_boundaries :
  deriveStatus 0 InProgress = NotStarted
  /\ deriveStatus 1 NotStarted = InProgress
  /\ deriveStatus 99 Completed = InProgress
  /\ deriveStatus 100 OnHold = Completed
  /\ deriveStatus 50 OnHold = OnHold
  /\ deriveStatus 50 Impacted = Impacted.
Proof. repeat split. Qed.

(** C3. In both variants, the status [updateTaskProgress] leaves on the
    task follows the table of the specification, in its order: progress at
    or below 0 gives not-started, else progress at or above 100 gives
    completed, else a task that was not-started or completed becomes
    in-progress, else the status is kept.  In the demo variant the call
    succeeds on every stored task and the stored task carries that status;
    in the managed variant every call that succeeds stores such a row. *)
Theorem updateTaskProgress_status (p : Z) (T : Task.t) :
  (forall env id pid st,
      Demo.findTask id pid st = Some T ->
      exists T' st',
        Demo.updateTaskProgress env id pid p st = (Ok T', st')
        /\ Demo.findTask id pid st' = Some T'
        /\ Task.status T' = deriveStatus p (Task.status T)
        /\ progress_rule p (Task.status T) (Task.status T'))
  /\ (forall uid env id pid db T' db',
         Managed.selectTask uid id db = inr T ->
         Managed.updateTaskProgress uid env id pid p db = (Ok T', db') ->
         In T' (tasks db')
         /\ Task.status T' = deriveStatus p (Task.status T)
         /\ progress_rule p (Task.status T) (Task.status T')).
Proof.
  split.
  - intros env id pid st F.
    destruct (findTask_Located _ _ _ _ F) as (ps1 & P & ps2 & ts1 & ts2 & L).
    unfold Demo.updateTaskProgress. rewrite F.
    rewrite (demo_updateTask_Located env _ _ _ _ _ _ _ _ _ _ L).
    eexists _, _. split; [reflexivity|].
    assert (S : Task.status (mergeTask T (progressUpdates p (Task.status T)) (clock env 0))
                = deriveStatus p (Task.status T))
      by apply mergeTask_progressUpdates_status.
    split; [|split; [exact S | rewrite S; apply deriveStatus_rule]].
    destruct L as (E & N1 & H1 & TP & N2 & H2).
    eapply (Located_findTask _ pid id ps1 _ ps2 ts1 _ ts2).
    unfold Located, saveDemoProjects, loadDemoProjects; simpl.
    split; [reflexivity|]. repeat split; auto.
  - intros uid env id pid db T' db' S U.
    destruct (managed_updateTaskProgress_inv _ _ _ _ _ _ _ _ U)
      as (T0 & S0 & F & -> & Ts & _).
    rewrite S in S0. injection S0 as <-.
    assert (St : Task.status (Managed.apply_update T (progressUpdates p (Task.status T))
                                                   (clock env 0))
                 = deriveStatus p (Task.status T)).
    { destruct (apply_update_fields T (progressUpdates p (Task.status T)) (clock env 0))
        as (_ & _ & _ & -> & _).
      apply or_default_progress_status. }
    split; [|split; [exact St | rewrite St; apply deriveStatus_rule]].
    rewrite Ts. apply in_map_iff. exists T.
    assert (I : In T (filter (Managed.update_target uid db id) (tasks db)))
      by (rewrite F; now left).
    apply filter_In in I. destruct I as [I ->]. auto.
Qed.

(** ** C9: what a progress update leaves alone *)

Lemma find_swap {A} (f : A -> bool) (l1 l2 : list A) (x y : A) :
  f x = false -> f y = false ->
  find f (l1 ++ x :: l2) = find f (l1 ++ y :: l2).
Proof.
  intros Fx Fy. induction l1 as [|a l1 IH]; simpl.
  - now rewrite Fx, Fy.
  - now rewrite IH.
Qed.

Lemma filter_one_split {A} (f : A -> bool) (l : list A) (x : A) :
  filter f l = [x] ->
  exists l1 l2, l = l1 ++ x :: l2 /\ none_of f l1 /\ none_of f l2 /\ f x = true.
Proof.
  induction l as [|a l IH]; simpl; [discriminate|].
  destruct (f a) eqn:Fa.
  - intros [= -> E]. exists [], l. repeat split; auto.
    + intros ? [].
    + intros y Hy. destruct (f y) eqn:Fy; auto.
      assert (In y (filter f l)) by (apply filter_In; auto).
      rewrite E in H. destruct H.
  - intros E. destruct (IH E) as (l1 & l2 & -> & N1 & N2 & Fx).
    exists (a :: l1), l2. repeat split; auto.
    intros y [<-|Hy]; auto.
Qed.

Lemma map_replace_split {A} (f : A -> bool) (l1 l2 : list A) (x v : A) :
  none_of f l1 -> none_of f l2 -> f x = true ->
  map (fun r => if f r then v else r) (l1 ++ x :: l2) = l1 ++ v :: l2.
Proof.
  intros N1 N2 Fx.
  assert (K : forall l, none_of f l -> map (fun r => if f r then v else r) l = l).
  { induction l as [|a l IH]; simpl; intros N; auto.
    rewrite (N a (or_introl eq_refl)), IH; auto.
    intros y Hy. apply N. now right. }
  rewrite map_app. simpl. now rewrite Fx, !K.
Qed.

Lemma mergeTask_progress_frame (T : Task.t) (p now : Z) (s : Status) :
  same_but_progress T (mergeTask T (progressUpdates p s) now)
  /\ Task.progress (mergeTask T (progressUpdates p s) now) = p
  /\ Task.updated_at (mergeTask T (progressUpdates p s) now) = now.
Proof.
  unfold same_but_progress, mergeTask, progressUpdates; simpl. auto 20.
Qed.

Lemma apply_update_progress_frame (T : Task.t) (p now : Z) (s : Status) :
  same_but_progress T (Managed.apply_update T (progressUpdates p s) now)
  /\ Task.progress (Managed.apply_update T (progressUpdates p s) now) = p.
Proof.
  unfold Managed.apply_update.
  destruct Task_eq_dec;
    destruct (mergeTask_progress_frame T p now s) as (? & ? & _);
    destruct (mergeTask_progress_frame T p (or_default (TaskUpdate.updated_at (progressUpdates p s))
                                                       (Task.updated_at T)) s) as (? & ? & _);
    auto.
Qed.

(** C9. A successful [updateTaskProgress] rewrites the one task it found
    and nothing else: the new task agrees with the old one on every field
    other than progress, status and updated_at, the project's task list is
    the old list with that one element replaced, and the task lists of the
    other projects are untouched.  In the demo variant the call succeeds
    for every stored task, and the module state and the stored activity
    log are the same before and after; in the managed variant the other
    rows of [tasks] and the [projects], [custom_fields] and user tables
    are the same. *)
Theorem updateTaskProgress_frame (p : Z) (T : Task.t) :
  (forall env id pid st,
      Demo.findTask id pid st = Some T ->
      exists T' st' ts1 ts2,
        Demo.updateTaskProgress env id pid p st = (Ok T', st')
        /\ same_but_progress T T'
        /\ Task.progress T' = p
        /\ Demo.getProjectTasks pid st = ts1 ++ T :: ts2
        /\ Demo.getProjectTasks pid st' = ts1 ++ T' :: ts2
        /\ (forall pid', pid' <> pid ->
                         Demo.getProjectTasks pid' st' = Demo.getProjectTasks pid' st)
        /\ demoProjects st' = demoProjects st
        /\ demoActivityLog st' = demoActivityLog st
        /\ ls_activity st' = ls_activity st)
  /\ (forall uid env id pid db T' db',
         Managed.selectTask uid id db = inr T ->
         Managed.updateTaskProgress uid env id pid p db = (Ok T', db') ->
         same_but_progress T T'
         /\ Task.progress T' = p
         /\ (exists ts1 ts2, tasks db = ts1 ++ T :: ts2 /\ tasks db' = ts1 ++ T' :: ts2)
         /\ projects db' = projects db
         /\ custom_fields db' = custom_fields db
         /\ users db' = users db).
Proof.
  split.
  - intros env id pid st F.
    destruct (findTask_Located _ _ _ _ F) as (ps1 & P & ps2 & ts1 & ts2 & L).
    unfold Demo.updateTaskProgress. rewrite F.
    rewrite (demo_updateTask_Located env _ _ _ _ _ _ _ _ _ _ L).
    destruct L as (E & N1 & H1 & TP & N2 & H2).
    destruct (mergeTask_progress_frame T p (clock env 0) (Task.status T)) as (Fr & Pr & _).
    eexists _, _, ts1, ts2. split; [reflexivity|].
    split; [exact Fr|]. split; [exact Pr|].
    unfold Demo.getProjectTasks, saveDemoProjects, loadDemoProjects in *; simpl.
    rewrite E. rewrite !(find_at_split _ _ _ _ N1); auto. rewrite TP. simpl.
    split; [reflexivity|]. split; [reflexivity|].
    split; [|auto].
    intros pid' Hne.
    assert (Hf : Demo.projectHasId pid' P = false).
    { unfold Demo.projectHasId in *. apply String.eqb_eq in H1.
      apply String.eqb_neq. congruence. }
    now rewrite (find_swap (Demo.projectHasId pid') ps1 ps2 _ P).
  - intros uid env id pid db T' db' S U.
    destruct (managed_updateTaskProgress_inv _ _ _ _ _ _ _ _ U)
      as (T0 & S0 & F & -> & Ts & Us & Ps & Cs).
    rewrite S in S0. injection S0 as <-.
    destruct (apply_update_progress_frame T p (clock env 0) (Task.status T)) as (Fr & Pr).
    split; [exact Fr|]. split; [exact Pr|]. split; [|auto].
    destruct (filter_one_split _ _ _ F) as (ts1 & ts2 & E & N1 & N2 & Ft).
    exists ts1, ts2. split; auto.
    rewrite Ts, E. now apply map_replace_split.
Qed.

Lemma updateTaskProgress_status_witness :
  (exists T' st',
      Demo.updateTaskProgress sampleEnv "t1" "p1" 50
        (sampleStore [sampleTask "t0" Completed []; sampleTask "t1" OnHold []])
      = (Ok T', st')
      /\ Task.status T' = OnHold)
  /\ (exists T' db',
         Managed.updateTaskProgress (Some "bob") sampleEnv "t1" "p1" 100
           (sampleDb [sampleTask "t1" InProgress []] [])
         = (Ok T', db')
         /\ In T' (tasks db') /\ Task.status T' = Completed).
Proof.
  split.
  - destruct (updateTaskProgress_status 50 (sampleTask "t1" OnHold [])) as [D _].
    destruct (D sampleEnv "t1" "p1"
                (sampleStore [sampleTask "t0" Completed []; sampleTask "t1" OnHold []])
                eq_refl) as (T' & st' & U & _ & S & _).
    exists T', st'. split; [exact U | exact S].
  - destruct (updateTaskProgress_status 100 (sampleTask "t1" InProgress [])) as [_ M].
    eexists _, _. split; [vm_compute; reflexivity|].
    destruct (M (Some "bob") sampleEnv "t1" "p1" (sampleDb [sampleTask "t1" InProgress []] [])
                _ _ eq_refl eq_refl) as (I & S & _).
    split; [exact I | exact S].
Defined.

Lemma updateTaskProgress_frame_witness :
  (exists T' st',
      Demo.updateTaskProgress sampleEnv "t1" "p1" 50
        (sampleStore [sampleTask "t0" Completed []; sampleTask "t1" OnHold ["t0"]])
      = (Ok T', st')
      /\ Task.dependencies T' = ["t0"]
      /\ demoActivityLog st' = [])
  /\ (exists T' db',
         Managed.updateTaskProgress (Some "bob") sampleEnv "t1" "p1" 100
           (sampleDb [sampleTask "t0" Completed []; sampleTask "t1" InProgress ["t0"]] [])
         = (Ok T', db')
         /\ Task.dependencies T' = ["t0"]
         /\ projects db' = [sampleRow (Some "alice") ["bob"]]).
Proof.
  split.
  - destruct (updateTaskProgress_frame 50 (sampleTask "t1" OnHold ["t0"])) as [D _].
    destruct (D sampleEnv "t1" "p1"
                (sampleStore [sampleTask "t0" Completed []; sampleTask "t1" OnHold ["t0"]])
                eq_refl)
      as (T' & st' & ts1 & ts2 & U & Fr & _ & _ & _ & _ & _ & A & _).
    exists T', st'. split; [exact U|].
    destruct Fr as (_ & _ & _ & _ & _ & _ & _ & _ & Dp & _).
    split; [exact Dp | exact A].
  - destruct (updateTaskProgress_frame 100 (sampleTask "t1" InProgress ["t0"])) as [_ M].
    eexists _, _. split; [vm_compute; reflexivity|].
    destruct (M (Some "bob") sampleEnv "t1" "p1"
                (sampleDb [sampleTask "t0" Completed []; sampleTask "t1" InProgress ["t0"]] [])
                _ _ eq_refl eq_refl) as (Fr & _ & _ & Ps & _).
    destruct Fr as (_ & _ & _ & _ & _ & _ & _ & _ & Dp & _).
    split; [exact Dp | exact Ps].
Defined.

(** ** C10: deleting what is not there, demo variant *)

Lemma filter_negb_none_of {A} (f : A -> bool) (l : list A) :
  none_of f l -> filter (fun x => negb (f x)) l = l.
Proof.
  induction l as [|a l IH]; simpl; intros N; auto.
  rewrite (N a (or_introl eq_refl)). simpl. rewrite IH; auto.
  intros y Hy. apply N. now right.
Qed.

Lemma filter_negb_idem {A} (f : A -> bool) (l : list A) :
  filter (fun x => negb (f x)) (filter (fun x => negb (f x)) l)
  = filter (fun x => negb (f x)) l.
Proof.
  apply filter_negb_none_of. intros x Hx.
  apply filter_In in Hx. destruct Hx as [_ Hx]. now apply negb_true_iff in Hx.
Qed.

Lemma setDemoProjects_same (st : LocalStore) : setDemoProjects (demoProjects st) st = st.
Proof. now destruct st. Qed.

Lemma demo_deleteProject_absent env id st :
  none_of (Demo.projectHasId id) (demoProjects st) ->
  Demo.deleteProject env id st = (Ok tt, st).
Proof.
  intros N. unfold Demo.deleteProject.
  rewrite (filter_negb_none_of _ _ N), Nat.ltb_irrefl.
  now rewrite setDemoProjects_same.
Qed.

Lemma demo_deleteProject_projects env id st :
  demoProjects (snd (Demo.deleteProject env id st))
  = filter (fun p => negb (Demo.projectHasId id p)) (demoProjects st).
Proof.
  unfold Demo.deleteProject.
  destruct (_ <? _)%nat; reflexivity.
Qed.

Lemma demo_deleteTask_absent id pid st :
  Demo.findTask id pid st = None ->
  Demo.deleteTask id pid st = (Throw (JsError "Task not found"), st).
Proof.
  unfold Demo.findTask, Demo.deleteTask.
  destruct (find (Demo.projectHasId pid) (loadDemoProjects st)) as [P|] eqn:FP.
  - destruct (find_split _ _ _ FP) as (ps1 & ps2 & E & N1 & H1).
    rewrite E, (findIndex_at_split _ _ _ _ N1 H1), nth_error_at_split.
    destruct (DemoProject.tasks P) as [ts|]; auto.
    intros FT. apply find_none_of in FT.
    now rewrite (filter_negb_none_of _ _ FT), Nat.ltb_irrefl.
  - intros _. now rewrite (findIndex_none _ _ (find_none_of _ _ FP)).
Qed.

(** C10. In the demo variant, [deleteProject] on an id no project carries
    resolves and leaves the whole store (module state and both storage
    keys) as it was; the state after deleting the same id twice is the
    state after deleting it once; [deleteTask] on an id that names no task
    of the project rejects with 'Task not found' and changes nothing. *)
Theorem delete_absent_demo :
  (forall env id st,
      Demo.getProject id st = None ->
      Demo.deleteProject env id st = (Ok tt, st))
  /\ (forall env env' id st,
         Demo.deleteProject env' id (snd (Demo.deleteProject env id st))
         = (Ok tt, snd (Demo.deleteProject env id st)))
  /\ (forall id pid st,
         Demo.findTask id pid st = None ->
         Demo.deleteTask id pid st = (Throw (JsError "Task not found"), st)).
Proof.
  split; [|split].
  - intros env id st G. apply demo_deleteProject_absent.
    now apply find_none_of.
  - intros env env' id st. apply demo_deleteProject_absent.
    rewrite demo_deleteProject_projects. intros x Hx.
    apply filter_In in Hx. destruct Hx as [_ Hx]. now apply negb_true_iff in Hx.
  - apply demo_deleteTask_absent.
Qed.

Lemma delete_absent_demo_witness :
  Demo.deleteProject sampleEnv "nope" (sampleStore [sampleTask "t1" OnHold []])
  = (Ok tt, sampleStore [sampleTask "t1" OnHold []])
  /\ Demo.deleteTask "nope" "p1" (sampleStore [sampleTask "t1" OnHold []])
     = (Throw (JsError "Task not found"), sampleStore [sampleTask "t1" OnHold []]).
Proof.
  destruct delete_absent_demo as (A & _ & C).
  split.
  - exact (A sampleEnv "nope" (sampleStore [sampleTask "t1" OnHold []]) eq_refl).
  - exact (C "nope" "p1" (sampleStore [sampleTask "t1" OnHold []]) eq_refl).
Defined.

(** ** C4: dependency gating *)

Lemma allFinished_forallb (l : list Task.t) : allFinished l = forallb isFinished l.
Proof. now destruct l. Qed.

Lemma isFinished_iff (D : Task.t) : isFinished D = true <-> finished (Task.status D).
Proof.
  unfold isFinished, finished. rewrite orb_true_iff, !Status_eqb_eq. tauto.
Qed.

Lemma demo_getTaskDependencies_owner taskId st T P :
  Demo.findOwner taskId (loadDemoProjects st) = Some (T, P) ->
  Demo.getTaskDependencies taskId st
  = filter (fun t => includes (Task.dependencies T) (Task.id t))
           (or_default (DemoProject.tasks P) []).
Proof.
  intros F. unfold Demo.getTaskDependencies. rewrite F.
  destruct (Task.dependencies T) eqn:E; auto.
  symmetry. induction (or_default (DemoProject.tasks P) []); simpl; auto.
Qed.

Lemma managed_getTaskDependencies_task uid taskId db T :
  Managed.selectTask uid taskId db = inr T ->
  Managed.getTaskDependencies uid taskId db
  = Ok (filter (fun r => includes (Task.dependencies T) (Task.id r)
                         && using_ok uid db SELECT (RTask r)) (tasks db)).
Proof.
  intros S. unfold Managed.getTaskDependencies. rewrite S.
  destruct (Task.dependencies T) eqn:E; auto.
  f_equal. symmetry. induction (tasks db); simpl; auto.
Qed.

(** C4, as stated, fails: a task whose only dependency id names no stored
    task may start, although that id does not resolve to a completed
    task. *)
Lemma canStartTask_dangling_dependency :
  Demo.findTask "t1" "p1" danglingStore = Some danglingTask
  /\ ~ (Demo.canStartTask "t1" danglingStore = true
        <-> every_dependency_completed danglingStore danglingTask).
Proof.
  split; [reflexivity|].
  intros [H _]. specialize (H eq_refl "ghost" (or_introl eq_refl)).
  destruct H as (D & (P & HP & HD & Hid) & _).
  simpl in HP. destruct HP as [<-|[]].
  simpl in HD. destruct HD as [<-|[]].
  discriminate Hid.
Qed.

(** C4, amended. [canStartTask] answers true exactly when every task that
    [getTaskDependencies] resolves is completed or done: in the demo
    variant the tasks of the same project whose id occurs in the
    dependencies list, in the managed variant the rows of [tasks] visible
    to the caller whose id occurs in it.  Ids that resolve to no such task
    are ignored.  So the answer is true on an empty list and false as soon
    as one resolved dependency is neither completed nor done. *)
Theorem canStartTask_resolved_dependencies :
  (forall taskId st T P,
      Demo.findOwner taskId (loadDemoProjects st) = Some (T, P) ->
      (Demo.canStartTask taskId st = true <->
       forall D, In D (or_default (DemoProject.tasks P) []) ->
                 In (Task.id D) (Task.dependencies T) ->
                 finished (Task.status D))
      /\ (Task.dependencies T = [] -> Demo.canStartTask taskId st = true)
      /\ (forall D, In D (or_default (DemoProject.tasks P) []) ->
                    In (Task.id D) (Task.dependencies T) ->
                    ~ finished (Task.status D) ->
                    Demo.canStartTask taskId st = false))
  /\ (forall uid taskId db T,
         Managed.selectTask uid taskId db = inr T ->
         exists b,
           Managed.canStartTask uid taskId db = Ok b
           /\ (b = true <->
               forall D, In D (tasks db) ->
                         using_ok uid db SELECT (RTask D) = true ->
                         In (Task.id D) (Task.dependencies T) ->
                         finished (Task.status D))
           /\ (Task.dependencies T = [] -> b = true)).
Proof.
  split.
  - intros taskId st T P F.
    assert (Iff : Demo.canStartTask taskId st = true <->
                  forall D, In D (or_default (DemoProject.tasks P) []) ->
                            In (Task.id D) (Task.dependencies T) ->
                            finished (Task.status D)).
    { unfold Demo.canStartTask.
      rewrite (demo_getTaskDependencies_owner _ _ _ _ F), allFinished_forallb, forallb_forall.
      split.
      - intros H D HD Hdep. apply isFinished_iff, H, filter_In.
        split; auto. now apply includes_In.
      - intros H D HD. apply filter_In in HD. destruct HD as [HD Hdep].
        apply isFinished_iff, H; auto. now apply includes_In. }
    split; [exact Iff|]. split.
    + intros E. apply Iff. intros D _ HD. rewrite E in HD. destruct HD.
    + intros D HD Hdep Hnot.
      destruct (Demo.canStartTask taskId st) eqn:C; auto.
      exfalso. apply Hnot. destruct Iff as [Iff _]. now apply (Iff eq_refl D).
  - intros uid taskId db T S.
    unfold Managed.canStartTask.
    rewrite (managed_getTaskDependencies_task _ _ _ _ S).
    eexists. split; [reflexivity|].
    rewrite allFinished_forallb, forallb_forall.
    assert (Iff : (forall x,
                      In x (filter (fun r => includes (Task.dependencies T) (Task.id r)
                                             && using_ok uid db SELECT (RTask r)) (tasks db)) ->
                      isFinished x = true) <->
                  forall D, In D (tasks db) ->
                            using_ok uid db SELECT (RTask D) = true ->
                            In (Task.id D) (Task.dependencies T) ->
                            finished (Task.status D)).
    { split.
      - intros H D HD V Hdep. apply isFinished_iff, H, filter_In.
        split; auto. apply andb_true_iff. split; auto. now apply includes_In.
      - intros H D HD. apply filter_In in HD. destruct HD as [HD Hdep].
        apply andb_true_iff in Hdep. destruct Hdep as [Hdep V].
        apply isFinished_iff, H; auto. now apply includes_In. }
    split; [exact Iff|].
    intros E. apply Iff. intros D _ _ HD. rewrite E in HD. destruct HD.
Qed.

Lemma canStartTask_resolved_dependencies_witness :
  Demo.canStartTask "t3"
    (sampleStore [sampleTask "t1" Completed []; sampleTask "t2" InProgress [];
                  sampleTask "t3" NotStarted ["t1"; "t2"]]) = false
  /\ Demo.canStartTask "t1"
       (sampleStore [sampleTask "t1" Completed []; sampleTask "t2" InProgress [];
                     sampleTask "t3" NotStarted ["t1"; "t2"]]) = true
  /\ exists b,
      Managed.canStartTask (Some "alice") "t3"
        (sampleDb [sampleTask "t1" Completed []; sampleTask "t2" Done [];
                   sampleTask "t3" NotStarted ["t1"; "t2"; "ghost"]] []) = Ok b.
Proof.
  destruct canStartTask_resolved_dependencies as [D M].
  split; [|split].
  - destruct (D "t3"
                (sampleStore [sampleTask "t1" Completed []; sampleTask "t2" InProgress [];
                              sampleTask "t3" NotStarted ["t1"; "t2"]])
                _ _ eq_refl) as (_ & _ & N).
    apply (N (sampleTask "t2" InProgress [])).
    + simpl. auto.
    + simpl. auto.
    + intros [H|H]; discriminate H.
  - destruct (D "t1"
                (sampleStore [sampleTask "t1" Completed []; sampleTask "t2" InProgress [];
                              sampleTask "t3" NotStarted ["t1"; "t2"]])
                _ _ eq_refl) as (_ & E & _).
    apply E. reflexivity.
  - destruct (M (Some "alice") "t3"
                (sampleDb [sampleTask "t1" Completed []; sampleTask "t2" Done [];
                           sampleTask "t3" NotStarted ["t1"; "t2"; "ghost"]] [])
                _ eq_refl) as (b & C & _).
    exists b. exact C.
Defined.

(** ** C5: date ordering *)

Lemma insert_task_row_inv uid db taken new_id now p r :
  Managed.insert_task_row uid db taken new_id now p = inr r ->
  can_access_project uid db (TaskInsert.project_id p) = true
  /\ TaskInsert.project_id p = Some (Task.project_id r)
  /\ TaskInsert.name p = Some (Task.name r)
  /\ (exists sd, TaskInsert.start_date p = Some sd /\ Task.start_date r = toDate sd)
  /\ (exists ed, TaskInsert.end_date p = Some ed /\ Task.end_date r = toDate ed)
  /\ Task.id r = new_id
  /\ task_checks r = true
  /\ includes taken new_id = false
  /\ task_fks db r = true.
Proof.
  unfold Managed.insert_task_row.
  destruct (TaskInsert.start_date p) as [sd|]; simpl; [|discriminate].
  destruct (TaskInsert.end_date p) as [ed|]; simpl; [|discriminate].
  destruct (can_access_project _ _ _); simpl; [|discriminate].
  destruct (TaskInsert.project_id p); simpl; [|discriminate].
  destruct (TaskInsert.name p); simpl; [|discriminate].
  destruct (task_checks _) eqn:C; simpl; [|discriminate].
  destruct (includes taken new_id) eqn:I; simpl; [discriminate|].
  destruct (task_fks _ _) eqn:K; simpl; [|discriminate].
  intros [= <-]. cbn [Task.project_id Task.name Task.start_date Task.end_date Task.id].
  repeat split; eauto.
Qed.

Lemma insert_task_stmt_inv uid db taken ids now ps rs :
  Managed.insert_task_stmt uid db taken ids now ps = inr rs ->
  Managed.insert_task_rows uid db taken ids 0 now ps = inr rs.
Proof.
  unfold Managed.insert_task_stmt. now destruct (forallb _ ps).
Qed.

Lemma toDate_le (a b : Z) : (a <= b)%Z -> (toDate a <= toDate b)%Z.
Proof.
  intros H. unfold toDate, msPerDay.
  apply Z.mul_le_mono_nonneg_r; [lia|]. apply Z.div_le_mono; lia.
Qed.


Lemma insert_task_rows_inv uid db ids now ps :
  forall taken k rs,
    Managed.insert_task_rows uid db taken ids k now ps = inr rs ->
    length rs = length ps /\ Forall (fun r => task_checks r = true) rs.
Proof.
  induction ps as [|p ps IH]; simpl; intros taken k rs.
  - intros [= <-]. auto.
  - destruct (Managed.insert_task_row _ _ _ _ _ _) as [c|r] eqn:R; [discriminate|].
    destruct (Managed.insert_task_rows _ _ _ _ _ _ _) as [c|rs'] eqn:Rs; [discriminate|].
    intros [= <-]. destruct (IH _ _ _ Rs) as [L F].
    apply insert_task_row_inv in R. simpl. split; [now rewrite L|].
    constructor; tauto.
Qed.





(** ** C6: bulk import *)

(** [createTask] in the demo variant, case by case. *)
Lemma demo_createTask_cases env task st :
  (exists ps1 P ps2 sd ed,
      loadDemoProjects st = ps1 ++ P :: ps2
      /\ none_of (targets task) ps1 /\ targets task P = true
      /\ Demo.createTask env task st
         = (Ok (Demo.newTaskOf env task sd ed),
            saveDemoProjects
              (ps1 ++ DemoProject.with_tasks P
                        (or_default (DemoProject.tasks P) []
                           ++ [Demo.newTaskOf env task sd ed])
                        (Some (clock env 1)) :: ps2) st))
  \/ (exists e, Demo.createTask env task st = (Throw e, st)).
Proof.
  unfold Demo.createTask. fold (targets task).
  destruct (find (targets task) (loadDemoProjects st)) as [P|] eqn:F.
  - destruct (find_split _ _ _ F) as (ps1 & ps2 & E & N & H).
    rewrite E, (findIndex_at_split _ _ _ _ N H), nth_error_at_split.
    destruct (dateOr (TaskInput.start_date task) (clock env 0)) as [sd|];
      [|right; eexists; reflexivity].
    destruct (dateOr (TaskInput.end_date task) (clock env 0)) as [ed|];
      [|right; eexists; reflexivity].
    left. exists ps1, P, ps2, sd, ed. rewrite set_at_split. auto.
  - rewrite (findIndex_none _ _ (find_none_of _ _ F)).
    right. eexists; reflexivity.
Qed.

Lemma existsb_targets task (ps : list DemoProject.t) :
  existsb (targets task) ps
  = existsb (id_is (TaskInput.project_id task)) (map DemoProject.id ps).
Proof.
  induction ps; simpl; auto. now rewrite IHps.
Qed.

(** The outcome of [createTask] depends on the store only through the ids
    of its projects. *)
Lemma demo_createTask_fst env task st :
  fst (Demo.createTask env task st)
  = if existsb (targets task) (loadDemoProjects st) then
      match dateOr (TaskInput.start_date task) (clock env 0),
            dateOr (TaskInput.end_date task) (clock env 0) with
      | Some sd, Some ed => Ok (Demo.newTaskOf env task sd ed)
      | _, _ => Throw RangeError
      end
    else Throw (JsError "Project not found").
Proof.
  unfold Demo.createTask. fold (targets task).
  destruct (find (targets task) (loadDemoProjects st)) as [P|] eqn:F.
  - destruct (find_split _ _ _ F) as (ps1 & ps2 & E & N & H).
    rewrite E, (findIndex_at_split _ _ _ _ N H), nth_error_at_split.
    rewrite existsb_app. simpl. rewrite H, orb_true_r.
    destruct (dateOr (TaskInput.start_date task) (clock env 0)); auto.
    destruct (dateOr (TaskInput.end_date task) (clock env 0)); auto.
  - pose proof (find_none_of _ _ F) as N.
    rewrite (findIndex_none _ _ N).
    replace (existsb (targets task) (loadDemoProjects st)) with false; auto.
    symmetry. apply not_true_is_false. intros H.
    apply existsb_exists in H. destruct H as (x & Hx & Tx).
    rewrite (N x Hx) in Tx. discriminate.
Qed.

Lemma demo_createTask_fst_ids env task st st' :
  map DemoProject.id (loadDemoProjects st) = map DemoProject.id (loadDemoProjects st') ->
  fst (Demo.createTask env task st) = fst (Demo.createTask env task st').
Proof.
  intros E. now rewrite !demo_createTask_fst, !existsb_targets, E.
Qed.

Lemma demo_createTask_effect env task st :
  let st' := snd (Demo.createTask env task st) in
  map DemoProject.id (loadDemoProjects st') = map DemoProject.id (loadDemoProjects st)
  /\ (forall t, stored st t -> stored st' t)
  /\ (forall t, fst (Demo.createTask env task st) = Ok t -> stored st' t).
Proof.
  destruct (demo_createTask_cases env task st)
    as [(ps1 & P & ps2 & sd & ed & E & N & H & C) | (e & C)]; rewrite C; simpl.
  - unfold stored. unfold saveDemoProjects, loadDemoProjects at 1 4 5. simpl.
    rewrite E. split; [|split].
    + rewrite !map_app. reflexivity.
    + intros t (Q & HQ & Ht). apply in_app_iff in HQ.
      destruct HQ as [HQ|[<-|HQ]].
      * exists Q. split; auto. apply in_app_iff. auto.
      * eexists. split; [apply in_app_iff; right; left; reflexivity|].
        simpl. apply in_app_iff. auto.
      * exists Q. split; auto. apply in_app_iff. right. now right.
    + intros t [= <-].
      eexists. split; [apply in_app_iff; right; left; reflexivity|].
      simpl. apply in_app_iff. right. now left.
  - split; [|split]; auto. discriminate.
Qed.

Lemma demo_importLoop_spec envs st0 tasks :
  forall k acc st,
    map DemoProject.id (loadDemoProjects st) = map DemoProject.id (loadDemoProjects st0) ->
    (forall t, In t acc -> stored st t) ->
    let out := Demo.importLoop envs k tasks acc st in
    fst out = acc ++ created_subset envs k tasks st0
    /\ (forall t, In t (fst out) -> stored (snd out) t)
    /\ (forall t, stored st t -> stored (snd out) t).
Proof.
  induction tasks as [|task rest IH]; intros k acc st Ids Acc; simpl.
  - rewrite app_nil_r. auto.
  - unfold alone. destruct (truthy (TaskInput.project_id task)); [|now apply IH].
    rewrite <- (demo_createTask_fst_ids (envs k) task st st0 Ids).
    destruct (demo_createTask_effect (envs k) task st) as (Ids' & Mono & New).
    destruct (Demo.createTask (envs k) task st) as [[t|e] st1] eqn:C; simpl in *.
    + destruct (IH (S k) (acc ++ [t]) st1) as (R & S1 & S2).
      * congruence.
      * intros x Hx. apply in_app_iff in Hx. destruct Hx as [Hx|[<-|[]]]; auto.
      * split; [rewrite R, <- app_assoc; reflexivity|]. split; auto.
    + destruct (IH (S k) acc st1) as (R & S1 & S2); auto. congruence.
Qed.

Lemma length_prepareTasks env specs :
  forall k, length (Managed.prepareTasks env k specs) = length specs.
Proof.
  induction specs; simpl; auto.
Qed.

Lemma refused_aborts uid db ids now ps :
  forall taken k i p,
    nth_error ps i = Some p -> refused uid db p ->
    exists c, Managed.insert_task_rows uid db taken ids k now ps = inl c.
Proof.
  induction ps as [|q ps IH]; intros taken k i p Hn R.
  - destruct i; discriminate.
  - simpl. destruct i as [|i]; simpl in Hn.
    + injection Hn as ->. destruct (R taken (ids k) now) as (c & ->). now exists c.
    + destruct (Managed.insert_task_row uid db taken (ids k) now q) as [c|r];
        [now exists c|].
      destruct (IH (Task.id r :: taken) (S k) i p Hn R) as (c & ->). now exists c.
Qed.

Lemma prepareTasks_nth env specs :
  forall k i spec,
    nth_error specs i = Some spec ->
    nth_error (Managed.prepareTasks env k specs) i = Some (Managed.prepareTask env (k + i) spec).
Proof.
  induction specs as [|s specs IH]; intros k i spec H.
  - destruct i; discriminate.
  - destruct i as [|i]; simpl in *.
    + injection H as ->. now rewrite Nat.add_0_r.
    + rewrite (IH (S k) i spec H). f_equal. f_equal. lia.
Qed.

(** C6. In the demo variant [importTasks] always resolves; what it returns
    is, in order, exactly what each specification yields when imported on
    its own into the initial store (a skipped or failing one contributes
    nothing and stops nothing), every returned task is stored afterwards
    and nothing stored before is lost.  In the managed variant the import
    is one INSERT: either it is rejected and the database is left as it
    was, or it returns one row per specification and the task table grows
    by exactly these rows; one specification whose row the backend refuses
    is enough for the rejection. *)
Theorem importTasks_best_effort_vs_atomic :
  (forall envs specs st,
      exists results st',
        Demo.importTasks envs specs st = (Ok results, st')
        /\ results = created_subset envs 0 specs st
        /\ (forall t, In t results -> stored st' t)
        /\ (forall t, stored st t -> stored st' t))
  /\ (forall uid env specs db,
         (exists c, Managed.importTasks uid env specs db = (Throw (PgError c), db))
         \/ (exists rows db',
                Managed.importTasks uid env specs db = (Ok rows, db')
                /\ length rows = length specs
                /\ tasks db' = tasks db ++ rows))
  /\ (forall uid env specs db i spec,
         nth_error specs i = Some spec ->
         refused uid db (Managed.prepareTask env i spec) ->
         exists c, Managed.importTasks uid env specs db = (Throw (PgError c), db)).
Proof.
  split; [|split].
  - intros envs specs st. unfold Demo.importTasks.
    destruct (demo_importLoop_spec envs st specs 0 [] st eq_refl) as (R & S1 & S2).
    { intros t []. }
    destruct (Demo.importLoop envs 0 specs [] st) as [results st'].
    exists results, st'. simpl in *. auto.
  - intros uid env specs db. unfold Managed.importTasks.
    destruct (Managed.insert_task_stmt _ _ _ _ _ _) as [c|rows] eqn:R.
    + left. now exists c.
    + right. apply insert_task_stmt_inv, insert_task_rows_inv in R. destruct R as [L _].
      rewrite length_prepareTasks in L.
      destruct rows as [|first rows].
      * eexists _, _. split; [reflexivity|]. auto.
      * eexists _, _. split; [reflexivity|]. split; auto.
        match goal with
        | |- context [Managed.taskLogActivity ?a ?b ?c ?d ?e ?f ?g ?h ?i] =>
            destruct (taskLogActivity_tables a b c d e f g h i) as (_ & _ & -> & _)
        end. reflexivity.
  - intros uid env specs db i spec Hn Ref.
    unfold Managed.importTasks, Managed.insert_task_stmt.
    pose proof (prepareTasks_nth env specs 0 i spec Hn) as Hp. simpl in Hp.
    destruct (forallb Managed.dates_convert (Managed.prepareTasks env 0 specs));
      cbn [guard]; [|now exists InvalidDatetime].
    destruct (refused_aborts uid db (uuid env) (clock env (2 * length specs))
                (Managed.prepareTasks env 0 specs) (map Task.id (tasks db)) 0 i _ Hp Ref)
      as (c & ->).
    now exists c.
Qed.

Lemma importTasks_best_effort_vs_atomic_witness :
  (exists results st',
      Demo.importTasks sampleEnvs fiveSpecs (sampleStore []) = (Ok results, st')
      /\ length results = 4)
  /\ (exists c,
         Managed.importTasks (Some "alice") sampleEnv fiveSpecs (sampleDb [] [])
         = (Throw (PgError c), sampleDb [] [])).
Proof.
  destruct importTasks_best_effort_vs_atomic as (D & _ & M).
  split.
  - destruct (D sampleEnvs fiveSpecs (sampleStore [])) as (results & st' & E & R & _).
    exists results, st'. split; [exact E|]. rewrite R. reflexivity.
  - apply (M (Some "alice") sampleEnv fiveSpecs (sampleDb [] []) 2
             (datedInput "p1" DateBad (DateOk 4)) eq_refl).
    intros taken new_id now. exists InvalidDatetime. reflexivity.
Defined.

(** ** C1: the authorization predicate and the policies *)

Lemma holds_sql_or (a b : sqlbool) :
  holds (sql_or a b) = true <-> holds a = true \/ holds b = true.
Proof.
  destruct a as [[|]|], b as [[|]|]; simpl; split; intros H; auto;
    try discriminate; destruct H; discriminate.
Qed.

Lemma holds_sql_and (a b : sqlbool) :
  holds (sql_and a b) = true <-> holds a = true /\ holds b = true.
Proof.
  destruct a as [[|]|], b as [[|]|]; simpl; split; intros H; auto;
    try discriminate; destruct H; discriminate.
Qed.

Lemma holds_sql_eq (a b : option string) :
  holds (sql_eq a b) = true <-> exists s, a = Some s /\ b = Some s.
Proof.
  destruct a as [x|], b as [y|]; simpl; split; intros H;
    try discriminate; try (destruct H as (s & H1 & H2); discriminate).
  - destruct (x =? y) eqn:E; [|discriminate]. apply String.eqb_eq in E.
    subst. now exists y.
  - destruct H as (s & [= ->] & [= ->]). now rewrite String.eqb_refl.
Qed.

Lemma holds_access_expr (P : string) (X : ProjectRow.t) :
  holds (access_expr (Some P) X) = true <-> owner_or_member P X.
Proof.
  unfold access_expr, owner_or_member. rewrite holds_sql_or, holds_sql_eq.
  split.
  - intros [(s & [= <-] & E) | H]; [now left|right].
    unfold jsonb_contains in H.
    destruct (ProjectRow.team_members X) as [l|]; [|discriminate].
    exists l. split; auto. apply includes_In.
    simpl in H. now destruct (includes l P).
  - intros [E | (l & E & I)]; [left; now exists P|right].
    unfold jsonb_contains. rewrite E. apply includes_In in I. simpl. now rewrite I.
Qed.

Lemma access_expr_anonymous (X : ProjectRow.t) : holds (access_expr None X) = false.
Proof.
  unfold access_expr, jsonb_contains. simpl.
  now destruct (ProjectRow.team_members X).
Qed.

Lemma can_access_project_iff (uid : option string) (db : Db) (pid : option string) :
  can_access_project uid db pid = true <->
  exists P X, uid = Some P /\ In X (projects db)
              /\ pid = Some (ProjectRow.id X) /\ owner_or_member P X.
Proof.
  unfold can_access_project. rewrite existsb_exists. split.
  - intros (X & HX & H). apply filter_In in HX. destruct HX as [HX A].
    apply holds_sql_and in H. destruct H as [H _].
    apply holds_sql_eq in H. destruct H as (s & [= <-] & ->).
    destruct uid as [P|]; [|now rewrite access_expr_anonymous in A].
    exists P, X. repeat split; auto. now apply holds_access_expr.
  - intros (P & X & -> & HX & -> & A). apply holds_access_expr in A.
    exists X. split; [apply filter_In; auto|].
    apply holds_sql_and. split; auto. apply holds_sql_eq. now exists (ProjectRow.id X).
Qed.

Lemma can_access_row (P : string) (db : Db) (pid : string) :
  can_access_project (Some P) db (Some pid) = true <->
  exists X, In X (projects db) /\ ProjectRow.id X = pid /\ owner_or_member P X.
Proof.
  rewrite can_access_project_iff. split.
  - intros (P' & X & [= <-] & HX & [= ->] & A). now exists X.
  - intros (X & HX & <- & A). now exists P, X.
Qed.

(** C1. The predicate of the policies holds for a principal and a project
    exactly when the principal is the project's owner or its identifier is
    in the project's team_members; looked up by id in a table with unique
    ids, [can_access_project] gives the same answer.  The policies let a
    command through only when the predicate holds on the row's project:
    SELECT and DELETE on projects, tasks and custom_fields and SELECT on
    activity_log exactly when it holds for the stored row, UPDATE on
    projects, tasks and custom_fields exactly when it holds before and
    after, INSERT on tasks and custom_fields exactly when it holds for the
    new row.  INSERT on projects asks for the owner half of the predicate
    (the caller is created_by), INSERT on activity_log asks in addition
    that the entry names the caller; activity_log has no UPDATE or DELETE
    path. *)
Theorem can_access_project_policies (P : string) (db : Db) :
  (forall X, holds (access_expr (Some P) X) = true <-> owner_or_member P X)
  /\ (forall X,
         In X (projects db) ->
         (forall Y, In Y (projects db) -> ProjectRow.id Y = ProjectRow.id X -> Y = X) ->
         (can_access_project (Some P) db (Some (ProjectRow.id X)) = true
          <-> owner_or_member P X))
  /\ (forall c pre post,
         permitted (Some P) db c pre post = true ->
         match c with
         | SELECT | DELETE => may_access P db pre
         | INSERT => may_access P db post
         | UPDATE => may_access P db pre /\ may_access P db post
         end)
  /\ (forall c pre post,
         is_activity_row pre = false -> is_activity_row post = false ->
         (c = INSERT -> is_project_row post = false) ->
         (permitted (Some P) db c pre post = true <->
          match c with
          | SELECT | DELETE => may_access P db pre
          | INSERT => may_access P db post
          | UPDATE => may_access P db pre /\ may_access P db post
          end))
  /\ (forall pre X,
         permitted (Some P) db INSERT pre (RProject X) = true
         <-> ProjectRow.created_by X = Some P)
  /\ (forall pre post l,
         (permitted (Some P) db SELECT (RActivity l) post = true
          <-> may_access P db (RActivity l))
         /\ (permitted (Some P) db INSERT pre (RActivity l) = true
             <-> ActivityLog.user_id l = Some P /\ may_access P db (RActivity l))
         /\ permitted (Some P) db UPDATE (RActivity l) post = false
         /\ permitted (Some P) db DELETE (RActivity l) post = false).
Proof.
  assert (Exact : forall c row,
             is_activity_row row = false ->
             (using_ok (Some P) db c row = true <-> c = INSERT \/ may_access P db row)
             /\ (c = INSERT /\ is_project_row row = true
                 \/ (with_check_ok (Some P) db c row = true
                     <-> c = SELECT \/ c = DELETE \/ may_access P db row))).
  { intros c row NA.
    destruct row as [X|t|f|l]; try discriminate NA; simpl.
    - split.
      + destruct c; simpl; rewrite ?holds_access_expr;
          split; auto; intros [H|H]; auto; discriminate.
      + destruct c; simpl; rewrite ?holds_access_expr; auto; right;
          split; auto; intros [H|[H|H]]; auto; discriminate.
    - split.
      + destruct c; simpl; rewrite ?can_access_row;
          split; auto; intros [H|H]; auto; discriminate.
      + right. destruct c; simpl; rewrite ?can_access_row;
          split; auto; intros [H|[H|H]]; auto; discriminate.
    - split.
      + destruct c; simpl; rewrite ?can_access_row;
          split; auto; intros [H|H]; auto; discriminate.
      + right. destruct c; simpl; rewrite ?can_access_row;
          split; auto; intros [H|[H|H]]; auto; discriminate. }
  assert (InsP : forall X, with_check_ok (Some P) db INSERT (RProject X) = true
                           <-> ProjectRow.created_by X = Some P).
  { intros X. unfold with_check_ok. rewrite holds_sql_eq. split.
    - intros (s & [= <-] & E). exact E.
    - intros E. now exists P. }
  assert (Act : forall l, can_access_project (Some P) db (Some (ActivityLog.project_id l)) = true
                          <-> may_access P db (RActivity l)).
  { intros l. simpl. apply can_access_row. }
  assert (InsA : forall l, with_check_ok (Some P) db INSERT (RActivity l) = true
                           <-> ActivityLog.user_id l = Some P /\ may_access P db (RActivity l)).
  { intros l. unfold with_check_ok. rewrite holds_sql_and, holds_sql_eq, <- Act.
    split.
    - intros [(s & E & [= <-]) H0]. split; auto.
      simpl in H0. now destruct (can_access_project _ _ _).
    - intros [E H0]. split; [now exists P|]. simpl. now rewrite H0. }
  split; [apply holds_access_expr|].
  split.
  { intros X HX PK. rewrite can_access_row. split.
    - intros (Y & HY & E & A). now rewrite <- (PK Y HY E).
    - intros A. now exists X. }
  split.
  { intros c pre post Hp.
    assert (G : forall c' row, c' <> INSERT -> using_ok (Some P) db c' row = true ->
                               may_access P db row).
    { intros c' row Hc Hu. destruct row as [X|t|f|l].
      - destruct (Exact c' (RProject X) eq_refl) as [E _]. apply E in Hu. tauto.
      - destruct (Exact c' (RTask t) eq_refl) as [E _]. apply E in Hu. tauto.
      - destruct (Exact c' (RCustomField f) eq_refl) as [E _]. apply E in Hu. tauto.
      - destruct c'; simpl in Hu; try discriminate; try congruence. now apply Act. }
    assert (W : forall c' row, c' = INSERT \/ c' = UPDATE ->
                               with_check_ok (Some P) db c' row = true ->
                               may_access P db row).
    { intros c' row Hc Hw. destruct row as [X|t|f|l].
      - destruct Hc as [-> | ->].
        + apply InsP in Hw. now left.
        + simpl in Hw. now apply holds_access_expr.
      - destruct (Exact c' (RTask t) eq_refl) as [_ [[_ E]|E]]; [discriminate|].
        apply E in Hw. destruct Hc; subst; destruct Hw as [H|[H|H]]; auto; discriminate.
      - destruct (Exact c' (RCustomField f) eq_refl) as [_ [[_ E]|E]]; [discriminate|].
        apply E in Hw. destruct Hc; subst; destruct Hw as [H|[H|H]]; auto; discriminate.
      - destruct Hc as [-> | ->]; [now apply InsA in Hw | discriminate]. }
    destruct c; unfold permitted in Hp.
    - apply (G SELECT); auto. discriminate.
    - apply (W INSERT); auto.
    - apply andb_true_iff in Hp. destruct Hp as [Hu Hw]. split.
      + apply (G UPDATE); auto. discriminate.
      + apply (W UPDATE); auto.
    - apply (G DELETE); auto. discriminate. }
  split.
  { intros c pre post NA1 NA2 NP.
    destruct (Exact c pre NA1) as [U _]. destruct (Exact c post NA2) as [_ W].
    destruct c; unfold permitted.
    - rewrite U. split; auto. intros [H|H]; auto. discriminate.
    - destruct W as [[_ W]|W]; [rewrite NP in W; auto; discriminate|].
      rewrite W. split; auto. intros [H|[H|H]]; auto; discriminate.
    - destruct W as [[W _]|W]; [discriminate|].
      rewrite andb_true_iff, U, W. split.
      + intros [[H|H] [H'|[H'|H']]]; try discriminate. auto.
      + intros [H H']. auto.
    - rewrite U. split; auto. intros [H|H]; auto. discriminate. }
  split.
  { intros pre X. unfold permitted. apply InsP. }
  intros pre post l. unfold permitted.
  split; [apply Act|]. split; [apply InsA|]. split; reflexivity.
Qed.

Lemma can_access_project_policies_witness :
  can_access_project (Some "bob") (sampleDb [] []) (Some "p1") = true
  /\ may_access "alice" (sampleDb [] []) (RTask (sampleTask "t1" OnHold []))
  /\ permitted (Some "bob") (sampleDb [] []) INSERT
       (RTask (sampleTask "t1" OnHold [])) (RTask (sampleTask "t1" OnHold [])) = true
  /\ ~ may_access "carol" (sampleDb [] []) (RTask (sampleTask "t1" OnHold [])).
Proof.
  destruct (can_access_project_policies "bob" (sampleDb [] [])) as (_ & L & _ & Ex & _).
  destruct (can_access_project_policies "alice" (sampleDb [] [])) as (_ & _ & G & _).
  destruct (can_access_project_policies "carol" (sampleDb [] [])) as (_ & _ & _ & Ex' & _).
  assert (B : owner_or_member "bob" (sampleRow (Some "alice") ["bob"])).
  { right. exists ["bob"]. split; [reflexivity | left; reflexivity]. }
  split; [|split; [|split]].
  - apply (L (sampleRow (Some "alice") ["bob"])).
    + left; reflexivity.
    + intros Y [<-|[]] _; reflexivity.
    + exact B.
  - apply (G DELETE (RTask (sampleTask "t1" OnHold [])) (RTask (sampleTask "t1" OnHold []))).
    reflexivity.
  - apply (Ex INSERT (RTask (sampleTask "t1" OnHold [])) (RTask (sampleTask "t1" OnHold []))
              eq_refl eq_refl (fun _ => eq_refl)).
    exists (sampleRow (Some "alice") ["bob"]).
    split; [left; reflexivity|]. split; [reflexivity | exact B].
  - intros M.
    apply (Ex' SELECT (RTask (sampleTask "t1" OnHold [])) (RTask (sampleTask "t1" OnHold []))
               eq_refl eq_refl) in M.
    + discriminate M.
    + discriminate.
Defined.

(** ** C2: the raw-SQL variant *)

(** C2. The raw-SQL branch of [getUserProjects] hands every stored project
    to whoever calls it: a principal who is neither owner nor member of a
    project receives it.  The raw-SQL branch of [createProject] does the
    same for every caller, signed in or not.  On the same inputs the
    managed branch returns nothing the caller may not access and refuses
    the anonymous caller. *)
Theorem sqlserver_branch_is_not_guarded :
  (forall uid db, SqlServer.getUserProjects SqlServer.Sqlserver uid db = projects db)
  /\ SqlServer.getUserProjects SqlServer.Sqlserver (Some "carol") (sampleDb [] [])
     = [sampleRow (Some "alice") ["bob"]]
  /\ can_access_project (Some "carol") (sampleDb [] []) (Some "p1") = false
  /\ SqlServer.getUserProjects SqlServer.Supabase (Some "carol") (sampleDb [] []) = []
  /\ (forall uid uid' env project db,
         SqlServer.createProject SqlServer.Sqlserver uid env project db
         = SqlServer.createProject SqlServer.Sqlserver uid' env project db)
  /\ (forall env project db,
         is_ok (fst (SqlServer.createProject SqlServer.Supabase None env project db))
         = false).
Proof.
  repeat split; reflexivity.
Qed.

(** ** C7: the activity log *)

Lemma insert_activity_appends uid env j k pid tid user action ch db :
  uid = Some user ->
  can_access_project uid db (Some pid) = true ->
  fresh_log_id (uuid env j) db ->
  match str_or_null tid with
  | Some t => existsb (Managed.taskHasId t) (tasks db)
  | None => true
  end = true ->
  In user (users db) ->
  Managed.insert_activity uid env j k pid tid user action ch db
  = Managed.setActivity
      (activity_log db ++ [entry (uuid env j) pid (str_or_null tid) user action ch (clock env k)])
      db.
Proof.
  intros -> A F T U. unfold Managed.insert_activity, Managed.insert_activity_row.
  assert (W : with_check_ok (Some user) db INSERT
                (RActivity (ActivityLog.mk (uuid env j) pid (str_or_null tid) (Some user)
                                           action ch (clock env k))) = true).
  { unfold with_check_ok. apply holds_sql_and. split.
    - apply holds_sql_eq. now exists user.
    - simpl. now rewrite A. }
  rewrite W. simpl guard.
  assert (I : includes (map ActivityLog.id (activity_log db)) (uuid env j) = false).
  { apply not_true_is_false. intros H. now apply includes_In in H. }
  rewrite I. simpl guard.
  assert (E : existsb (Managed.projectHasId pid) (projects db) = true).
  { apply can_access_row in A. destruct A as (X & HX & <- & _).
    apply existsb_exists. exists X. split; auto. apply String.eqb_refl. }
  apply includes_In in U. rewrite E, T, U. reflexivity.
Qed.

Lemma filter_length_lt {A} (f : A -> bool) (l : list A) (x : A) :
  In x l -> f x = true -> (length (filter (fun y => negb (f y)) l) < length l)%nat.
Proof.
  induction l as [|a l IH]; simpl; intros [] Fx.
  - subst. rewrite Fx. simpl.
    pose proof (filter_length_le (fun y => negb (f y)) l). lia.
  - specialize (IH H Fx). destruct (negb (f a)); simpl; lia.
Qed.

Lemma insert_project_row_inv uid db new_id now project user row :
  Managed.insert_project_row uid db new_id now project user = inr row ->
  uid = Some user
  /\ ProjectRow.id row = new_id
  /\ ProjectRow.name row = ProjectInsert.name project
  /\ ProjectRow.created_by row = Some user
  /\ In user (users db).
Proof.
  unfold Managed.insert_project_row.
  destruct (Managed.only_columns _ _); cbn [guard]; [|discriminate].
  destruct (with_check_ok _ _ _ _) eqn:W; simpl; [|discriminate].
  destruct (includes (map ProjectRow.id (projects db)) new_id); simpl; [discriminate|].
  destruct (includes (users db) user) eqn:U; simpl; [|discriminate].
  intros [= <-]. simpl. apply includes_In in U.
  unfold with_check_ok in W. apply holds_sql_eq in W.
  destruct W as (s & -> & [= ->]). auto.
Qed.

Lemma update_project_stmt_inv uid db now id u new ps :
  Managed.update_project_stmt uid db now id u = inr (new, ps) ->
  In new ps /\ ProjectRow.id new = id /\ with_check_ok uid db UPDATE (RProject new) = true.
Proof.
  unfold Managed.update_project_stmt.
  destruct (Managed.only_columns _ _); cbn [guard]; [|discriminate].
  destruct (filter _ (projects db)) as [|old [|? ?]] eqn:F; try discriminate.
  destruct (with_check_ok _ _ _ _) eqn:W; simpl; [|discriminate].
  intros [= <- <-].
  assert (I : In old (filter (Managed.project_update_target uid db id) (projects db)))
    by (rewrite F; now left).
  apply filter_In in I. destruct I as [I T].
  split; [|split; auto].
  - apply in_map_iff. exists old. now rewrite T.
  - unfold Managed.project_update_target, Managed.projectHasId in T.
    apply andb_true_iff in T. destruct T as [T _]. apply String.eqb_eq in T.
    unfold Managed.apply_project_update.
    destruct ProjectRow_eq_dec; exact T.
Qed.

(** C7, as stated, fails: creating a task in the demo variant succeeds and
    writes no activity entry. *)
Lemma createTask_demo_logs_nothing :
  exists t st',
    Demo.createTask sampleEnv (datedInput "p1" (DateOk 10) (DateOk 20)) (sampleStore [])
    = (Ok t, st')
    /\ In t (Demo.getProjectTasks "p1" st')
    /\ demoActivityLog st' = demoActivityLog (sampleStore [])
    /\ ls_activity st' = ls_activity (sampleStore []).
Proof.
  eexists _, _. split; [vm_compute; reflexivity|].
  split; [left; reflexivity|]. split; reflexivity.
Qed.

Lemma demo_task_ops_keep_log :
  (forall env task st,
      let st' := snd (Demo.createTask env task st) in
      demoActivityLog st' = demoActivityLog st /\ ls_activity st' = ls_activity st)
  /\ (forall env id pid u st,
         let st' := snd (Demo.updateTask env id pid u st) in
         demoActivityLog st' = demoActivityLog st /\ ls_activity st' = ls_activity st)
  /\ (forall id pid st,
         let st' := snd (Demo.deleteTask id pid st) in
         demoActivityLog st' = demoActivityLog st /\ ls_activity st' = ls_activity st).
Proof.
  split; [|split].
  - intros env task st.
    destruct (demo_createTask_cases env task st)
      as [(ps1 & P & ps2 & sd & ed & _ & _ & _ & C) | (e & C)]; rewrite C; simpl; auto.
  - intros env id pid u st. unfold Demo.updateTask.
    destruct (findIndex _ _); simpl; auto.
    destruct (nth_error _ _) as [P|]; simpl; auto.
    destruct (DemoProject.tasks P) as [ts|]; simpl; auto.
    destruct (findIndex _ ts); simpl; auto.
    destruct (nth_error ts _); simpl; auto.
  - intros id pid st. unfold Demo.deleteTask.
    destruct (findIndex _ _); simpl; auto.
    destruct (nth_error _ _) as [P|]; simpl; auto.
    destruct (DemoProject.tasks P) as [ts|]; simpl; auto.
    destruct (_ <? _)%nat; simpl; auto.
Qed.

(** C7, amended. Exactly one activity entry, carrying the action tag, the
    acting principal and the payload, is appended by: every create and
    every successful update of a project and every delete that removes a
    project in the demo variant; every successful create or update of a
    task or of a project in the managed variant, the session user being a
    known user and the id drawn for the entry being free.  In the demo
    variant creating, updating and deleting a task write no entry: logging
    is skipped when the managed backend is not configured. *)
Theorem mutations_append_one_activity_entry :
  (* projects, demo variant *)
  (forall env project st,
      exists p st',
        Demo.createProject env project st = (Ok p, st')
        /\ demoActivityLog st'
           = entry (uuid env 1) (DemoProject.id p) None "demo_user" "project_created"
                   (ChProjectName (ProjectInsert.name project)) (clock env 2)
               :: demoActivityLog st
        /\ ls_activity st' = Some (demoActivityLog st'))
  /\ (forall env id u st p st',
         Demo.updateProject env id u st = (Ok p, st') ->
         demoActivityLog st'
         = entry (uuid env 0) id None "demo_user" "project_updated"
                 (ChProjectUpdate (finalUpdates u (clock env 0))) (clock env 1)
             :: demoActivityLog st
         /\ ls_activity st' = Some (demoActivityLog st'))
  /\ (forall env id st p,
         Demo.getProject id st = Some p ->
         exists st',
           Demo.deleteProject env id st = (Ok tt, st')
           /\ Demo.getProject id st' = None
           /\ demoActivityLog st'
              = entry (uuid env 0) id None "demo_user" "project_deleted"
                      (ChProjectId id) (clock env 0)
                  :: demoActivityLog st
           /\ ls_activity st' = Some (demoActivityLog st'))
  (* tasks, managed variant *)
  /\ (forall uid env task db t db',
         Managed.createTask uid env task db = (Ok t, db') ->
         session_ok uid db -> fresh_log_id (uuid env 1) db ->
         exists user,
           uid = Some user
           /\ activity_log db'
              = activity_log db
                  ++ [entry (uuid env 1) (Task.project_id t) (str_or_null (Some (Task.id t)))
                            user "task_created" (ChTaskName (Task.name t)) (clock env 3)])
  /\ (forall uid env id pid u db t db',
         Managed.updateTask uid env id pid u db = (Ok t, db') ->
         session_ok uid db -> fresh_log_id (uuid env 0) db ->
         exists user,
           uid = Some user
           /\ activity_log db'
              = activity_log db
                  ++ [entry (uuid env 0) (Task.project_id t) (str_or_null (Some id))
                            user "task_updated" (ChTaskUpdate u) (clock env 1)])
  (* projects, managed variant *)
  /\ (forall uid env project db p db',
         Managed.createProject uid env project db = (Ok p, db') ->
         fresh_log_id (uuid env 1) db ->
         exists user,
           uid = Some user
           /\ activity_log db'
              = activity_log db
                  ++ [entry (uuid env 1) (ProjectRow.id p) None user "project_created"
                            (ChProjectName (ProjectRow.name p)) (clock env 1)])
  /\ (forall uid env id u db p db',
         Managed.updateProject uid env id u db = (Ok p, db') ->
         session_ok uid db -> fresh_log_id (uuid env 0) db ->
         exists user,
           uid = Some user
           /\ activity_log db'
              = activity_log db
                  ++ [entry (uuid env 0) id None user "project_updated"
                            (ChProjectUpdate (finalUpdates u (clock env 0)))
                            (clock env 2)])
  (* tasks, demo variant *)
  /\ (forall env task st,
         demoActivityLog (snd (Demo.createTask env task st)) = demoActivityLog st
         /\ ls_activity (snd (Demo.createTask env task st)) = ls_activity st)
  /\ (forall env id pid u st,
         demoActivityLog (snd (Demo.updateTask env id pid u st)) = demoActivityLog st
         /\ ls_activity (snd (Demo.updateTask env id pid u st)) = ls_activity st)
  /\ (forall id pid st,
         demoActivityLog (snd (Demo.deleteTask id pid st)) = demoActivityLog st
         /\ ls_activity (snd (Demo.deleteTask id pid st)) = ls_activity st).
Proof.
  destruct demo_task_ops_keep_log as (K1 & K2 & K3).
  repeat match goal with |- _ /\ _ => split end;
    try exact K1; try exact K2; try exact K3.
  - (* Demo.createProject *)
    intros env project st. unfold Demo.createProject.
    eexists _, _. split; [reflexivity|]. split; reflexivity.
  - (* Demo.updateProject *)
    intros env id u st p st'. unfold Demo.updateProject.
    destruct (findIndex _ _); [|discriminate].
    destruct (nth_error _ _); [|discriminate].
    intros [= <- <-]. split; reflexivity.
  - (* Demo.deleteProject *)
    intros env id st p G. unfold Demo.getProject in G.
    destruct (find_split _ _ _ G) as (ps1 & ps2 & E & N & H).
    unfold Demo.deleteProject.
    assert (L : (length (filter (fun q => negb (Demo.projectHasId id q)) (demoProjects st))
                 <? length (demoProjects st))%nat = true).
    { apply Nat.ltb_lt. apply (filter_length_lt _ _ p); auto.
      rewrite E. apply in_app_iff. right. now left. }
    rewrite L. eexists. split; [reflexivity|]. split; [|split; reflexivity].
    unfold Demo.getProject. simpl.
    destruct (find _ (filter _ _)) as [q|] eqn:F; auto.
    apply find_some in F. destruct F as [F1 F2].
    apply filter_In in F1. destruct F1 as [_ F1]. rewrite F2 in F1. discriminate.
  - (* Managed.createTask *)
    intros uid env task db t db'. unfold Managed.createTask.
    destruct (Managed.insert_task_row _ _ _ _ _ _) as [c|r] eqn:R; [discriminate|].
    intros [= -> <-] Ses Fr.
    apply insert_task_row_inv in R.
    destruct R as (A & Pid & _ & _ & _ & _ & _ & _ & _).
    rewrite Pid in A.
    destruct (proj1 (can_access_project_iff _ _ _) A) as (user & X & -> & _).
    exists user. split; auto.
    unfold Managed.taskLogActivity.
    rewrite (insert_activity_appends (Some user) env 1 3 _ _ user); auto.
    + simpl. destruct (str_or_null (Some (Task.id t))) as [s|] eqn:S; auto.
      unfold str_or_null in S. destruct (truthy (Some (Task.id t))); [|discriminate].
      injection S as <-. rewrite existsb_app. simpl.
      unfold Managed.taskHasId. now rewrite String.eqb_refl, orb_true_r.
  - (* Managed.updateTask *)
    intros uid env id pid u db t db'. unfold Managed.updateTask.
    destruct (Managed.update_task_stmt _ _ _ _ _) as [c|[new ts]] eqn:U; [discriminate|].
    intros [= -> <-] Ses Fr.
    destruct (update_task_stmt_inv _ _ _ _ _ _ _ U) as (old & F & Enew & Ets & _).
    assert (I : In old (filter (Managed.update_target uid db id) (tasks db)))
      by (rewrite F; now left).
    apply filter_In in I. destruct I as [I T].
    assert (T' := T). unfold Managed.update_target in T'.
    apply andb_true_iff in T'. destruct T' as [Tid A]. simpl in A.
    destruct (apply_update_fields old u (clock env 0)) as (Eid & Epid & _).
    rewrite <- Enew in Eid, Epid.
    destruct (proj1 (can_access_project_iff _ _ _) A) as (user & X & -> & _).
    exists user. split; auto.
    unfold Managed.taskLogActivity.
    rewrite (insert_activity_appends (Some user) env 0 1 _ _ user); auto.
    + simpl. now rewrite Epid.
    + simpl. destruct (str_or_null (Some id)) as [s|] eqn:S; auto.
      unfold str_or_null in S. destruct (truthy (Some id)); [|discriminate].
      injection S as <-. apply existsb_exists. exists t. split.
      * rewrite Ets. apply in_map_iff. exists old. now rewrite T.
      * unfold Managed.taskHasId in *. now rewrite Eid.
  - (* Managed.createProject *)
    intros uid env project db p db'. unfold Managed.createProject.
    destruct uid as [user|]; [|discriminate].
    destruct (Managed.insert_project_row _ _ _ _ _ _) as [c|row] eqn:R; [discriminate|].
    intros [= -> <-] Fr.
    destruct (insert_project_row_inv _ _ _ _ _ _ _ R) as (_ & _ & _ & Own & Usr).
    exists user. split; auto.
    unfold Managed.logActivity.
    rewrite (insert_activity_appends (Some user) env 1 1 _ _ user); auto.
    simpl. apply can_access_row. exists p. split; [|split; auto].
    + apply in_app_iff. right. now left.
    + now left.
  - (* Managed.updateProject *)
    intros uid env id u db p db'. unfold Managed.updateProject.
    destruct uid as [user|]; [|discriminate].
    destruct (Managed.update_project_stmt _ _ _ _ _) as [c|[new ps]] eqn:U; [discriminate|].
    intros [= -> <-] Ses Fr.
    destruct (update_project_stmt_inv _ _ _ _ _ _ _ U) as (I & Eid & W).
    exists user. split; auto.
    unfold Managed.logActivity.
    rewrite (insert_activity_appends (Some user) env 0 2 _ _ user); auto.
    simpl. apply can_access_row. exists p. split; [exact I|split; [exact Eid|]].
    simpl in W. now apply holds_access_expr.
Qed.

Lemma mutations_append_one_activity_entry_witness :
  (exists p st',
      Demo.updateProject sampleEnv "p1"
        (ProjectUpdate.mk (Some "Renamed") None None None None None None) (sampleStore [])
      = (Ok p, st')
      /\ length (demoActivityLog st') = 1)
  /\ (exists t db' user,
         Managed.updateTask (Some "alice") sampleEnv "t1" "p1" (datedUpdate 10 30)
           (sampleDb [sampleTask "t1" OnHold []] []) = (Ok t, db')
         /\ activity_log db'
            = [entry "new-0" "p1" (Some "t1") user "task_updated"
                     (ChTaskUpdate (datedUpdate 10 30)) 1001])
  /\ (exists p db' user,
         Managed.createProject (Some "carol") sampleEnv
           (ProjectInsert.mk "Second" None None None None None) (sampleDb [] []) = (Ok p, db')
         /\ activity_log db'
            = [entry "new-1" "new-0" None user "project_created" (ChProjectName "Second") 1001])
  /\ (exists st',
      Demo.deleteProject sampleEnv "p1" (sampleStore []) = (Ok tt, st')
      /\ demoActivityLog st'
         = [entry "new-0" "p1" None "demo_user" "project_deleted" (ChProjectId "p1") 1000])
  /\ (exists t db' user,
         Managed.createTask (Some "bob") sampleEnv
           (datedInput "p1" (DateOk 10) (DateOk 20)) (sampleDb [] []) = (Ok t, db')
         /\ activity_log db'
            = [entry "new-1" "p1" (Some "new-0") user "task_created"
                     (ChTaskName "Dated") 1003])
  /\ (exists p db' user,
         Managed.updateProject (Some "bob") sampleEnv "p1"
           (ProjectUpdate.mk (Some "Renamed") None None None None None None)
           (sampleDb [] []) = (Ok p, db')
         /\ length (activity_log db') = 1
         /\ option_map ActivityLog.user_id (hd_error (activity_log db')) = Some (Some user)).
Proof.
  destruct mutations_append_one_activity_entry
    as (_ & DU & DP & CT & UT & CP & UP & _).
  split; [|split; [|split; [|split; [|split]]]].
  - eassert (E : Demo.updateProject sampleEnv "p1"
                   (ProjectUpdate.mk (Some "Renamed") None None None None None None)
                   (sampleStore []) = (Ok _, _))
      by (vm_compute; reflexivity).
    destruct (DU _ _ _ _ _ _ E) as (L & _).
    eexists _, _. split; [exact E|]. rewrite L. reflexivity.
  - eassert (E : Managed.updateTask (Some "alice") sampleEnv "t1" "p1" (datedUpdate 10 30)
                   (sampleDb [sampleTask "t1" OnHold []] []) = (Ok _, _))
      by (vm_compute; reflexivity).
    destruct (UT _ _ _ _ _ _ _ _ E) as (user & _ & L).
    + intros user [= <-]. simpl. auto.
    + intros [].
    + eexists _, _, user. split; [exact E | exact L].
  - eassert (E : Managed.createProject (Some "carol") sampleEnv
                   (ProjectInsert.mk "Second" None None None None None) (sampleDb [] [])
                 = (Ok _, _))
      by (vm_compute; reflexivity).
    destruct (CP _ _ _ _ _ _ E) as (user & _ & L).
    + intros [].
    + eexists _, _, user. split; [exact E | exact L].
  - destruct (DP sampleEnv "p1" (sampleStore []) (sampleProject []) eq_refl)
      as (st' & E & _ & L & _).
    exists st'. split; [exact E | exact L].
  - eassert (E : Managed.createTask (Some "bob") sampleEnv
                   (datedInput "p1" (DateOk 10) (DateOk 20)) (sampleDb [] []) = (Ok _, _))
      by (vm_compute; reflexivity).
    destruct (CT _ _ _ _ _ _ E) as (user & _ & L).
    + intros user [= <-]. simpl. auto.
    + intros [].
    + eexists _, _, user. split; [exact E | exact L].
  - eassert (E : Managed.updateProject (Some "bob") sampleEnv "p1"
                   (ProjectUpdate.mk (Some "Renamed") None None None None None None)
                   (sampleDb [] []) = (Ok _, _))
      by (vm_compute; reflexivity).
    destruct (UP _ _ _ _ _ _ _ E) as (user & _ & L).
    + intros user [= <-]. simpl. auto.
    + intros [].
    + eexists _, _, user. split; [exact E|]. rewrite L. split; reflexivity.
Defined.

(** The 'task_deleted' entry names the task that was just deleted: once no
    row with that id is left, the foreign key of [activity_log.task_id]
    refuses the entry. *)
Lemma managed_deleteTask_writes_no_entry uid env id pid db :
  id <> "" ->
  existsb (Managed.taskHasId id) (tasks (Managed.delete_task_stmt uid db id)) = false ->
  Managed.deleteTask uid env id pid db = (Ok tt, Managed.delete_task_stmt uid db id).
Proof.
  intros Ne Gone. unfold Managed.deleteTask, Managed.taskLogActivity. f_equal.
  destruct uid as [user|]; auto.
  remember (Managed.delete_task_stmt (Some user) db id) as db1 eqn:E1. clear E1.
  unfold Managed.insert_activity, Managed.insert_activity_row.
  assert (S : str_or_null (Some id) = Some id).
  { unfold str_or_null, truthy. apply String.eqb_neq in Ne. now rewrite Ne. }
  rewrite S, Gone, andb_false_r.
  destruct (with_check_ok _ _ _ _); simpl; auto.
  destruct (includes _ _); simpl; auto.
Qed.

(** ** C8: what goes with a project *)

(** After the DELETE no project with that id is left that the caller may
    access, so the 'project_deleted' entry is refused by the policy of
    [activity_log]: the managed [deleteProject] leaves the database as the
    statement left it. *)
Lemma managed_deleteProject_writes_no_entry user env id db :
  Managed.deleteProject (Some user) env id db
  = (Ok tt, Managed.delete_project_stmt (Some user) db id).
Proof.
  unfold Managed.deleteProject, Managed.logActivity, Managed.insert_activity,
    Managed.insert_activity_row. f_equal.
  set (db1 := Managed.delete_project_stmt (Some user) db id).
  assert (A : can_access_project (Some user) db1 (Some id) = false).
  { apply not_true_is_false. intros A. apply can_access_row in A.
    destruct A as (X & HX & Eid & Acc). apply holds_access_expr in Acc.
    assert (T : Managed.project_delete_target (Some user) db id X = true).
    { unfold Managed.project_delete_target, Managed.projectHasId. simpl.
      rewrite Eid, String.eqb_refl, Acc. reflexivity. }
    unfold db1, Managed.delete_project_stmt in HX.
    destruct (existsb _ (projects db)) eqn:E.
    - simpl in HX. apply filter_In in HX. destruct HX as [_ HX].
      rewrite T in HX. discriminate.
    - assert (E' : existsb (Managed.project_delete_target (Some user) db id) (projects db)
                   = true) by (apply existsb_exists; eauto).
      congruence. }
  unfold with_check_ok. cbn [ActivityLog.user_id ActivityLog.project_id].
  rewrite A. unfold sql_eq. rewrite String.eqb_refl. reflexivity.
Qed.

(** C8, as stated, fails: after the round trip the three tasks are gone,
    and so are the entries that referenced them. *)
Lemma project_cascade_removes_task_entries :
  map Task.id (tasks roundTripBefore) = ["T1"; "T2"; "T3"]
  /\ map ActivityLog.task_id (activity_log roundTripBefore)
     = [None; Some "T1"; Some "T2"; Some "T3"]
  /\ tasks roundTripAfter = []
  /\ activity_log roundTripAfter = []
  /\ ~ task_entries_survive roundTripBefore roundTripAfter.
Proof.
  assert (B : map ActivityLog.task_id (activity_log roundTripBefore)
              = [None; Some "T1"; Some "T2"; Some "T3"]) by (vm_compute; reflexivity).
  assert (T : tasks roundTripAfter = []) by (vm_compute; reflexivity).
  assert (L : activity_log roundTripAfter = []) by (vm_compute; reflexivity).
  split; [vm_compute; reflexivity|]. split; [exact B|]. split; [exact T|].
  split; [exact L|].
  intros S.
  destruct (activity_log roundTripBefore) as [|l0 [|l1 rest]] eqn:E; try discriminate B.
  injection B as _ B1 _.
  destruct (S l1 "T1") as (l' & H & _).
  - rewrite E. right. now left.
  - exact B1.
  - rewrite T. intros [].
  - rewrite L in H. destruct H.
Qed.

Lemma clear_task_ref_spec (gone : list string) (l : ActivityLog.t) :
  same_entry_but_task l (Managed.clear_task_ref gone l)
  /\ (forall t, ActivityLog.task_id l = Some t -> In t gone ->
                ActivityLog.task_id (Managed.clear_task_ref gone l) = None)
  /\ ((forall t, ActivityLog.task_id l = Some t -> ~ In t gone) ->
      ActivityLog.task_id (Managed.clear_task_ref gone l) = ActivityLog.task_id l).
Proof.
  unfold Managed.clear_task_ref, same_entry_but_task.
  destruct (ActivityLog.task_id l) as [t|] eqn:E.
  - destruct (includes gone t) eqn:I; simpl.
    + split; [auto 10|]. split; [auto|].
      intros H. apply includes_In in I. now destruct (H t eq_refl).
    + split; [auto 10|]. split; [|auto].
      intros t' [= <-] H. apply includes_In in H. congruence.
  - split; [auto 10|]. split; [discriminate|auto].
Qed.

Lemma gone_task_of_project (db : Db) (pid t : string) :
  In t (map Task.id (filter (fun T => Task.project_id T =? pid) (tasks db)))
  <-> task_of_project db pid t.
Proof.
  unfold task_of_project. rewrite in_map_iff. split.
  - intros (T & E & H). apply filter_In in H. destruct H as [H P].
    apply String.eqb_eq in P. now exists T.
  - intros (T & H & P & E). exists T. split; auto.
    apply filter_In. split; auto. now apply String.eqb_eq.
Qed.

(** C8, amended. When a principal who may access a stored project deletes
    it, the call succeeds and, by cascade, the project's tasks, custom
    fields and activity entries are all deleted, the entries written for
    its tasks among them; tasks, custom fields and entries of other
    projects stay, and an entry of another project that referenced one of
    the deleted tasks stays with its task reference cleared to null. *)
Theorem project_delete_cascade (user : string) (env : Env) (pid : string) (db : Db)
        (X : ProjectRow.t) :
  In X (projects db) -> ProjectRow.id X = pid -> owner_or_member user X ->
  exists db',
    Managed.deleteProject (Some user) env pid db = (Ok tt, db')
    /\ ~ In X (projects db')
    /\ (forall t, In t (tasks db') <-> In t (tasks db) /\ Task.project_id t <> pid)
    /\ (forall c, In c (custom_fields db')
                  <-> In c (custom_fields db) /\ CustomFieldRow.project_id c <> pid)
    /\ (forall l, In l (activity_log db') -> ActivityLog.project_id l <> pid)
    /\ (forall l,
           In l (activity_log db) -> ActivityLog.project_id l <> pid ->
           exists l',
             In l' (activity_log db')
             /\ same_entry_but_task l l'
             /\ (forall t, ActivityLog.task_id l = Some t -> task_of_project db pid t ->
                           ActivityLog.task_id l' = None)
             /\ ((forall t, ActivityLog.task_id l = Some t -> ~ task_of_project db pid t) ->
                 ActivityLog.task_id l' = ActivityLog.task_id l)).
Proof.
  intros HX Eid Acc.
  rewrite managed_deleteProject_writes_no_entry. eexists. split; [reflexivity|].
  assert (T : Managed.project_delete_target (Some user) db pid X = true).
  { unfold Managed.project_delete_target, Managed.projectHasId. simpl.
    apply holds_access_expr in Acc. rewrite Eid, String.eqb_refl, Acc. reflexivity. }
  unfold Managed.delete_project_stmt.
  replace (existsb (Managed.project_delete_target (Some user) db pid) (projects db))
    with true by (symmetry; apply existsb_exists; eauto).
  simpl.
  assert (Neq : forall a, negb (a =? pid) = true <-> a <> pid).
  { intros a. rewrite negb_true_iff. apply String.eqb_neq. }
  split; [|split; [|split; [|split]]].
  - intros H. apply filter_In in H. destruct H as [_ H]. rewrite T in H. discriminate.
  - intros t. rewrite filter_In, Neq. tauto.
  - intros c. rewrite filter_In, Neq. tauto.
  - intros l H. apply in_map_iff in H. destruct H as (l0 & <- & H).
    apply filter_In in H. destruct H as [_ H]. apply Neq in H.
    destruct (clear_task_ref_spec
                (map Task.id (filter (fun t => Task.project_id t =? pid) (tasks db))) l0)
      as ((_ & -> & _) & _). exact H.
  - intros l H Hp.
    destruct (clear_task_ref_spec
                (map Task.id (filter (fun t => Task.project_id t =? pid) (tasks db))) l)
      as (Same & Cl & Keep).
    eexists. split; [|split; [exact Same|split]].
    + apply in_map_iff. exists l. split; [reflexivity|].
      apply filter_In. split; auto. now apply Neq.
    + intros t E G. apply (Cl t E). now apply gone_task_of_project.
    + intros G. apply Keep. intros t E I. apply (G t E). now apply gone_task_of_project.
Qed.

Lemma project_delete_cascade_witness :
  exists db',
    Managed.deleteProject (Some "alice") (twoIds "log-D" "log-D") "P" roundTripBefore
    = (Ok tt, db')
    /\ (forall t, In t (tasks db') -> Task.project_id t <> "P")
    /\ (forall l, In l (activity_log db') -> ActivityLog.project_id l <> "P").
Proof.
  destruct (project_delete_cascade "alice" (twoIds "log-D" "log-D") "P" roundTripBefore
              (ProjectRow.mk "P" "Round trip" None Active 0 0 (Some "alice") (Some [])))
    as (db' & E & _ & Ts & _ & Ls & _).
  - vm_compute. left. reflexivity.
  - reflexivity.
  - left. reflexivity.
  - exists db'. split; [exact E|]. split; [|exact Ls].
    intros t H. now apply Ts in H.
Defined.

(* ================================================================== *)
(** * Further properties of the demo task service *)
(* ================================================================== *)

Lemma has_project_find st pid :
  has_project st pid ->
  exists ps1 P ps2,
    loadDemoProjects st = ps1 ++ P :: ps2
    /\ none_of (Demo.projectHasId pid) ps1
    /\ Demo.projectHasId pid P = true.
Proof.
  intros (Q & HQ & E).
  destruct (find (Demo.projectHasId pid) (loadDemoProjects st)) as [P|] eqn:F.
  - destruct (find_split _ _ _ F) as (ps1 & ps2 & E1 & N & H). now exists ps1, P, ps2.
  - pose proof (find_none_of _ _ F Q HQ) as C.
    unfold Demo.projectHasId in C. rewrite E, String.eqb_refl in C. discriminate.
Qed.

Lemma getProjectTasks_at st pid ps1 P ps2 :
  loadDemoProjects st = ps1 ++ P :: ps2 ->
  none_of (Demo.projectHasId pid) ps1 ->
  Demo.projectHasId pid P = true ->
  Demo.getProjectTasks pid st = or_default (DemoProject.tasks P) [].
Proof.
  intros E N H. unfold Demo.getProjectTasks.
  now rewrite E, (find_at_split _ _ _ _ N H).
Qed.

Lemma getProjectTasks_other st st' pid pid' ps1 P P' ps2 :
  loadDemoProjects st = ps1 ++ P :: ps2 ->
  loadDemoProjects st' = ps1 ++ P' :: ps2 ->
  DemoProject.id P = pid -> DemoProject.id P' = pid -> pid' <> pid ->
  Demo.getProjectTasks pid' st' = Demo.getProjectTasks pid' st.
Proof.
  intros E E' I I' Ne. unfold Demo.getProjectTasks. rewrite E, E'.
  rewrite (find_swap (Demo.projectHasId pid') ps1 ps2 P' P); auto;
    unfold Demo.projectHasId; apply String.eqb_neq; congruence.
Qed.

Lemma dateOr_some (d : DateInput) (now : Z) :
  d <> DateBad -> exists z, dateOr d now = Some z.
Proof. destruct d; simpl; eauto. congruence. Qed.

Lemma demo_createTask_at env task st pid ps1 P ps2 sd ed :
  TaskInput.project_id task = Some pid ->
  loadDemoProjects st = ps1 ++ P :: ps2 ->
  none_of (Demo.projectHasId pid) ps1 ->
  Demo.projectHasId pid P = true ->
  dateOr (TaskInput.start_date task) (clock env 0) = Some sd ->
  dateOr (TaskInput.end_date task) (clock env 0) = Some ed ->
  Demo.createTask env task st
  = (Ok (Demo.newTaskOf env task sd ed),
     saveDemoProjects
       (ps1 ++ DemoProject.with_tasks P
                 (or_default (DemoProject.tasks P) [] ++ [Demo.newTaskOf env task sd ed])
                 (Some (clock env 1)) :: ps2) st).
Proof.
  intros Hp E N H Ds De. unfold Demo.createTask. rewrite Hp. cbn [id_is].
  change (fun p : DemoProject.t => DemoProject.id p =? pid) with (Demo.projectHasId pid).
  rewrite E, (findIndex_at_split _ _ _ _ N H), nth_error_at_split, Ds, De.
  now rewrite set_at_split.
Qed.

(** X1. [createTask] in the demo variant, given an existing project and
    dates that parse: the call succeeds, the new task takes the generated
    id, the project id and the clock for both timestamps, a missing date
    becomes the clock, a missing or empty name becomes 'Untitled Task', a
    missing status 'not-started' and a missing progress 0; the task is
    appended at the end of the project's task list and the lists of the
    other projects are as before. *)
Theorem demo_createTask_appends env task st pid :
  TaskInput.project_id task = Some pid ->
  has_project st pid ->
  TaskInput.start_date task <> DateBad ->
  TaskInput.end_date task <> DateBad ->
  exists t st',
    Demo.createTask env task st = (Ok t, st')
    /\ Task.id t = uuid env 0 /\ Task.project_id t = pid
    /\ Task.created_at t = clock env 0 /\ Task.updated_at t = clock env 0
    /\ dateOr (TaskInput.start_date task) (clock env 0) = Some (Task.start_date t)
    /\ dateOr (TaskInput.end_date task) (clock env 0) = Some (Task.end_date t)
    /\ (truthy (TaskInput.name task) = false -> Task.name t = "Untitled Task")
    /\ (TaskInput.status task = None -> Task.status t = NotStarted)
    /\ (TaskInput.progress task = None -> Task.progress t = 0%Z)
    /\ Demo.getProjectTasks pid st' = Demo.getProjectTasks pid st ++ [t]
    /\ (forall pid', pid' <> pid ->
                     Demo.getProjectTasks pid' st' = Demo.getProjectTasks pid' st).
Proof.
  intros Hp HP Hs He.
  destruct (has_project_find _ _ HP) as (ps1 & P & ps2 & E & N & H).
  unfold Demo.createTask. rewrite Hp. cbn [id_is].
  change (fun p : DemoProject.t => DemoProject.id p =? pid) with (Demo.projectHasId pid).
  rewrite E, (findIndex_at_split _ _ _ _ N H), nth_error_at_split.
  destruct (dateOr (TaskInput.start_date task) (clock env 0)) as [sd|] eqn:Ds;
    [|destruct (TaskInput.start_date task); try discriminate; congruence].
  destruct (dateOr (TaskInput.end_date task) (clock env 0)) as [ed|] eqn:De;
    [|destruct (TaskInput.end_date task); try discriminate; congruence].
  rewrite set_at_split. eexists _, _. split; [reflexivity|].
  unfold Demo.newTaskOf. cbn [Task.id Task.project_id Task.created_at Task.updated_at
                              Task.start_date Task.end_date Task.name Task.status
                              Task.progress].
  rewrite Hp. cbn [or_default].
  repeat match goal with |- _ /\ _ => split end; auto.
  - intros Tn. unfold str_or. now rewrite Tn.
  - intros ->. reflexivity.
  - intros ->. reflexivity.
  - rewrite (getProjectTasks_at st pid ps1 P ps2 E N H).
    erewrite (getProjectTasks_at _ pid ps1 _ ps2); [| reflexivity | exact N | exact H].
    reflexivity.
  - intros pid' Ne.
    eapply (getProjectTasks_other st _ pid pid' ps1 P _ ps2 E); auto;
      try (unfold Demo.projectHasId in H; now apply String.eqb_eq in H).
Qed.

Lemma demo_createTask_appends_witness :
  exists t st',
    Demo.createTask sampleEnv (namedInput "p1" None) (sampleStore [sampleTask "t0" Done []])
    = (Ok t, st')
    /\ Task.name t = "Untitled Task"
    /\ Demo.getProjectTasks "p1" st' = [sampleTask "t0" Done []; t].
Proof.
  destruct (demo_createTask_appends sampleEnv (namedInput "p1" None)
              (sampleStore [sampleTask "t0" Done []]) "p1" eq_refl)
    as (t & st' & E & _ & _ & _ & _ & _ & _ & Nm & _ & _ & G & _).
  - exists (sampleProject [sampleTask "t0" Done []]). split; [left|]; reflexivity.
  - discriminate.
  - discriminate.
  - exists t, st'. split; [exact E|]. split; [apply Nm; reflexivity | exact G].
Defined.

(** X2. [createTask] in the demo variant fails without touching the store:
    with 'Project not found' when no stored project carries the given
    project id (or none is given), with a RangeError when the project
    exists and one of the two date strings is no date. *)
Theorem demo_createTask_failures env task st :
  ((forall P, In P (loadDemoProjects st) ->
              TaskInput.project_id task <> Some (DemoProject.id P)) ->
   Demo.createTask env task st = (Throw (JsError "Project not found"), st))
  /\ (forall pid,
         TaskInput.project_id task = Some pid -> has_project st pid ->
         TaskInput.start_date task = DateBad \/ TaskInput.end_date task = DateBad ->
         Demo.createTask env task st = (Throw RangeError, st)).
Proof.
  split.
  - intros No. unfold Demo.createTask. rewrite findIndex_none; auto.
    intros P HP. specialize (No P HP). unfold id_is.
    destruct (TaskInput.project_id task) as [x|]; auto.
    apply String.eqb_neq. congruence.
  - intros pid Hp HP Bad.
    destruct (has_project_find _ _ HP) as (ps1 & P & ps2 & E & N & H).
    unfold Demo.createTask. rewrite Hp. cbn [id_is].
    change (fun p : DemoProject.t => DemoProject.id p =? pid) with (Demo.projectHasId pid).
    rewrite E, (findIndex_at_split _ _ _ _ N H), nth_error_at_split.
    destruct Bad as [-> | ->]; simpl; auto.
    now destruct (dateOr (TaskInput.start_date task) (clock env 0)).
Qed.

Lemma demo_createTask_failures_witness :
  Demo.createTask sampleEnv (namedInput "nope" None) (sampleStore [])
  = (Throw (JsError "Project not found"), sampleStore [])
  /\ Demo.createTask sampleEnv (datedInput "p1" (DateOk 3) DateBad) (sampleStore [])
     = (Throw RangeError, sampleStore []).
Proof.
  split.
  - apply (proj1 (demo_createTask_failures sampleEnv (namedInput "nope" None) (sampleStore []))).
    intros P [<-|[]]. discriminate.
  - apply (proj2 (demo_createTask_failures sampleEnv (datedInput "p1" (DateOk 3) DateBad)
                    (sampleStore [])) "p1" eq_refl).
    + exists (sampleProject []). split; [left|]; reflexivity.
    + right. reflexivity.
Defined.

Lemma demo_deleteTask_at st pid id ps1 P ps2 ts T :
  loadDemoProjects st = ps1 ++ P :: ps2 ->
  none_of (Demo.projectHasId pid) ps1 ->
  Demo.projectHasId pid P = true ->
  DemoProject.tasks P = Some ts ->
  In T ts -> Demo.taskHasId id T = true ->
  Demo.deleteTask id pid st
  = (Ok tt,
     saveDemoProjects
       (ps1 ++ DemoProject.with_tasks P (filter (fun t => negb (Demo.taskHasId id t)) ts)
                                      (DemoProject.lastModified P) :: ps2) st).
Proof.
  intros E N H TP HT Hid. unfold Demo.deleteTask.
  rewrite E, (findIndex_at_split _ _ _ _ N H), nth_error_at_split, TP.
  pose proof (filter_length_lt (Demo.taskHasId id) ts T HT Hid) as L.
  apply Nat.ltb_lt in L. rewrite L. now rewrite set_at_split.
Qed.

Lemma filter_app_fresh {A} (f : A -> bool) (l : list A) (x : A) :
  none_of f l -> f x = true -> filter (fun y => negb (f y)) (l ++ [x]) = l.
Proof.
  intros N Fx. rewrite filter_app. simpl. rewrite Fx. simpl.
  rewrite app_nil_r. now apply filter_negb_none_of.
Qed.

(** X3. Creating a task in the demo variant and deleting it again by the id
    it was given brings every project's task list back to what it was,
    provided that id was not already used in the project. *)
Theorem demo_create_then_delete env task st pid :
  TaskInput.project_id task = Some pid ->
  has_project st pid ->
  TaskInput.start_date task <> DateBad ->
  TaskInput.end_date task <> DateBad ->
  (forall t, In t (Demo.getProjectTasks pid st) -> Task.id t <> uuid env 0) ->
  exists t st1 st2,
    Demo.createTask env task st = (Ok t, st1)
    /\ Demo.deleteTask (Task.id t) pid st1 = (Ok tt, st2)
    /\ forall pid', Demo.getProjectTasks pid' st2 = Demo.getProjectTasks pid' st.
Proof.
  intros Hp HP Hs He Fresh.
  destruct (has_project_find _ _ HP) as (ps1 & P & ps2 & E & N & H).
  rewrite (getProjectTasks_at st pid ps1 P ps2 E N H) in Fresh.
  unfold Demo.createTask. rewrite Hp. cbn [id_is].
  change (fun p : DemoProject.t => DemoProject.id p =? pid) with (Demo.projectHasId pid).
  rewrite E, (findIndex_at_split _ _ _ _ N H), nth_error_at_split.
  destruct (dateOr (TaskInput.start_date task) (clock env 0)) as [sd|] eqn:Ds;
    [|destruct (TaskInput.start_date task); try discriminate; congruence].
  destruct (dateOr (TaskInput.end_date task) (clock env 0)) as [ed|] eqn:De;
    [|destruct (TaskInput.end_date task); try discriminate; congruence].
  rewrite set_at_split. eexists _, _, _. split; [reflexivity|].
  set (t := Demo.newTaskOf env task sd ed).
  assert (Ht : Demo.taskHasId (Task.id t) t = true) by apply String.eqb_refl.
  assert (Nt : none_of (Demo.taskHasId (Task.id t)) (or_default (DemoProject.tasks P) [])).
  { intros x Hx. apply String.eqb_neq. apply (Fresh x Hx). }
  set (P1 := DemoProject.with_tasks P (or_default (DemoProject.tasks P) [] ++ [t])
                                    (Some (clock env 1))).
  assert (D : Demo.deleteTask (Task.id t) pid (saveDemoProjects (ps1 ++ P1 :: ps2) st)
              = (Ok tt,
                 saveDemoProjects
                   (ps1 ++ DemoProject.with_tasks P1
                             (filter (fun x => negb (Demo.taskHasId (Task.id t) x))
                                     (or_default (DemoProject.tasks P) [] ++ [t]))
                             (DemoProject.lastModified P1) :: ps2)
                   (saveDemoProjects (ps1 ++ P1 :: ps2) st))).
  { apply (demo_deleteTask_at _ pid (Task.id t) ps1 P1 ps2 _ t); auto.
    apply in_app_iff. right. left. reflexivity. }
  rewrite D. split; [reflexivity|].
  intros pid'. subst P1. subst t. simpl DemoProject.tasks.
  rewrite (filter_app_fresh _ _ _ Nt Ht).
    destruct (String.eqb_spec pid' pid) as [->|Ne].
    + rewrite (getProjectTasks_at st pid ps1 P ps2 E N H).
      erewrite (getProjectTasks_at _ pid ps1 _ ps2); [| reflexivity | exact N | exact H].
      reflexivity.
    + eapply (getProjectTasks_other st _ pid pid' ps1 P _ ps2 E); auto;
        try (unfold Demo.projectHasId in H; now apply String.eqb_eq in H).
Qed.

Lemma demo_create_then_delete_witness :
  exists t st1 st2,
    Demo.createTask sampleEnv (namedInput "p1" (Some "Temp"))
      (sampleStore [sampleTask "t0" Done []]) = (Ok t, st1)
    /\ Demo.deleteTask (Task.id t) "p1" st1 = (Ok tt, st2)
    /\ Demo.getProjectTasks "p1" st2 = [sampleTask "t0" Done []].
Proof.
  destruct (demo_create_then_delete sampleEnv (namedInput "p1" (Some "Temp"))
              (sampleStore [sampleTask "t0" Done []]) "p1" eq_refl)
    as (t & st1 & st2 & C & D & G).
  - exists (sampleProject [sampleTask "t0" Done []]). split; [left|]; reflexivity.
  - discriminate.
  - discriminate.
  - intros t [<-|[]]. discriminate.
  - exists t, st1, st2. split; [exact C|]. split; [exact D|]. apply (G "p1").
Defined.

(** X4. [deleteTask] in the demo variant on a task the project holds: the
    call succeeds, every task of the project with that id is removed and
    the others keep their order, the task can no longer be found, the
    other projects are untouched, and deleting the same id again is
    rejected with 'Task not found'. *)
Theorem demo_deleteTask_removes id pid st T :
  Demo.findTask id pid st = Some T ->
  exists st',
    Demo.deleteTask id pid st = (Ok tt, st')
    /\ Demo.getProjectTasks pid st'
       = filter (fun t => negb (Task.id t =? id)) (Demo.getProjectTasks pid st)
    /\ Demo.findTask id pid st' = None
    /\ (forall pid', pid' <> pid ->
                     Demo.getProjectTasks pid' st' = Demo.getProjectTasks pid' st)
    /\ Demo.deleteTask id pid st' = (Throw (JsError "Task not found"), st').
Proof.
  intros F.
  destruct (findTask_Located _ _ _ _ F) as (ps1 & P & ps2 & ts1 & ts2 & L).
  destruct L as (E & N1 & H1 & TP & N2 & H2).
  assert (HT : In T (ts1 ++ T :: ts2)) by (apply in_app_iff; right; now left).
  rewrite (demo_deleteTask_at st pid id ps1 P ps2 _ T E N1 H1 TP HT H2).
  eexists. split; [reflexivity|].
  assert (Gone : Demo.findTask id pid
                   (saveDemoProjects
                      (ps1 ++ DemoProject.with_tasks P
                                (filter (fun t => negb (Demo.taskHasId id t)) (ts1 ++ T :: ts2))
                                (DemoProject.lastModified P) :: ps2) st) = None).
  { unfold Demo.findTask, saveDemoProjects, loadDemoProjects. simpl.
    rewrite (find_at_split _ _ _ _ N1); [|exact H1]. simpl.
    destruct (find _ (filter _ _)) as [x|] eqn:Fx; auto.
    apply find_some in Fx. destruct Fx as [Fx1 Fx2].
    apply filter_In in Fx1. destruct Fx1 as [_ Fx1]. rewrite Fx2 in Fx1. discriminate. }
  split; [|split; [exact Gone|split]].
  - rewrite (getProjectTasks_at st pid ps1 P ps2 E N1 H1), TP.
    erewrite (getProjectTasks_at _ pid ps1 _ ps2); [| reflexivity | exact N1 | exact H1].
    reflexivity.
  - intros pid' Ne.
    eapply (getProjectTasks_other st _ pid pid' ps1 P _ ps2 E); auto;
      try (unfold Demo.projectHasId in H1; now apply String.eqb_eq in H1).
  - now apply demo_deleteTask_absent.
Qed.

Lemma demo_deleteTask_removes_witness :
  exists st',
    Demo.deleteTask "t1" "p1"
      (sampleStore [sampleTask "t0" Done []; sampleTask "t1" OnHold []; sampleTask "t2" Done []])
    = (Ok tt, st')
    /\ Demo.getProjectTasks "p1" st' = [sampleTask "t0" Done []; sampleTask "t2" Done []].
Proof.
  destruct (demo_deleteTask_removes "t1" "p1"
              (sampleStore [sampleTask "t0" Done []; sampleTask "t1" OnHold [];
                            sampleTask "t2" Done []])
              (sampleTask "t1" OnHold []) eq_refl) as (st' & D & G & _).
  exists st'. split; [exact D|]. rewrite G. reflexivity.
Defined.

Lemma demo_updateTask_absent env id pid u st :
  Demo.findTask id pid st = None ->
  Demo.updateTask env id pid u st = (Throw (JsError "Task not found"), st).
Proof.
  unfold Demo.findTask, Demo.updateTask.
  destruct (find (Demo.projectHasId pid) (loadDemoProjects st)) as [P|] eqn:FP.
  - destruct (find_split _ _ _ FP) as (ps1 & ps2 & E & N1 & H1).
    rewrite E, (findIndex_at_split _ _ _ _ N1 H1), nth_error_at_split.
    destruct (DemoProject.tasks P) as [ts|]; auto.
    intros FT. now rewrite (findIndex_none _ _ (find_none_of _ _ FT)).
  - intros _. now rewrite (findIndex_none _ _ (find_none_of _ _ FP)).
Qed.

(** X5. [updateTask] in the demo variant.  On an id the project does not
    hold it rejects with 'Task not found' and leaves the store alone.  On a
    task it holds it succeeds whatever the update: id, project and
    creation time are kept, updated_at is the clock even when the update
    carries one, a key the update leaves out keeps its value, the task
    found afterwards is the one returned, and the project's task list is
    the old one with that single element replaced. *)
Theorem demo_updateTask_merges env id pid u st :
  (Demo.findTask id pid st = None ->
   Demo.updateTask env id pid u st = (Throw (JsError "Task not found"), st))
  /\ (forall T,
         Demo.findTask id pid st = Some T ->
         exists T' st' ts1 ts2,
           Demo.updateTask env id pid u st = (Ok T', st')
           /\ Task.id T' = Task.id T /\ Task.project_id T' = Task.project_id T
           /\ Task.created_at T' = Task.created_at T
           /\ Task.updated_at T' = clock env 0
           /\ (TaskUpdate.name u = None -> Task.name T' = Task.name T)
           /\ (TaskUpdate.status u = None -> Task.status T' = Task.status T)
           /\ (TaskUpdate.progress u = None -> Task.progress T' = Task.progress T)
           /\ (TaskUpdate.dependencies u = None ->
               Task.dependencies T' = Task.dependencies T)
           /\ (forall s, TaskUpdate.status u = Some s -> Task.status T' = s)
           /\ Demo.findTask id pid st' = Some T'
           /\ Demo.getProjectTasks pid st = ts1 ++ T :: ts2
           /\ Demo.getProjectTasks pid st' = ts1 ++ T' :: ts2).
Proof.
  split; [apply demo_updateTask_absent|].
  intros T F.
  destruct (findTask_Located _ _ _ _ F) as (ps1 & P & ps2 & ts1 & ts2 & L).
  rewrite (demo_updateTask_Located env _ _ _ u _ _ _ _ _ _ L).
  destruct L as (E & N1 & H1 & TP & N2 & H2).
  eexists _, _, ts1, ts2. split; [reflexivity|].
  unfold mergeTask at 1 2 3 4 5 6 7 8 9.
  cbn [Task.id Task.project_id Task.created_at Task.updated_at Task.name Task.status
       Task.progress Task.dependencies].
  repeat match goal with |- _ /\ _ => split end; auto;
    try (intros ->; reflexivity).
  - intros s ->. reflexivity.
  - eapply (Located_findTask _ pid id ps1 _ ps2 ts1 _ ts2).
    unfold Located, saveDemoProjects, loadDemoProjects; simpl.
    split; [reflexivity|]. repeat split; auto.
  - rewrite (getProjectTasks_at st pid ps1 P ps2 E N1 H1), TP. reflexivity.
  - erewrite (getProjectTasks_at _ pid ps1 _ ps2); [| reflexivity | exact N1 | exact H1].
    reflexivity.
Qed.

Lemma demo_updateTask_merges_witness :
  Demo.updateTask sampleEnv "zz" "p1" (statusUpdate Impacted)
    (sampleStore [sampleTask "t1" OnHold []])
  = (Throw (JsError "Task not found"), sampleStore [sampleTask "t1" OnHold []])
  /\ exists T' st',
      Demo.updateTask sampleEnv "t1" "p1" (statusUpdate Impacted)
        (sampleStore [sampleTask "t1" OnHold []]) = (Ok T', st')
      /\ Task.status T' = Impacted /\ Task.progress T' = 50%Z.
Proof.
  split.
  - apply (proj1 (demo_updateTask_merges sampleEnv "zz" "p1" (statusUpdate Impacted)
                    (sampleStore [sampleTask "t1" OnHold []]))).
    reflexivity.
  - destruct (proj2 (demo_updateTask_merges sampleEnv "t1" "p1" (statusUpdate Impacted)
                       (sampleStore [sampleTask "t1" OnHold []]))
                    (sampleTask "t1" OnHold []) eq_refl)
      as (T' & st' & ts1 & ts2 & U & _ & _ & _ & _ & _ & _ & Pr & _ & St & _).
    exists T', st'. split; [exact U|]. split; [now apply St | now apply Pr].
Defined.

Lemma findOwner_none taskId (ps : list DemoProject.t) :
  (forall P t, In P ps -> In t (or_default (DemoProject.tasks P) []) -> Task.id t <> taskId) ->
  Demo.findOwner taskId ps = None.
Proof.
  induction ps as [|P ps IH]; simpl; intros No; auto.
  destruct (find _ _) as [t|] eqn:F.
  - apply find_some in F. destruct F as [F1 F2].
    apply String.eqb_eq in F2. now destruct (No P t (or_introl eq_refl) F1).
  - apply IH. intros Q t HQ. apply No. now right.
Qed.

Lemma findOwner_some taskId (ps : list DemoProject.t) T P :
  Demo.findOwner taskId ps = Some (T, P) ->
  In P ps /\ In T (or_default (DemoProject.tasks P) []) /\ Task.id T = taskId.
Proof.
  induction ps as [|Q ps IH]; simpl; [discriminate|].
  destruct (find _ _) as [t|] eqn:F.
  - intros [= -> ->]. apply find_some in F. destruct F as [F1 F2].
    apply String.eqb_eq in F2. auto.
  - intros H. destruct (IH H) as (A & B & C). auto.
Qed.

Lemma filter_none_of_nil {A} (f : A -> bool) (l : list A) :
  none_of f l -> filter f l = [].
Proof.
  induction l as [|a l IH]; simpl; intros N; auto.
  rewrite (N a (or_introl eq_refl)). apply IH. intros y Hy. apply N. now right.
Qed.

Lemma hidden_none_of uid db id (c : Command) :
  c <> INSERT ->
  task_hidden uid db id ->
  none_of (fun r => Managed.taskHasId id r && using_ok uid db c (RTask r)) (tasks db).
Proof.
  intros Hc Hid t Ht. unfold Managed.taskHasId.
  destruct (String.eqb_spec (Task.id t) id) as [E|]; auto.
  simpl. destruct c; try congruence; simpl; apply (Hid t Ht E).
Qed.

Lemma selectTask_hidden uid db id :
  task_hidden uid db id -> Managed.selectTask uid id db = inl NoRows.
Proof.
  intros Hid. unfold Managed.selectTask.
  rewrite filter_none_of_nil; auto. apply hidden_none_of; auto. discriminate.
Qed.

(** X6. Asked about a task id that is nowhere in the store, [canStartTask]
    answers true in the demo variant; in the managed variant, asked about
    an id of which the caller sees no row, it rejects with the no-rows
    error of the lookup. *)
Theorem canStartTask_unknown_task taskId :
  (forall st,
      (forall P t, In P (loadDemoProjects st) ->
                   In t (or_default (DemoProject.tasks P) []) -> Task.id t <> taskId) ->
      Demo.canStartTask taskId st = true)
  /\ (forall uid db,
         task_hidden uid db taskId ->
         Managed.canStartTask uid taskId db = Throw (PgError NoRows)).
Proof.
  split.
  - intros st No. unfold Demo.canStartTask, Demo.getTaskDependencies.
    now rewrite (findOwner_none _ _ No).
  - intros uid db Hid. unfold Managed.canStartTask, Managed.getTaskDependencies.
    now rewrite (selectTask_hidden _ _ _ Hid).
Qed.

Lemma canStartTask_unknown_task_witness :
  Demo.canStartTask "zz" (sampleStore [sampleTask "t1" NotStarted ["t0"]]) = true
  /\ Managed.canStartTask (Some "carol") "t1" (sampleDb [sampleTask "t1" NotStarted []] [])
     = Throw (PgError NoRows).
Proof.
  destruct (canStartTask_unknown_task "zz") as [D _].
  destruct (canStartTask_unknown_task "t1") as [_ M].
  split.
  - apply D. intros P t [<-|[]] [<-|[]]. discriminate.
  - apply M. intros t [<-|[]] _. reflexivity.
Defined.

(** X7. A task whose dependencies list contains its own id cannot start
    until its own status is completed or done: [getTaskDependencies] hands
    the task back as one of its dependencies. *)
Theorem canStartTask_self_dependency taskId T :
  In (Task.id T) (Task.dependencies T) ->
  ~ finished (Task.status T) ->
  (forall st P,
      Demo.findOwner taskId (loadDemoProjects st) = Some (T, P) ->
      In T (Demo.getTaskDependencies taskId st)
      /\ Demo.canStartTask taskId st = false)
  /\ (forall uid db,
         Managed.selectTask uid taskId db = inr T ->
         Managed.canStartTask uid taskId db = Ok false).
Proof.
  intros Self NotDone. split.
  - intros st P F.
    destruct (findOwner_some _ _ _ _ F) as (_ & HT & _).
    assert (I : In T (Demo.getTaskDependencies taskId st)).
    { rewrite (demo_getTaskDependencies_owner _ _ _ _ F). apply filter_In.
      split; auto. now apply includes_In. }
    split; auto.
    unfold Demo.canStartTask. rewrite allFinished_forallb.
    apply not_true_is_false. intros A. rewrite forallb_forall in A.
    apply NotDone, isFinished_iff, A, I.
  - intros uid db S. unfold Managed.canStartTask.
    rewrite (managed_getTaskDependencies_task _ _ _ _ S), allFinished_forallb.
    f_equal. apply not_true_is_false. intros A. rewrite forallb_forall in A.
    apply NotDone, isFinished_iff, A.
    unfold Managed.selectTask in S.
    destruct (filter _ (tasks db)) as [|x [|? ?]] eqn:F; try discriminate.
    injection S as ->.
    assert (I : In T (filter (fun r => Managed.taskHasId taskId r
                                       && using_ok uid db SELECT (RTask r)) (tasks db)))
      by (rewrite F; now left).
    apply filter_In in I. destruct I as [I V].
    apply andb_true_iff in V. destruct V as [_ V].
    apply filter_In. split; auto. apply andb_true_iff. split; auto.
    now apply includes_In.
Qed.

Lemma canStartTask_self_dependency_witness :
  Demo.canStartTask "t1" (sampleStore [sampleTask "t1" InProgress ["t1"]]) = false
  /\ Managed.canStartTask (Some "bob") "t1"
       (sampleDb [sampleTask "t1" InProgress ["t1"]] []) = Ok false.
Proof.
  destruct (canStartTask_self_dependency "t1" (sampleTask "t1" InProgress ["t1"]))
    as [D M].
  - left. reflexivity.
  - intros [H|H]; discriminate H.
  - split.
    + apply (D (sampleStore [sampleTask "t1" InProgress ["t1"]])
               (sampleProject [sampleTask "t1" InProgress ["t1"]])).
      reflexivity.
    + apply M. reflexivity.
Defined.

(* ================================================================== *)
(** * Further properties of the demo project service *)
(* ================================================================== *)

Lemma getProject_split id st p :
  Demo.getProject id st = Some p ->
  exists ps1 ps2,
    demoProjects st = ps1 ++ p :: ps2
    /\ none_of (Demo.projectHasId id) ps1 /\ Demo.projectHasId id p = true.
Proof. apply find_split. Qed.

Lemma demo_updateProject_at env id u st ps1 old ps2 :
  demoProjects st = ps1 ++ old :: ps2 ->
  none_of (Demo.projectHasId id) ps1 -> Demo.projectHasId id old = true ->
  Demo.updateProject env id u st
  = (Ok (Demo.mergeProject old (finalUpdates u (clock env 0))),
     Demo.logActivity env 0 1 id "demo_user" "project_updated"
       (ChProjectUpdate (finalUpdates u (clock env 0))) None
       (saveDemoProjects
          (ps1 ++ Demo.mergeProject old (finalUpdates u (clock env 0)) :: ps2)
          (setDemoProjects
             (ps1 ++ Demo.mergeProject old (finalUpdates u (clock env 0)) :: ps2) st))).
Proof.
  intros E N H. unfold Demo.updateProject.
  rewrite E, (findIndex_at_split _ _ _ _ N H), nth_error_at_split, set_at_split.
  reflexivity.
Qed.

Lemma find_filter_other {A} (f g : A -> bool) (l : list A) :
  (forall x, f x = true -> g x = false) ->
  find f (filter (fun x => negb (g x)) l) = find f l.
Proof.
  intros D. induction l as [|a l IH]; simpl; auto.
  destruct (g a) eqn:G; simpl.
  - destruct (f a) eqn:F; auto. rewrite (D a F) in G. discriminate.
  - now rewrite IH.
Qed.

Lemma hasId_disjoint (id id' : string) :
  id' <> id ->
  forall p, Demo.projectHasId id' p = true -> Demo.projectHasId id p = false.
Proof.
  intros Ne p H. unfold Demo.projectHasId in *.
  apply String.eqb_eq in H. apply String.eqb_neq. congruence.
Qed.

(** X8. The project service of the demo variant keeps browser storage and
    its in-memory state in step: creating a project, a successful update,
    deleting an existing project and seeding the sample data each leave
    both storage keys equal to what is in memory, and the calls that
    change nothing (a failed update, deleting an unknown id, seeding a
    non-empty list) keep them equal if they were. *)
Theorem demo_project_service_in_sync :
  (forall env project st, in_sync (snd (Demo.createProject env project st)))
  /\ (forall env id u st p st',
         Demo.updateProject env id u st = (Ok p, st') -> in_sync st')
  /\ (forall env id st p,
         Demo.getProject id st = Some p -> in_sync (snd (Demo.deleteProject env id st)))
  /\ (forall env st, demoProjects st = [] -> in_sync (Demo.initializeDemoData env st))
  /\ (forall env id u st,
         in_sync st ->
         in_sync (snd (Demo.updateProject env id u st))
         /\ in_sync (snd (Demo.deleteProject env id st))
         /\ in_sync (Demo.initializeDemoData env st)).
Proof.
  assert (U : forall env id u st p st',
             Demo.updateProject env id u st = (Ok p, st') -> in_sync st').
  { intros env id u st p st'. unfold Demo.updateProject.
    destruct (findIndex _ _); [|discriminate].
    destruct (nth_error _ _); [|discriminate].
    intros [= <- <-]. split; reflexivity. }
  assert (D : forall env id st p,
             Demo.getProject id st = Some p -> in_sync (snd (Demo.deleteProject env id st))).
  { intros env id st p G.
    destruct (getProject_split _ _ _ G) as (ps1 & ps2 & E & N & H).
    unfold Demo.deleteProject.
    assert (L : (length (filter (fun q => negb (Demo.projectHasId id q)) (demoProjects st))
                 <? length (demoProjects st))%nat = true).
    { apply Nat.ltb_lt. apply (filter_length_lt _ _ p); auto.
      rewrite E. apply in_app_iff. right. now left. }
    rewrite L. split; reflexivity. }
  split; [|split; [exact U|split; [exact D|split]]].
  - intros env project st. split; reflexivity.
  - intros env st E. unfold Demo.initializeDemoData. rewrite E. split; reflexivity.
  - intros env id u st S. split; [|split].
    + destruct (Demo.updateProject env id u st) as [[p|e] st'] eqn:R.
      * apply (U _ _ _ _ _ _ R).
      * unfold Demo.updateProject in R.
        destruct (findIndex _ _); [|now injection R as _ <-].
        destruct (nth_error _ _); [discriminate|now injection R as _ <-].
    + destruct (Demo.getProject id st) as [p|] eqn:G.
      * apply (D _ _ _ _ G).
      * rewrite demo_deleteProject_absent; auto. now apply find_none_of.
    + unfold Demo.initializeDemoData.
      destruct (demoProjects st); auto. split; reflexivity.
Qed.

Lemma demo_project_service_in_sync_witness :
  in_sync (snd (Demo.deleteProject sampleEnv "p1" (sampleStore [])))
  /\ in_sync (Demo.initializeDemoData sampleEnv (mkLocalStore None None [] [])).
Proof.
  destruct demo_project_service_in_sync as (_ & _ & D & I & _).
  split.
  - apply (D sampleEnv "p1" (sampleStore []) (sampleProject [])). reflexivity.
  - apply I. reflexivity.
Defined.

(** X9. The task service writes to browser storage only, the project
    service rewrites storage from its own in-memory list.  So, starting
    with the two in step: a task created through the task service is
    stored, storage and memory then differ, and the next project update
    that does not carry a task list puts the old list back: the created
    task is gone. *)
Theorem demo_task_lost_on_project_update env env' task st pid u :
  loadDemoProjects st = demoProjects st ->
  TaskInput.project_id task = Some pid ->
  has_project st pid ->
  TaskInput.start_date task <> DateBad ->
  TaskInput.end_date task <> DateBad ->
  ProjectUpdate.tasks u = None ->
  exists t st1 p st2,
    Demo.createTask env task st = (Ok t, st1)
    /\ Demo.getProjectTasks pid st1 = Demo.getProjectTasks pid st ++ [t]
    /\ loadDemoProjects st1 <> demoProjects st1
    /\ Demo.updateProject env' pid u st1 = (Ok p, st2)
    /\ Demo.getProjectTasks pid st2 = Demo.getProjectTasks pid st.
Proof.
  intros S Hp HP Hs He Hu.
  destruct (has_project_find _ _ HP) as (ps1 & P & ps2 & E & N & H).
  assert (M : demoProjects st = ps1 ++ P :: ps2) by (rewrite <- S; exact E).
  destruct (dateOr_some _ (clock env 0) Hs) as (sd & Ds).
  destruct (dateOr_some _ (clock env 0) He) as (ed & De).
  pose proof (demo_createTask_at env task st pid ps1 P ps2 sd ed Hp E N H Ds De) as C.
  set (t := Demo.newTaskOf env task sd ed) in *.
  set (st1 := saveDemoProjects
                (ps1 ++ DemoProject.with_tasks P
                          (or_default (DemoProject.tasks P) [] ++ [t])
                          (Some (clock env 1)) :: ps2) st) in *.
  assert (St1 : st1 = saveDemoProjects
                        (ps1 ++ DemoProject.with_tasks P
                                  (or_default (DemoProject.tasks P) [] ++ [t])
                                  (Some (clock env 1)) :: ps2) st) by reflexivity.
  assert (G : Demo.getProjectTasks pid st1 = Demo.getProjectTasks pid st ++ [t]).
  { rewrite (getProjectTasks_at st pid ps1 P ps2 E N H).
    now rewrite (getProjectTasks_at st1 pid ps1 _ ps2 eq_refl N H). }
  exists t, st1.
  assert (M1 : demoProjects st1 = ps1 ++ P :: ps2) by exact M.
  rewrite (demo_updateProject_at env' pid u st1 ps1 P ps2 M1 N H).
  eexists _, _. split; [exact C|]. split; [exact G|]. split; [|split; [reflexivity|]].
  - intros S1. rewrite M1, St1 in S1. unfold loadDemoProjects in S1. simpl in S1.
    apply app_inv_head in S1. injection S1 as S1.
    apply (f_equal DemoProject.tasks) in S1. simpl in S1.
    destruct (DemoProject.tasks P) as [ts|]; [|discriminate].
    injection S1 as S1. simpl in S1.
    apply (f_equal (@length Task.t)) in S1. rewrite length_app in S1. simpl in S1. lia.
  - rewrite (getProjectTasks_at st pid ps1 P ps2 E N H).
    erewrite (getProjectTasks_at _ pid ps1 _ ps2); [| reflexivity | exact N | exact H].
    simpl. now rewrite Hu.
Qed.

Lemma demo_task_lost_on_project_update_witness :
  exists t st1 p st2,
    Demo.createTask sampleEnv (namedInput "p1" (Some "Lost")) (sampleStore [])
    = (Ok t, st1)
    /\ Demo.getProjectTasks "p1" st1 = [t]
    /\ Demo.updateProject sampleEnv "p1" (teamUpdate ["x"]) st1 = (Ok p, st2)
    /\ Demo.getProjectTasks "p1" st2 = [].
Proof.
  destruct (demo_task_lost_on_project_update sampleEnv sampleEnv
              (namedInput "p1" (Some "Lost")) (sampleStore []) "p1" (teamUpdate ["x"]))
    as (t & st1 & p & st2 & C & G1 & _ & U & G2).
  - reflexivity.
  - reflexivity.
  - exists (sampleProject []). split; [left|]; reflexivity.
  - discriminate.
  - discriminate.
  - reflexivity.
  - exists t, st1, p, st2. auto.
Defined.

Lemma find_app_last {A} (f : A -> bool) (l : list A) (x : A) :
  find f (l ++ [x]) = match find f l with
                      | Some y => Some y
                      | None => if f x then Some x else None
                      end.
Proof.
  induction l as [|a l IH]; simpl; auto.
  destruct (f a); auto.
Qed.

(** X10. [createProject] in the demo variant always succeeds.  The new
    project carries the generated id, owner 'demo_user', status 'active'
    unless one is given, and always an empty task list and no custom
    fields, whatever the caller passed for them; it is appended to the
    list in memory, is what [getProject] returns for its id when that id
    was free, and no other id resolves differently than before. *)
Theorem demo_createProject_roundtrip env project st :
  Demo.getProject (uuid env 0) st = None ->
  exists p st',
    Demo.createProject env project st = (Ok p, st')
    /\ DemoProject.id p = uuid env 0
    /\ DemoProject.name p = ProjectInsert.name project
    /\ DemoProject.created_by p = "demo_user"
    /\ DemoProject.tasks p = Some [] /\ DemoProject.custom_fields p = []
    /\ (ProjectInsert.status project = None -> DemoProject.status p = Active)
    /\ demoProjects st' = demoProjects st ++ [p]
    /\ Demo.getProject (DemoProject.id p) st' = Some p
    /\ (forall id', id' <> uuid env 0 -> Demo.getProject id' st' = Demo.getProject id' st).
Proof.
  intros Free. unfold Demo.createProject. eexists _, _. split; [reflexivity|].
  cbn [DemoProject.id DemoProject.name DemoProject.created_by DemoProject.tasks
       DemoProject.custom_fields DemoProject.status].
  repeat match goal with |- _ /\ _ => split end; auto.
  - intros ->. reflexivity.
  - unfold Demo.getProject in *. simpl. rewrite find_app_last, Free.
    unfold Demo.projectHasId. simpl. now rewrite String.eqb_refl.
  - intros id' Ne. unfold Demo.getProject. simpl. rewrite find_app_last.
    destruct (find _ (demoProjects st)); auto.
    unfold Demo.projectHasId. simpl.
    destruct (String.eqb_spec (uuid env 0) id'); congruence.
Qed.

Lemma demo_createProject_roundtrip_witness :
  exists p st',
    Demo.createProject sampleEnv
      (ProjectInsert.mk "Second" None None None (Some [sampleTask "t9" Done []]) (Some []))
      (sampleStore []) = (Ok p, st')
    /\ DemoProject.tasks p = Some []
    /\ Demo.getProject "new-0" st' = Some p.
Proof.
  destruct (demo_createProject_roundtrip sampleEnv
              (ProjectInsert.mk "Second" None None None (Some [sampleTask "t9" Done []]) (Some []))
              (sampleStore []) eq_refl)
    as (p & st' & C & I & _ & _ & T & _ & _ & _ & G & _).
  exists p, st'. split; [exact C|]. split; [exact T|].
  rewrite I in G. exact G.
Defined.

(** X11. [updateProject] in the demo variant.  On an unknown id it rejects
    with 'Project not found in demo storage' and changes nothing, not even
    the log.  On a known id it succeeds: id, creation time and owner are
    kept, last_modified is the clock even when the update carries its own,
    a key the update leaves out keeps its value, [getProject] then returns
    the merged project, and every other id resolves as before. *)
Theorem demo_updateProject_merges env id u st :
  (Demo.getProject id st = None ->
   Demo.updateProject env id u st
   = (Throw (JsError "Project not found in demo storage"), st))
  /\ (forall old,
         Demo.getProject id st = Some old ->
         exists p st',
           Demo.updateProject env id u st = (Ok p, st')
           /\ DemoProject.id p = DemoProject.id old
           /\ DemoProject.created_at p = DemoProject.created_at old
           /\ DemoProject.created_by p = DemoProject.created_by old
           /\ DemoProject.last_modified p = clock env 0
           /\ (ProjectUpdate.tasks u = None -> DemoProject.tasks p = DemoProject.tasks old)
           /\ (ProjectUpdate.name u = None -> DemoProject.name p = DemoProject.name old)
           /\ (forall m, ProjectUpdate.team_members u = Some m ->
                         DemoProject.team_members p = m)
           /\ Demo.getProject id st' = Some p
           /\ (forall id', id' <> id -> Demo.getProject id' st' = Demo.getProject id' st)).
Proof.
  split.
  - intros G. unfold Demo.updateProject.
    now rewrite (findIndex_none _ _ (find_none_of _ _ G)).
  - intros old G.
    destruct (getProject_split _ _ _ G) as (ps1 & ps2 & E & N & H).
    rewrite (demo_updateProject_at env id u st ps1 old ps2 E N H).
    eexists _, _. split; [reflexivity|].
    unfold Demo.mergeProject at 1 2 3 4 5 6 7.
    cbn [DemoProject.id DemoProject.created_at DemoProject.created_by
         DemoProject.last_modified DemoProject.tasks DemoProject.name
         DemoProject.team_members finalUpdates ProjectUpdate.last_modified
         ProjectUpdate.tasks ProjectUpdate.name ProjectUpdate.team_members or_default].
    repeat match goal with |- _ /\ _ => split end; auto;
      try (intros ->; reflexivity).
    + intros m ->. reflexivity.
    + unfold Demo.getProject. simpl. apply find_at_split; auto.
    + intros id' Ne. unfold Demo.getProject. simpl. rewrite E.
      apply find_swap; unfold Demo.projectHasId in *; simpl;
        apply String.eqb_eq in H; apply String.eqb_neq; congruence.
Qed.

Lemma demo_updateProject_merges_witness :
  Demo.updateProject sampleEnv "zz" (teamUpdate ["x"]) (sampleStore [])
  = (Throw (JsError "Project not found in demo storage"), sampleStore [])
  /\ exists p st',
      Demo.updateProject sampleEnv "p1" (teamUpdate ["x"]) (sampleStore []) = (Ok p, st')
      /\ DemoProject.team_members p = ["x"]
      /\ DemoProject.last_modified p = 1000%Z.
Proof.
  split.
  - apply (proj1 (demo_updateProject_merges sampleEnv "zz" (teamUpdate ["x"]) (sampleStore []))).
    reflexivity.
  - destruct (proj2 (demo_updateProject_merges sampleEnv "p1" (teamUpdate ["x"])
                       (sampleStore [])) (sampleProject []) eq_refl)
      as (p & st' & U & _ & _ & _ & L & _ & _ & M & _).
    exists p, st'. split; [exact U|]. split; [now apply M | exact L].
Defined.

(** X12. Deleting a project in the demo variant does not delete its
    history: the activity of the deleted project is what it was, with the
    'project_deleted' entry in front; the other projects and their
    activity are as before. *)
Theorem demo_deleteProject_keeps_history env id st p :
  Demo.getProject id st = Some p ->
  exists st',
    Demo.deleteProject env id st = (Ok tt, st')
    /\ Demo.getProjectActivity id st'
       = entry (uuid env 0) id None "demo_user" "project_deleted" (ChProjectId id)
               (clock env 0)
           :: Demo.getProjectActivity id st
    /\ (forall id', id' <> id ->
                    Demo.getProject id' st' = Demo.getProject id' st
                    /\ Demo.getProjectActivity id' st' = Demo.getProjectActivity id' st).
Proof.
  intros G.
  destruct (getProject_split _ _ _ G) as (ps1 & ps2 & E & N & H).
  unfold Demo.deleteProject.
  assert (L : (length (filter (fun q => negb (Demo.projectHasId id q)) (demoProjects st))
               <? length (demoProjects st))%nat = true).
  { apply Nat.ltb_lt. apply (filter_length_lt _ _ p); auto.
    rewrite E. apply in_app_iff. right. now left. }
  rewrite L. eexists. split; [reflexivity|]. split.
  - unfold Demo.getProjectActivity. simpl. now rewrite String.eqb_refl.
  - intros id' Ne. split.
    + unfold Demo.getProject. simpl. apply find_filter_other.
      now apply hasId_disjoint.
    + unfold Demo.getProjectActivity. simpl.
      destruct (String.eqb_spec id id'); congruence.
Qed.

Lemma demo_deleteProject_keeps_history_witness :
  exists st',
    Demo.deleteProject sampleEnv "p1" (sampleStore []) = (Ok tt, st')
    /\ length (Demo.getProjectActivity "p1" st') = 1.
Proof.
  destruct (demo_deleteProject_keeps_history sampleEnv "p1" (sampleStore [])
              (sampleProject []) eq_refl) as (st' & D & A & _).
  exists st'. split; [exact D|]. rewrite A. reflexivity.
Defined.

(** X13. [initializeDemoData] does nothing when a project is in memory.
    On an empty list it installs the sample project with id '1' and makes
    the activity log exactly one 'project_created' entry, dropping
    whatever the log held; afterwards a second call changes nothing. *)
Theorem demo_initializeDemoData_once env env' st :
  (demoProjects st <> [] -> Demo.initializeDemoData env st = st)
  /\ (demoProjects st = [] ->
      exists p,
        Demo.getProject "1" (Demo.initializeDemoData env st) = Some p
        /\ DemoProject.name p = "Sample Project"
        /\ DemoProject.tasks p = Some []
        /\ demoProjects (Demo.initializeDemoData env st) = [p]
        /\ demoActivityLog (Demo.initializeDemoData env st)
           = [entry (uuid env 0) "1" None "demo_user" "project_created"
                    (ChProjectName "Sample Project") (clock env 1)])
  /\ Demo.initializeDemoData env' (Demo.initializeDemoData env st)
     = Demo.initializeDemoData env st.
Proof.
  unfold Demo.initializeDemoData.
  destruct (demoProjects st) as [|q qs] eqn:E; split; [| split | | split].
  - intros C. now destruct C.
  - intros _. eexists. split; [reflexivity|]. auto.
  - reflexivity.
  - reflexivity.
  - discriminate.
  - now rewrite E.
Qed.

Lemma demo_initializeDemoData_once_witness :
  Demo.initializeDemoData sampleEnv (sampleStore []) = sampleStore []
  /\ exists p,
      Demo.getProject "1"
        (Demo.initializeDemoData sampleEnv
           (mkLocalStore None None []
              [entry "old" "p0" None "demo_user" "project_deleted" (ChProjectId "p0") 5]))
      = Some p
      /\ length (demoActivityLog
                   (Demo.initializeDemoData sampleEnv
                      (mkLocalStore None None []
                         [entry "old" "p0" None "demo_user" "project_deleted"
                                (ChProjectId "p0") 5]))) = 1.
Proof.
  split.
  - apply (proj1 (demo_initializeDemoData_once sampleEnv sampleEnv (sampleStore []))).
    discriminate.
  - destruct (proj1 (proj2 (demo_initializeDemoData_once sampleEnv sampleEnv
                              (mkLocalStore None None []
                                 [entry "old" "p0" None "demo_user" "project_deleted"
                                        (ChProjectId "p0") 5]))) eq_refl)
      as (p & G & _ & _ & _ & L).
    exists p. split; [exact G|]. rewrite L. reflexivity.
Defined.

(* ================================================================== *)
(** * Further properties of the managed services *)
(* ================================================================== *)









(** X15. A task created through the managed service can be read back: the
    row returned is appended to the task table, nothing else in the table
    changes, and selecting by its id as the same caller yields exactly
    that row. *)
Theorem managed_createTask_then_select uid env task db t db' :
  Managed.createTask uid env task db = (Ok t, db') ->
  tasks db' = tasks db ++ [t]
  /\ projects db' = projects db
  /\ Task.id t = uuid env 0
  /\ Managed.selectTask uid (Task.id t) db' = inr t.
Proof.
  unfold Managed.createTask.
  destruct (Managed.insert_task_row _ _ _ _ _ _) as [c|r] eqn:R; [discriminate|].
  intros [= -> <-].
  apply insert_task_row_inv in R.
  destruct R as (A & Pid & _ & _ & _ & Eid & _ & Fresh & _).
  rewrite Pid in A.
  match goal with
  | |- context [Managed.taskLogActivity ?a ?b ?c ?d ?e ?f ?g ?h ?i] =>
      destruct (taskLogActivity_tables a b c d e f g h i) as (_ & Ps & Ts & _);
      set (dbl := Managed.taskLogActivity a b c d e f g h i) in *
  end.
  simpl in Ps, Ts.
  split; [exact Ts|]. split; [exact Ps|]. split; [exact Eid|].
  unfold Managed.selectTask. rewrite Ts, filter_app.
  assert (V : using_ok uid dbl SELECT (RTask t) = true).
  { simpl. unfold can_access_project in *. rewrite Ps. exact A. }
  assert (Old : filter (fun r => Managed.taskHasId (Task.id t) r
                                 && using_ok uid dbl SELECT (RTask r)) (tasks db) = []).
  { apply filter_none_of_nil. intros x Hx. unfold Managed.taskHasId.
    destruct (String.eqb_spec (Task.id x) (Task.id t)) as [E|]; auto.
    exfalso. rewrite Eid in E.
    assert (I : includes (map Task.id (tasks db)) (uuid env 0) = true).
    { apply includes_In. rewrite <- E. now apply in_map. }
    congruence. }
  rewrite Old. cbn [filter app]. unfold Managed.taskHasId at 1.
  now rewrite String.eqb_refl, V.
Qed.

Lemma managed_createTask_then_select_witness :
  exists t db',
    Managed.createTask (Some "bob") sampleEnv (namedInput "p1" (Some "Mine"))
      (sampleDb [sampleTask "t1" OnHold []] []) = (Ok t, db')
    /\ Managed.selectTask (Some "bob") "new-0" db' = inr t.
Proof.
  eassert (E : Managed.createTask (Some "bob") sampleEnv (namedInput "p1" (Some "Mine"))
                 (sampleDb [sampleTask "t1" OnHold []] []) = (Ok _, _))
    by (vm_compute; reflexivity).
  destruct (managed_createTask_then_select _ _ _ _ _ _ E) as (_ & _ & I & S).
  eexists _, _. split; [exact E|]. rewrite I in S. exact S.
Defined.

(** X16. Deleting, through the managed service, a task all of whose rows
    the caller may access: the call succeeds, no row with that id is left
    and the other rows stay; no 'task_deleted' entry is written, because
    the entry would reference the row that is gone; every earlier activity
    entry stays, and an entry that referenced the deleted task keeps
    everything but its task reference, which becomes null. *)
Theorem managed_deleteTask_clears_references uid env id pid db T :
  id <> "" ->
  In T (tasks db) -> Task.id T = id ->
  (forall t, In t (tasks db) -> Task.id t = id ->
             can_access_project uid db (Some (Task.project_id t)) = true) ->
  exists db',
    Managed.deleteTask uid env id pid db = (Ok tt, db')
    /\ (forall t, In t (tasks db') <-> In t (tasks db) /\ Task.id t <> id)
    /\ length (activity_log db') = length (activity_log db)
    /\ (forall l, In l (activity_log db) ->
                  exists l', In l' (activity_log db')
                             /\ same_entry_but_task l l'
                             /\ (ActivityLog.task_id l = Some id ->
                                 ActivityLog.task_id l' = None)
                             /\ (ActivityLog.task_id l <> Some id -> l' = l)).
Proof.
  intros Ne HT Eid Acc.
  assert (Tg : forall t, In t (tasks db) ->
                         Managed.delete_target uid db id t = Managed.taskHasId id t).
  { intros t Ht. unfold Managed.delete_target, Managed.taskHasId.
    destruct (String.eqb_spec (Task.id t) id) as [E|]; auto.
    simpl. apply (Acc t Ht E). }
  assert (Gone : existsb (Managed.taskHasId id)
                         (tasks (Managed.delete_task_stmt uid db id)) = false).
  { apply not_true_is_false. intros H. apply existsb_exists in H.
    destruct H as (x & Hx & Hid). simpl in Hx.
    apply filter_In in Hx. destruct Hx as [Hx Hn].
    rewrite (Tg x Hx), Hid in Hn. discriminate. }
  rewrite (managed_deleteTask_writes_no_entry uid env id pid db Ne Gone).
  eexists. split; [reflexivity|].
  unfold Managed.delete_task_stmt. cbn [tasks activity_log].
  split; [|split].
  - intros t. rewrite filter_In. split.
    + intros [Ht Hn]. split; auto. rewrite (Tg t Ht) in Hn.
      unfold Managed.taskHasId in Hn. apply negb_true_iff in Hn.
      now apply String.eqb_neq.
    + intros [Ht Hn]. split; auto. rewrite (Tg t Ht).
      apply negb_true_iff. now apply String.eqb_neq.
  - apply length_map.
  - intros l Hl.
    set (gone := map Task.id (filter (Managed.delete_target uid db id) (tasks db))).
    assert (G1 : In id gone).
    { unfold gone. apply in_map_iff. exists T. split; auto.
      apply filter_In. split; auto. rewrite (Tg T HT).
      unfold Managed.taskHasId. rewrite Eid. apply String.eqb_refl. }
    assert (G2 : forall x, In x gone -> x = id).
    { intros x Hx. unfold gone in Hx. apply in_map_iff in Hx.
      destruct Hx as (t & <- & Ht). apply filter_In in Ht. destruct Ht as [Ht Hd].
      rewrite (Tg t Ht) in Hd. now apply String.eqb_eq in Hd. }
    destruct (clear_task_ref_spec gone l) as (Same & Cl & Keep).
    exists (Managed.clear_task_ref gone l).
    split; [now apply in_map|]. split; [exact Same|]. split.
    + intros E. now apply (Cl id).
    + intros Hn. unfold Managed.clear_task_ref.
      destruct (ActivityLog.task_id l) as [x|] eqn:E; auto.
      destruct (includes gone x) eqn:I; auto.
      apply includes_In, G2 in I. congruence.
Qed.

Lemma managed_deleteTask_clears_references_witness :
  exists db',
    Managed.deleteTask (Some "alice") sampleEnv "t1" "p1"
      (sampleDb [sampleTask "t1" OnHold []]
                [entry "e1" "p1" (Some "t1") "alice" "task_created" (ChTaskName "Task") 1])
    = (Ok tt, db')
    /\ tasks db' = []
    /\ map ActivityLog.task_id (activity_log db') = [None].
Proof.
  destruct (managed_deleteTask_clears_references (Some "alice") sampleEnv "t1" "p1"
              (sampleDb [sampleTask "t1" OnHold []]
                        [entry "e1" "p1" (Some "t1") "alice" "task_created"
                               (ChTaskName "Task") 1])
              (sampleTask "t1" OnHold []))
    as (db' & D & _).
  - discriminate.
  - left. reflexivity.
  - reflexivity.
  - intros t [<-|[]] _. reflexivity.
  - exists db'. split; [exact D|].
    injection D as <-. split; reflexivity.
Defined.

Lemma insert_task_rows_nth uid db ids now ps :
  forall taken k rs i p,
    Managed.insert_task_rows uid db taken ids k now ps = inr rs ->
    nth_error ps i = Some p ->
    exists r taken',
      nth_error rs i = Some r
      /\ Managed.insert_task_row uid db taken' (ids (k + i)) now p = inr r.
Proof.
  induction ps as [|q ps IH]; intros taken k rs i p R Hn.
  - destruct i; discriminate.
  - simpl in R.
    destruct (Managed.insert_task_row uid db taken (ids k) now q) as [c|r] eqn:R1;
      [discriminate|].
    destruct (Managed.insert_task_rows _ _ _ _ _ _ _) as [c|rs'] eqn:R2; [discriminate|].
    injection R as <-. destruct i as [|i]; simpl in Hn.
    + injection Hn as <-. exists r, taken. rewrite Nat.add_0_r. auto.
    + destruct (IH _ _ _ i p R2 Hn) as (r' & taken' & N' & R').
      exists r', taken'. split; auto.
      replace (k + S i) with (S k + i) by lia. exact R'.
Qed.

(** X17. A successful managed [importTasks] of N >= 1 specifications writes
    one activity entry for the whole batch: action 'tasks_imported', the
    count N, no task reference, filed under the project of the first row.
    An import of no specification writes none. *)
Theorem managed_importTasks_logs_once uid env specs db rows db' :
  Managed.importTasks uid env specs db = (Ok rows, db') ->
  session_ok uid db ->
  fresh_log_id (uuid env (length specs)) db ->
  length rows = length specs
  /\ match rows with
     | [] => activity_log db' = activity_log db
     | first :: _ =>
         exists user,
           uid = Some user
           /\ activity_log db'
              = activity_log db
                  ++ [entry (uuid env (length specs)) (Task.project_id first) None user
                            "tasks_imported" (ChCount (length specs))
                            (clock env (2 * length specs + 1))]
     end.
Proof.
  unfold Managed.importTasks.
  destruct (Managed.insert_task_stmt _ _ _ _ _ _) as [c|data] eqn:R; [discriminate|].
  apply insert_task_stmt_inv in R.
  intros Eq Ses Fr.
  destruct (insert_task_rows_inv _ _ _ _ _ _ _ _ R) as [L _].
  rewrite length_prepareTasks in L.
  destruct data as [|first data].
  - injection Eq as <- <-. auto.
  - injection Eq as <- <-. split; [exact L|].
    destruct (Managed.prepareTasks env 0 specs) as [|p0 ps0] eqn:Ps.
    { simpl in R. discriminate. }
    destruct (insert_task_rows_nth _ _ _ _ _ _ _ _ 0 p0 R eq_refl)
      as (r & taken' & N0 & R0).
    injection N0 as <-.
    apply insert_task_row_inv in R0.
    destruct R0 as (A & Pid & _).
    rewrite Pid in A.
    destruct (proj1 (can_access_project_iff _ _ _) A) as (user & X & -> & _).
    exists user. split; auto.
    unfold Managed.taskLogActivity.
    rewrite (insert_activity_appends (Some user) env _ _ _ _ user); auto.
    simpl. now rewrite <- L.
Qed.

Lemma managed_importTasks_logs_once_witness :
  exists rows db' user,
    Managed.importTasks (Some "alice") sampleEnv
      [namedInput "p1" (Some "A"); namedInput "p1" None] (sampleDb [] []) = (Ok rows, db')
    /\ length rows = 2
    /\ activity_log db'
       = [entry "new-2" "p1" None user "tasks_imported" (ChCount 2) 1005].
Proof.
  eassert (E : Managed.importTasks (Some "alice") sampleEnv
                 [namedInput "p1" (Some "A"); namedInput "p1" None] (sampleDb [] [])
               = (Ok (_ :: _), _))
    by (vm_compute; reflexivity).
  destruct (managed_importTasks_logs_once _ _ _ _ _ _ E) as (L & user & _ & A).
  - intros user [= <-]. simpl. auto.
  - intros [].
  - eexists _, _, user. split; [exact E|]. split; [exact L | exact A].
Defined.

Lemma task_checks_inv (r : Task.t) :
  task_checks r = true ->
  status_check (Task.status r) = true
  /\ (0 <= Task.progress r <= 100)%Z
  /\ (Task.start_date r <= Task.end_date r)%Z.
Proof.
  unfold task_checks. rewrite !andb_true_iff.
  intros [[[S L] U] D]. rewrite Z.geb_leb in D.
  apply Z.leb_le in L, U, D. auto.
Qed.

(** X18. The task type of the service knows eight statuses, the table four.
    Through the managed service a create or an update that sets one of the
    other four ('impacted', 'on-going', 'dev-in-progress', 'done') is
    rejected and the database is unchanged; the demo variant stores such a
    status. *)
Theorem extended_status_rejected_by_backend (s : Status) :
  status_check s = false ->
  (forall uid env task db,
      TaskInput.status task = Some s ->
      exists c, Managed.createTask uid env task db = (Throw (PgError c), db))
  /\ (forall uid env id pid u db,
         TaskUpdate.status u = Some s ->
         exists c, Managed.updateTask uid env id pid u db = (Throw (PgError c), db))
  /\ (forall env id pid st T,
         Demo.findTask id pid st = Some T ->
         exists T' st',
           Demo.updateTask env id pid (statusUpdate s) st = (Ok T', st')
           /\ Task.status T' = s
           /\ Demo.findTask id pid st' = Some T').
Proof.
  intros Bad. split; [|split].
  - intros uid env task db Hs. unfold Managed.createTask.
    destruct (Managed.insert_task_row _ _ _ _ _ _) as [c|r] eqn:R; [now exists c|].
    exfalso. unfold Managed.insert_task_row in R.
    cbn [Managed.taskData TaskInsert.start_date TaskInsert.end_date] in R.
    destruct (dateOr (TaskInput.start_date task) _); simpl in R; [|discriminate].
    destruct (dateOr (TaskInput.end_date task) _); simpl in R; [|discriminate].
    destruct (can_access_project _ _ _); simpl in R; [|discriminate].
    destruct (TaskInput.project_id task); simpl in R; [|discriminate].
    destruct (TaskInput.name task); simpl in R; [|discriminate].
    unfold task_checks in R. cbn [Task.status] in R. rewrite Hs in R.
    cbn [or_default] in R. rewrite Bad in R. simpl in R. discriminate.
  - intros uid env id pid u db Hs. unfold Managed.updateTask.
    destruct (Managed.update_task_stmt _ _ _ _ _) as [c|[new ts]] eqn:U; [now exists c|].
    exfalso.
    destruct (update_task_stmt_inv _ _ _ _ _ _ _ U) as (old & _ & -> & _ & C).
    apply task_checks_inv in C. destruct C as (C & _).
    destruct (apply_update_fields old u (clock env 0)) as (_ & _ & _ & St & _).
    rewrite St, Hs in C. simpl in C. congruence.
  - intros env id pid st T F.
    destruct (findTask_Located _ _ _ _ F) as (ps1 & P & ps2 & ts1 & ts2 & L).
    rewrite (demo_updateTask_Located env _ _ _ (statusUpdate s) _ _ _ _ _ _ L).
    eexists _, _. split; [reflexivity|]. split; [reflexivity|].
    destruct L as (E & N1 & H1 & TP & N2 & H2).
    eapply (Located_findTask _ pid id ps1 _ ps2 ts1 _ ts2).
    unfold Located, saveDemoProjects, loadDemoProjects; simpl.
    split; [reflexivity|]. repeat split; auto.
Qed.

Lemma extended_status_rejected_by_backend_witness :
  (exists c,
      Managed.updateTask (Some "alice") sampleEnv "t1" "p1" (statusUpdate Impacted)
        (sampleDb [sampleTask "t1" OnHold []] [])
      = (Throw (PgError c), sampleDb [sampleTask "t1" OnHold []] []))
  /\ (exists T' st',
         Demo.updateTask sampleEnv "t1" "p1" (statusUpdate Impacted)
           (sampleStore [sampleTask "t1" OnHold []]) = (Ok T', st')
         /\ Task.status T' = Impacted).
Proof.
  destruct (extended_status_rejected_by_backend Impacted eq_refl) as (_ & U & D).
  split.
  - apply (U (Some "alice") sampleEnv "t1" "p1" (statusUpdate Impacted)). reflexivity.
  - destruct (D sampleEnv "t1" "p1" (sampleStore [sampleTask "t1" OnHold []])
                (sampleTask "t1" OnHold []) eq_refl) as (T' & st' & E & S & _).
    exists T', st'. auto.
Defined.

(** X19. The managed backend never stores a progress outside 0..100:
    [updateTaskProgress] with such a value is rejected and the database is
    unchanged, and so is a [createTask] that asks for one.  Nothing clamps
    the value. *)
Theorem progress_out_of_range_rejected (p : Z) :
  (p < 0 \/ 100 < p)%Z ->
  (forall uid env id pid db,
      exists c, Managed.updateTaskProgress uid env id pid p db = (Throw (PgError c), db))
  /\ (forall uid env task db,
         TaskInput.progress task = Some p ->
         exists c, Managed.createTask uid env task db = (Throw (PgError c), db)).
Proof.
  intros Out. split.
  - intros uid env id pid db.
    destruct (Managed.updateTaskProgress uid env id pid p db) as [[T'|e] db'] eqn:U.
    + exfalso.
      destruct (managed_updateTaskProgress_inv _ _ _ _ _ _ _ _ U)
        as (T & _ & F & -> & _).
      unfold Managed.updateTaskProgress in U.
      destruct (Managed.selectTask uid id db) as [c|T0]; [discriminate|].
      unfold Managed.updateTask in U.
      destruct (Managed.update_task_stmt _ _ _ _ _) as [c|[new ts]] eqn:S; [discriminate|].
      destruct (update_task_stmt_inv _ _ _ _ _ _ _ S) as (old & _ & -> & _ & C).
      apply task_checks_inv in C. destruct C as (_ & C & _).
      destruct (apply_update_progress_frame old p (clock env 0) (Task.status T0)) as (_ & Pr).
      rewrite Pr in C. lia.
    + unfold Managed.updateTaskProgress in U.
      destruct (Managed.selectTask uid id db) as [c|T0].
      * injection U as <- <-. now exists c.
      * unfold Managed.updateTask in U.
        destruct (Managed.update_task_stmt _ _ _ _ _) as [c|[new ts]]; [|discriminate].
        injection U as <- <-. now exists c.
  - intros uid env task db Hp. unfold Managed.createTask.
    destruct (Managed.insert_task_row _ _ _ _ _ _) as [c|r] eqn:R; [now exists c|].
    exfalso. unfold Managed.insert_task_row in R.
    cbn [Managed.taskData TaskInsert.start_date TaskInsert.end_date] in R.
    destruct (dateOr (TaskInput.start_date task) _); simpl in R; [|discriminate].
    destruct (dateOr (TaskInput.end_date task) _); simpl in R; [|discriminate].
    destruct (can_access_project _ _ _); simpl in R; [|discriminate].
    destruct (TaskInput.project_id task); simpl in R; [|discriminate].
    destruct (TaskInput.name task); simpl in R; [|discriminate].
    destruct (task_checks _) eqn:C; simpl in R; [|discriminate].
    apply task_checks_inv in C. destruct C as (_ & C & _).
    cbn [Task.progress] in C. rewrite Hp in C. simpl in C. lia.
Qed.

Lemma progress_out_of_range_rejected_witness :
  exists c,
    Managed.updateTaskProgress (Some "alice") sampleEnv "t1" "p1" 150
      (sampleDb [sampleTask "t1" OnHold []] [])
    = (Throw (PgError c), sampleDb [sampleTask "t1" OnHold []] []).
Proof.
  destruct (progress_out_of_range_rejected 150) as [U _].
  - right. reflexivity.
  - apply U.
Defined.

(** X20. A specification without a name: the managed [createTask] sends no
    name and the backend rejects the row, leaving the database unchanged;
    the managed [importTasks] fills in 'Untitled Task' for a missing or
    empty name, so each row it returns for such a specification carries
    that name. *)
Theorem missing_name_create_vs_import :
  (forall uid env task db,
      TaskInput.name task = None ->
      exists c, Managed.createTask uid env task db = (Throw (PgError c), db))
  /\ (forall uid env specs db rows db' i spec,
         Managed.importTasks uid env specs db = (Ok rows, db') ->
         nth_error specs i = Some spec ->
         truthy (TaskInput.name spec) = false ->
         exists t, nth_error rows i = Some t /\ Task.name t = "Untitled Task").
Proof.
  split.
  - intros uid env task db Hn. unfold Managed.createTask, Managed.insert_task_row.
    cbn [Managed.taskData TaskInsert.project_id TaskInsert.name
         TaskInsert.start_date TaskInsert.end_date]. rewrite Hn.
    destruct (dateOr (TaskInput.start_date task) _); simpl; [|now eexists].
    destruct (dateOr (TaskInput.end_date task) _); simpl; [|now eexists].
    destruct (can_access_project _ _ _); simpl; [|now eexists].
    destruct (TaskInput.project_id task); simpl; now eexists.
  - intros uid env specs db rows db' i spec. unfold Managed.importTasks.
    destruct (Managed.insert_task_stmt _ _ _ _ _ _) as [c|data] eqn:R; [discriminate|].
    apply insert_task_stmt_inv in R.
    intros Eq Hn Tn.
    assert (rows = data) as -> by (destruct data; now injection Eq).
    pose proof (prepareTasks_nth env specs 0 i spec Hn) as Hp.
    destruct (insert_task_rows_nth _ _ _ _ _ _ _ _ i _ R Hp) as (r & taken' & N & Ri).
    exists r. split; auto.
    apply insert_task_row_inv in Ri. destruct Ri as (_ & _ & Nm & _).
    cbn [Managed.prepareTask TaskInsert.name] in Nm.
    injection Nm as <-. unfold str_or. now rewrite Tn.
Qed.

Lemma missing_name_create_vs_import_witness :
  (exists c,
      Managed.createTask (Some "alice") sampleEnv (namedInput "p1" None) (sampleDb [] [])
      = (Throw (PgError c), sampleDb [] []))
  /\ (exists rows db' t,
         Managed.importTasks (Some "alice") sampleEnv [namedInput "p1" None] (sampleDb [] [])
         = (Ok rows, db')
         /\ nth_error rows 0 = Some t /\ Task.name t = "Untitled Task").
Proof.
  destruct missing_name_create_vs_import as [C I].
  split.
  - apply C. reflexivity.
  - eassert (E : Managed.importTasks (Some "alice") sampleEnv [namedInput "p1" None]
                   (sampleDb [] []) = (Ok _, _))
      by (vm_compute; reflexivity).
    destruct (I _ _ _ _ _ _ 0 (namedInput "p1" None) E eq_refl eq_refl) as (t & N & Nm).
    eexists _, _, t. split; [exact E|]. auto.
Defined.




Lemma filter_unique_key {A} (key : A -> string) (g : A -> bool) (l : list A) (x : A) :
  NoDup (map key l) -> In x l ->
  filter (fun r => (key r =? key x) && g r) l = if g x then [x] else [].
Proof.
  induction l as [|a l IH]; simpl; intros ND []. 
  - subst a. rewrite String.eqb_refl. simpl.
    inversion ND as [|? ? Hn ND']; subst.
    assert (E : filter (fun r => (key r =? key x) && g r) l = []).
    { apply filter_none_of_nil. intros y Hy.
      destruct (String.eqb_spec (key y) (key x)) as [E|]; auto.
      exfalso. apply Hn. rewrite <- E. now apply in_map. }
    rewrite E. now destruct (g x).
  - inversion ND as [|? ? Hn ND']; subst.
    destruct (String.eqb_spec (key a) (key x)) as [E|].
    + exfalso. apply Hn. rewrite E. now apply in_map.
    + simpl. now apply IH.
Qed.

(** X22. A team member who is not the owner cannot take themselves off the
    team: the update passes the policy on the stored row but the new row
    fails its WITH CHECK, so [updateProject] is rejected with the policy
    error and the project stays as it was. *)
Theorem member_cannot_leave_team user env db X members :
  NoDup (map ProjectRow.id (projects db)) ->
  In X (projects db) ->
  ProjectRow.created_by X <> Some user ->
  owner_or_member user X ->
  ~ In user members ->
  Managed.updateProject (Some user) env (ProjectRow.id X) (teamUpdate members) db
  = (Throw (PgError RlsViolation), db).
Proof.
  intros ND HX NotOwner Acc Out.
  unfold Managed.updateProject, Managed.update_project_stmt.
  assert (F : filter (Managed.project_update_target (Some user) db (ProjectRow.id X))
                     (projects db) = [X]).
  { unfold Managed.project_update_target, Managed.projectHasId.
    rewrite (filter_unique_key ProjectRow.id
               (fun r => using_ok (Some user) db UPDATE (RProject r)) _ X ND HX).
    simpl. apply holds_access_expr in Acc. now rewrite Acc. }
  rewrite F.
  set (new := Managed.apply_project_update X _ _).
  assert (W : with_check_ok (Some user) db UPDATE (RProject new) = false).
  { simpl. apply not_true_is_false. intros H. apply holds_access_expr in H.
    unfold new, Managed.apply_project_update in H.
    destruct ProjectRow_eq_dec; destruct H as [H | (m & Hm & Hin)];
      simpl in *; try congruence; injection Hm as <-; auto. }
  rewrite W. reflexivity.
Qed.

Lemma member_cannot_leave_team_witness :
  Managed.updateProject (Some "bob") sampleEnv "p1" (teamUpdate ["dave"]) (sampleDb [] [])
  = (Throw (PgError RlsViolation), sampleDb [] []).
Proof.
  apply (member_cannot_leave_team "bob" sampleEnv (sampleDb [] [])
           (sampleRow (Some "alice") ["bob"]) ["dave"]).
  - simpl. constructor; [intros [] | constructor].
  - left. reflexivity.
  - discriminate.
  - right. exists ["bob"]. split; [reflexivity | left; reflexivity].
  - intros [H|[]]. discriminate H.
Defined.

Lemma insert_activity_tables uid env j k pid tid user action ch db :
  let db' := Managed.insert_activity uid env j k pid tid user action ch db in
  users db' = users db /\ projects db' = projects db
  /\ tasks db' = tasks db /\ custom_fields db' = custom_fields db.
Proof.
  unfold Managed.insert_activity.
  destruct Managed.insert_activity_row; simpl; auto.
Qed.

(** X23. [createProject] of the managed project service passes the
    object it is given on to the table.  When that object carries a tasks
    or a custom_fields key, which are no columns of [projects], a
    signed-in caller is refused with the unknown-column error and the
    database is unchanged.  When it carries neither, a signed-in, known
    user succeeds whenever the generated id is free: the caller becomes
    the owner, a missing team becomes the empty team, the row is appended
    to the table, the caller can access the project, and a principal who
    is neither the caller nor on the given team cannot. *)
Theorem managed_createProject_owner user env project db :
  ((ProjectInsert.tasks project <> None \/ ProjectInsert.custom_fields project <> None) ->
   Managed.createProject (Some user) env project db
   = (Throw (PgError UndefinedColumn), db))
  /\ (ProjectInsert.tasks project = None ->
      ProjectInsert.custom_fields project = None ->
      In user (users db) ->
      ~ In (uuid env 0) (map ProjectRow.id (projects db)) ->
      exists p db',
        Managed.createProject (Some user) env project db = (Ok p, db')
        /\ ProjectRow.id p = uuid env 0
        /\ ProjectRow.created_by p = Some user
        /\ ProjectRow.team_members p
           = Some (or_default (ProjectInsert.team_members project) [])
        /\ projects db' = projects db ++ [p]
        /\ can_access_project (Some user) db' (Some (ProjectRow.id p)) = true
        /\ (forall other,
               other <> user ->
               ~ In other (or_default (ProjectInsert.team_members project) []) ->
               can_access_project (Some other) db' (Some (ProjectRow.id p)) = false)).
Proof.
  split.
  { intros K. unfold Managed.createProject, Managed.insert_project_row.
    destruct (ProjectInsert.tasks project), (ProjectInsert.custom_fields project);
      try reflexivity.
    destruct K as [K|K]; now contradiction K. }
  intros Ht Hc Usr Free. unfold Managed.createProject, Managed.insert_project_row.
  rewrite Ht, Hc. cbn [Managed.only_columns guard].
  assert (W : forall row, ProjectRow.created_by row = Some user ->
                          with_check_ok (Some user) db INSERT (RProject row) = true).
  { intros row E. unfold with_check_ok. apply holds_sql_eq. now exists user. }
  rewrite W by reflexivity. simpl guard.
  replace (includes (map ProjectRow.id (projects db)) (uuid env 0)) with false
    by (symmetry; apply not_true_is_false; intros H; now apply includes_In in H).
  pose proof (proj2 (includes_In (users db) user) Usr) as Iu. rewrite Iu. simpl.
  set (row := ProjectRow.mk (uuid env 0) (ProjectInsert.name project)
                (ProjectInsert.description project)
                (or_default (ProjectInsert.status project) Active)
                (clock env 0) (clock env 0) (Some user)
                (Some (or_default (ProjectInsert.team_members project) []))).
  unfold Managed.logActivity.
  set (dbl := Managed.insert_activity _ _ _ _ _ _ _ _ _ _).
  assert (Ps : projects dbl = projects db ++ [row]).
  { unfold dbl.
    match goal with
    | |- projects (Managed.insert_activity ?a ?b ?c ?d ?e ?f ?g ?h ?i ?j) = _ =>
        destruct (insert_activity_tables a b c d e f g h i j) as (_ & Ps & _)
    end. exact Ps. }
  assert (Ext : forall who pid,
             can_access_project who dbl pid
             = can_access_project who (Managed.setProjects (projects db ++ [row]) db) pid).
  { intros who pid. unfold can_access_project. now rewrite Ps. }
  exists row, dbl. split; [reflexivity|].
  repeat match goal with |- _ /\ _ => split end; auto.
  - rewrite Ext. apply can_access_row. exists row.
    split; [apply in_app_iff; right; left; reflexivity|].
    split; [reflexivity|]. now left.
  - intros other Ne Out. rewrite Ext. apply not_true_is_false. intros H.
    apply can_access_row in H. destruct H as (X & HX & Eid & Acc).
    simpl in HX. apply in_app_iff in HX. destruct HX as [HX|[<-|[]]].
    + apply Free. simpl in Eid. rewrite <- Eid. now apply in_map.
    + destruct Acc as [Acc | (m & Hm & Hin)]; simpl in *.
      * congruence.
      * injection Hm as <-. auto.
Qed.

Lemma managed_createProject_owner_witness :
  Managed.createProject (Some "carol") sampleEnv
    (ProjectInsert.mk "Hers" None None (Some ["bob"]) (Some []) (Some [])) (sampleDb [] [])
  = (Throw (PgError UndefinedColumn), sampleDb [] [])
  /\ exists p db',
       Managed.createProject (Some "carol") sampleEnv
         (ProjectInsert.mk "Hers" None None (Some ["bob"]) None None) (sampleDb [] [])
       = (Ok p, db')
       /\ can_access_project (Some "carol") db' (Some "new-0") = true
       /\ can_access_project (Some "alice") db' (Some "new-0") = false.
Proof.
  split.
  - apply (managed_createProject_owner "carol" sampleEnv
             (ProjectInsert.mk "Hers" None None (Some ["bob"]) (Some []) (Some []))
             (sampleDb [] [])).
    left. discriminate.
  - destruct (proj2 (managed_createProject_owner "carol" sampleEnv
                (ProjectInsert.mk "Hers" None None (Some ["bob"]) None None)
                (sampleDb [] [])) eq_refl eq_refl)
      as (p & db' & C & I & _ & _ & _ & A & S).
    + simpl. auto.
    + intros [H|[]]. discriminate H.
    + exists p, db'. split; [exact C|]. rewrite I in A, S. split; [exact A|].
      apply S; [discriminate|]. intros [H|[]]. discriminate H.
Defined.

(* ================================================================== *)
(** * Identifier validation and project statistics *)
(* ================================================================== *)

Lemma append_empty_r (s : string) : (s ++ "")%string = s.
Proof. induction s; simpl; congruence. Qed.

Lemma matchClass_inv f s r :
  matchClass f s = Some r -> exists c, s = String c r /\ f c = true.
Proof.
  destruct s as [|c s]; simpl; [discriminate|].
  destruct (f c) eqn:F; [|discriminate]. intros [= <-]. now exists c.
Qed.

Lemma matchRun_inv f n :
  forall s r, matchRun f n s = Some r ->
              exists p, s = (p ++ r)%string /\ String.length p = n.
Proof.
  induction n as [|n IH]; simpl; intros s r.
  - intros [= <-]. now exists ""%string.
  - destruct (matchClass f s) as [rest|] eqn:M; [|discriminate].
    intros R. destruct (matchClass_inv _ _ _ M) as (c & -> & _).
    destruct (IH _ _ R) as (p & -> & L).
    exists (String c p). simpl. now rewrite L.
Qed.

Lemma andThen_inv o k r :
  andThen o k = Some r -> exists s, o = Some s /\ k s = Some r.
Proof.
  destruct o as [s|]; simpl; [|discriminate]. intros H. now exists s.
Qed.

(** The shape of an accepted identifier. *)
Lemma isValidUUID_shape id :
  isValidUUID id = true ->
  exists a b c v d e,
    id = (a ++ String "-" (b ++ String "-" (String "4" (c ++ String "-"
            (String v (d ++ String "-" e))))))%string
    /\ String.length a = 8 /\ String.length b = 4 /\ String.length c = 3
    /\ String.length d = 3 /\ String.length e = 12
    /\ isVariantDigit v = true.
Proof.
  unfold isValidUUID.
  match goal with |- match ?o with _ => _ end = true -> _ => destruct o as [[|? ?]|] eqn:M end;
    try discriminate.
  intros _.
  repeat match goal with
         | H : andThen _ _ = Some _ |- _ =>
             apply andThen_inv in H; destruct H as (? & H & ?)
         end.
  repeat match goal with
         | H : matchClass _ _ = Some _ |- _ =>
             apply matchClass_inv in H; destruct H as (? & ? & ?)
         | H : matchRun _ _ _ = Some _ |- _ =>
             apply matchRun_inv in H; destruct H as (? & ? & ?)
         end.
  subst.
  repeat match goal with
         | H : Ascii.eqb _ _ = true |- _ => apply Ascii.eqb_eq in H; subst
         end.
  rewrite append_empty_r.
  do 6 eexists. split; [reflexivity|]. repeat split; assumption.
Qed.

Lemma length_append (s1 s2 : string) :
  String.length (s1 ++ s2) = String.length s1 + String.length s2.
Proof. induction s1; simpl; auto. Qed.

Lemma lower_class_facts (c : Ascii.ascii) :
  isHexDigit (lowerAscii c) = isHexDigit c
  /\ isVariantDigit (lowerAscii c) = isVariantDigit c
  /\ Ascii.eqb "-" (lowerAscii c) = Ascii.eqb "-" c
  /\ Ascii.eqb "4" (lowerAscii c) = Ascii.eqb "4" c.
Proof.
  destruct c as [[] [] [] [] [] [] [] []]; vm_compute; auto.
Qed.

Lemma matchClass_lower f s :
  (forall c, f (lowerAscii c) = f c) ->
  matchClass f (lowerString s) = option_map lowerString (matchClass f s).
Proof.
  intros Hf. destruct s as [|c s]; simpl; auto.
  rewrite Hf. now destruct (f c).
Qed.

Lemma matchRun_lower f n :
  (forall c, f (lowerAscii c) = f c) ->
  forall s, matchRun f n (lowerString s) = option_map lowerString (matchRun f n s).
Proof.
  intros Hf. induction n as [|n IH]; intros s; simpl; auto.
  rewrite (matchClass_lower f s Hf).
  destruct (matchClass f s); simpl; auto.
Qed.

Lemma andThen_lower o o' k :
  o' = option_map lowerString o ->
  (forall s, k (lowerString s) = option_map lowerString (k s)) ->
  andThen o' k = option_map lowerString (andThen o k).
Proof.
  intros -> Hk. destruct o; simpl; auto.
Qed.

(** X24. [isValidUUID] accepts only identifiers of 36 characters with a
    hyphen at positions 8, 13, 18 and 23, the version digit 4 at position
    14 and one of 8, 9, a, b (in either case) at position 19; and it does
    not tell upper from lower case: an identifier and its lower-cased form
    get the same answer. *)
Theorem isValidUUID_accepts (id : string) :
  (isValidUUID id = true ->
   String.length id = 36
   /\ String.get 8 id = Some "-"%char /\ String.get 13 id = Some "-"%char
   /\ String.get 18 id = Some "-"%char /\ String.get 23 id = Some "-"%char
   /\ String.get 14 id = Some "4"%char
   /\ exists v, String.get 19 id = Some v /\ isVariantDigit v = true)
  /\ isValidUUID (lowerString id) = isValidUUID id.
Proof.
  split.
  - intros V.
    destruct (isValidUUID_shape id V) as (a & b & c & v & d & e & -> & La & Lb & Lc & Ld & Le & Hv).
    split.
    { repeat (rewrite length_append; simpl). rewrite La, Lb, Lc, Ld, Le. reflexivity. }
    assert (G : forall p r n, String.length p = n -> forall k, String.get (n + k) (p ++ r) = String.get k r).
    { intros p r n <- k. rewrite Nat.add_comm. symmetry. apply append_correct2. }
    repeat split.
    + rewrite (G a _ 8 La 0). reflexivity.
    + rewrite (G a _ 8 La 5). simpl. rewrite (G b _ 4 Lb 0). reflexivity.
    + rewrite (G a _ 8 La 10). simpl. rewrite (G b _ 4 Lb 5). simpl.
      rewrite (G c _ 3 Lc 0). reflexivity.
    + rewrite (G a _ 8 La 15). simpl. rewrite (G b _ 4 Lb 10). simpl.
      rewrite (G c _ 3 Lc 5). simpl. rewrite (G d _ 3 Ld 0). reflexivity.
    + rewrite (G a _ 8 La 6). simpl. rewrite (G b _ 4 Lb 1). reflexivity.
    + exists v. split; auto.
      rewrite (G a _ 8 La 11). simpl. rewrite (G b _ 4 Lb 6). simpl.
      rewrite (G c _ 3 Lc 1). reflexivity.
  - unfold isValidUUID.
    assert (Hx : forall c, isHexDigit (lowerAscii c) = isHexDigit c)
      by (intros c; apply lower_class_facts).
    assert (Hv : forall c, isVariantDigit (lowerAscii c) = isVariantDigit c)
      by (intros c; apply lower_class_facts).
    assert (Hd : forall c, Ascii.eqb "-" (lowerAscii c) = Ascii.eqb "-" c)
      by (intros c; apply lower_class_facts).
    assert (H4 : forall c, Ascii.eqb "4" (lowerAscii c) = Ascii.eqb "4" c)
      by (intros c; apply lower_class_facts).
    match goal with
    | |- match ?l with _ => _ end = match ?r with _ => _ end =>
        assert (E : l = option_map lowerString r)
    end.
    { repeat (apply andThen_lower;
              [| intros s; first [ apply matchRun_lower; assumption
                                 | apply matchClass_lower; assumption ]]).
      apply matchRun_lower; assumption. }
    rewrite E.
    match goal with |- context [option_map lowerString ?r] => destruct r as [[|? ?]|] end;
      reflexivity.
Qed.

Lemma isValidUUID_accepts_witness :
  String.length "123E4567-e89b-42d3-A456-426614174000" = 36
  /\ isValidUUID "123e4567-e89b-42d3-a456-426614174000" = true.
Proof.
  destruct (isValidUUID_accepts "123E4567-e89b-42d3-A456-426614174000") as [S L].
  split.
  - apply S. reflexivity.
  - exact (eq_trans L eq_refl).
Defined.

Lemma filter_disjoint_length {A} (f g : A -> bool) (l : list A) :
  (forall x, f x = true -> g x = false) ->
  length (filter f l) + length (filter g l) <= length l.
Proof.
  intros D. induction l as [|a l IH]; simpl; auto.
  destruct (f a) eqn:F.
  - rewrite (D a F). simpl. lia.
  - destruct (g a); simpl; lia.
Qed.

(** X25. The statistics of the project page, over tasks as the task
    service types them: the 'impacted' count is 0 for every task list,
    because it compares the task type, which is one of task, milestone and
    deliverable ('impacted' is a status), with 'impacted'; completed and
    in-progress tasks together never exceed the total, nor do the
    milestones; a task with status 'done' is not counted as completed;
    without a loaded project every count is 0. *)
Theorem projectStats_counts (ts : list Task.t) :
  impacted (projectStats (Some ts)) = 0
  /\ completed (projectStats (Some ts)) + inProgress (projectStats (Some ts))
     <= total (projectStats (Some ts))
  /\ milestones (projectStats (Some ts)) <= total (projectStats (Some ts))
  /\ total (projectStats (Some ts)) = length ts
  /\ (forall t, Task.status t = Done ->
                completed (projectStats (Some (t :: ts))) = completed (projectStats (Some ts)))
  /\ projectStats None = mkStats 0 0 0 0 0.
Proof.
  simpl. repeat split.
  - rewrite filter_none_of_nil; auto.
    intros t _. now destruct (Task.task_type t).
  - apply filter_disjoint_length. intros t H. apply Status_eqb_eq in H. now rewrite H.
  - apply filter_length_le.
  - intros t ->. reflexivity.
Qed.

(** * The update trigger, strangers to a project, imports in order *)

Lemma apply_update_stamp old u now :
  Managed.apply_update old u now = old
  \/ Managed.apply_update old u now = mergeTask old (Managed.castUpdate u) now.
Proof.
  unfold Managed.apply_update.
  destruct (Task_eq_dec old _) as [E|_]; [left; now rewrite <- E | now right].
Qed.

(** X26. The [update_tasks_updated_at] trigger under [updateTask] in the
    managed variant: a successful update returns either the stored row
    exactly as it was (nothing differed, the trigger did not fire), or a
    row stamped with the time of the statement.  An [updated_at] the caller
    supplies is therefore never kept on a row that changed, unless it is
    that very time. *)
Theorem managed_updateTask_stamp uid env id pid u db data db' :
  Managed.updateTask uid env id pid u db = (Ok data, db') ->
  exists old,
    In old (tasks db) /\ Task.id old = id
    /\ In data (tasks db')
    /\ (data = old \/ Task.updated_at data = clock env 0)
    /\ (forall z, TaskUpdate.updated_at u = Some z -> data <> old ->
                  Task.updated_at data = z -> z = clock env 0).
Proof.
  unfold Managed.updateTask.
  destruct (Managed.update_task_stmt _ _ _ _ _) as [c|[new ts]] eqn:S; [discriminate|].
  intros [= <- <-].
  destruct (update_task_stmt_inv _ _ _ _ _ _ _ S) as (old & F & En & Ets & _).
  assert (I : In old (filter (Managed.update_target uid db id) (tasks db)))
    by (rewrite F; now left).
  apply filter_In in I. destruct I as [I T].
  exists old. split; [exact I|]. split.
  { unfold Managed.update_target in T. apply andb_prop in T. destruct T as [T _].
    unfold Managed.taskHasId in T. now apply String.eqb_eq in T. }
  split.
  { unfold Managed.taskLogActivity. destruct uid as [user|].
    - destruct (insert_activity_tables (Some user) env 0 1 (Task.project_id new)
                  (Some id) user "task_updated" (ChTaskUpdate u) (Managed.setTasks ts db))
        as (_ & _ & -> & _).
      simpl. rewrite Ets. apply in_map_iff. exists old. now rewrite T.
    - simpl. rewrite Ets. apply in_map_iff. exists old. now rewrite T. }
  assert (D : new = old \/ Task.updated_at new = clock env 0).
  { rewrite En. destruct (apply_update_stamp old u (clock env 0)) as [E|E];
      [now left | right; now rewrite E]. }
  split; [exact D|].
  intros z _ Hne Hz. destruct D as [D|D]; [contradiction | congruence].
Qed.

Lemma managed_updateTask_stamp_witness :
  exists data db',
    Managed.updateTask (Some "alice") sampleEnv "t1" "p1"
      (TaskUpdate.mk None None None (Some Completed) None None None None None None (Some 7%Z))
      (sampleDb [sampleTask "t1" OnHold []] []) = (Ok data, db')
    /\ Task.updated_at data = clock sampleEnv 0
    /\ Task.updated_at data <> 7%Z.
Proof.
  eassert (E : Managed.updateTask (Some "alice") sampleEnv "t1" "p1"
                 (TaskUpdate.mk None None None (Some Completed) None None None None None
                    None (Some 7%Z))
                 (sampleDb [sampleTask "t1" OnHold []] []) = (Ok _, _))
    by (vm_compute; reflexivity).
  destruct (managed_updateTask_stamp _ _ _ _ _ _ _ _ E) as (old & _ & _ & _ & D & _).
  do 2 eexists. split; [exact E|].
  split; [|vm_compute; discriminate].
  destruct D as [D|D]; [|exact D]. vm_compute. reflexivity.
Defined.

Lemma stranger_none_of user db id (c : Command) :
  c <> INSERT ->
  (forall X, In X (projects db) -> ProjectRow.id X = id -> ~ owner_or_member user X) ->
  none_of (fun r => Managed.projectHasId id r && using_ok (Some user) db c (RProject r))
          (projects db).
Proof.
  intros Hc Hs X HX. unfold Managed.projectHasId.
  destruct (String.eqb_spec (ProjectRow.id X) id) as [E|]; auto.
  simpl. apply not_true_is_false. intros U. apply (Hs X HX E).
  apply holds_access_expr. destruct c; simpl in U; auto; congruence.
Qed.

Lemma updateProject_unknown_column user env id u db :
  ProjectUpdate.tasks u <> None \/ ProjectUpdate.custom_fields u <> None ->
  Managed.updateProject (Some user) env id u db = (Throw (PgError UndefinedColumn), db).
Proof.
  intros K. unfold Managed.updateProject, Managed.update_project_stmt.
  cbn [finalUpdates ProjectUpdate.tasks ProjectUpdate.custom_fields].
  destruct (ProjectUpdate.tasks u), (ProjectUpdate.custom_fields u); try reflexivity.
  destruct K as [K|K]; now contradiction K.
Qed.

(** X27. A signed-in user who neither owns nor belongs to the team of the
    project with a given id gets nowhere through the managed project
    service: [deleteProject] reports success and leaves every table as it
    was (no cascade, no activity entry); [updateProject] with an update
    made of columns of the table is answered with the no-rows error of an
    id that does not exist, and with an update that carries a tasks or a
    custom_fields key it is refused for the unknown column before any row
    is looked at; the database is unchanged either way. *)
Theorem managed_stranger_project user env id db :
  (forall X, In X (projects db) -> ProjectRow.id X = id -> ~ owner_or_member user X) ->
  Managed.deleteProject (Some user) env id db = (Ok tt, db)
  /\ (forall u,
         ProjectUpdate.tasks u = None -> ProjectUpdate.custom_fields u = None ->
         Managed.updateProject (Some user) env id u db = (Throw (PgError NoRows), db))
  /\ (forall u,
         ProjectUpdate.tasks u <> None \/ ProjectUpdate.custom_fields u <> None ->
         Managed.updateProject (Some user) env id u db
         = (Throw (PgError UndefinedColumn), db)).
Proof.
  intros Hs. split; [|split].
  - rewrite managed_deleteProject_writes_no_entry. f_equal.
    unfold Managed.delete_project_stmt.
    pose proof (stranger_none_of user db id DELETE ltac:(discriminate) Hs) as N.
    change (fun r => Managed.projectHasId id r && using_ok (Some user) db DELETE (RProject r))
      with (Managed.project_delete_target (Some user) db id) in N.
    destruct (existsb _ (projects db)) eqn:E; auto.
    apply existsb_exists in E. destruct E as (X & HX & T).
    rewrite (N X HX) in T. discriminate.
  - intros u Ht Hc. unfold Managed.updateProject, Managed.update_project_stmt.
    cbn [finalUpdates ProjectUpdate.tasks ProjectUpdate.custom_fields].
    rewrite Ht, Hc. cbn [Managed.only_columns guard].
    pose proof (stranger_none_of user db id UPDATE ltac:(discriminate) Hs) as N.
    change (fun r => Managed.projectHasId id r && using_ok (Some user) db UPDATE (RProject r))
      with (Managed.project_update_target (Some user) db id) in N.
    now rewrite (filter_none_of_nil _ _ N).
  - intros u K. now apply updateProject_unknown_column.
Qed.

Lemma managed_stranger_project_witness :
  Managed.deleteProject (Some "carol") sampleEnv "p1"
    (sampleDb [sampleTask "t1" OnHold []] [])
  = (Ok tt, sampleDb [sampleTask "t1" OnHold []] [])
  /\ Managed.updateProject (Some "carol") sampleEnv "p1" (teamUpdate ["carol"])
       (sampleDb [sampleTask "t1" OnHold []] [])
     = (Throw (PgError NoRows), sampleDb [sampleTask "t1" OnHold []] [])
  /\ Managed.updateProject (Some "carol") sampleEnv "p1"
       (ProjectUpdate.mk None None None None None (Some [sampleTask "t1" Done []]) None)
       (sampleDb [sampleTask "t1" OnHold []] [])
     = (Throw (PgError UndefinedColumn), sampleDb [sampleTask "t1" OnHold []] []).
Proof.
  assert (Hs : forall X, In X (projects (sampleDb [sampleTask "t1" OnHold []] [])) ->
                         ProjectRow.id X = "p1" -> ~ owner_or_member "carol" X).
  { intros X [<-|[]] _ [O|(m & [= <-] & [B|[]])]; discriminate. }
  destruct (managed_stranger_project "carol" sampleEnv "p1"
              (sampleDb [sampleTask "t1" OnHold []] []) Hs) as (D & U & K).
  split; [exact D|]. split; [apply U; reflexivity|].
  apply K. left. discriminate.
Defined.

Lemma demo_importLoop_appends envs pid :
  pid <> "" ->
  forall specs k acc st,
    has_project st pid ->
    (forall s, In s specs -> importable pid s) ->
    exists new st',
      Demo.importLoop envs k specs acc st = (acc ++ new, st')
      /\ length new = length specs
      /\ Demo.getProjectTasks pid st' = Demo.getProjectTasks pid st ++ new
      /\ (forall pid', pid' <> pid ->
                       Demo.getProjectTasks pid' st' = Demo.getProjectTasks pid' st)
      /\ (forall j s, nth_error specs j = Some s ->
            exists t, nth_error new j = Some t
                      /\ Task.id t = uuid (envs (k + j)) 0
                      /\ Task.name t = str_or (TaskInput.name s) "Untitled Task").
Proof.
  intros Hpid. induction specs as [|s rest IH]; intros k acc st HP Hall.
  - exists [], st. simpl. rewrite !app_nil_r. repeat split; auto.
    intros [|j] s; discriminate.
  - destruct (Hall s (or_introl eq_refl)) as (Hp & Hs & He).
    destruct (has_project_find _ _ HP) as (ps1 & P & ps2 & E & N & H).
    destruct (dateOr_some _ (clock (envs k) 0) Hs) as (sd & Ds).
    destruct (dateOr_some _ (clock (envs k) 0) He) as (ed & De).
    pose proof (demo_createTask_at (envs k) s st pid ps1 P ps2 sd ed Hp E N H Ds De) as C.
    set (t := Demo.newTaskOf (envs k) s sd ed) in *.
    set (P' := DemoProject.with_tasks P (or_default (DemoProject.tasks P) [] ++ [t])
                 (Some (clock (envs k) 1))) in *.
    set (st1 := saveDemoProjects (ps1 ++ P' :: ps2) st) in *.
    assert (H' : Demo.projectHasId pid P' = true) by exact H.
    assert (HP1 : has_project st1 pid).
    { exists P'. split; [simpl; apply in_or_app; right; now left|].
      unfold Demo.projectHasId in H'. now apply String.eqb_eq in H'. }
    assert (G1 : Demo.getProjectTasks pid st1 = Demo.getProjectTasks pid st ++ [t]).
    { rewrite (getProjectTasks_at st pid ps1 P ps2 E N H).
      now rewrite (getProjectTasks_at st1 pid ps1 P' ps2 eq_refl N H'). }
    assert (O1 : forall pid', pid' <> pid ->
                   Demo.getProjectTasks pid' st1 = Demo.getProjectTasks pid' st).
    { intros pid' Ne.
      apply (getProjectTasks_other st st1 pid pid' ps1 P P' ps2 E eq_refl); auto;
        unfold Demo.projectHasId in *; now apply String.eqb_eq. }
    destruct (IH (S k) (acc ++ [t]) st1 HP1 (fun x Hx => Hall x (or_intror Hx)))
      as (new & st' & L & Len & G & O & Nth).
    exists (t :: new), st'. split.
    { cbn [Demo.importLoop]. rewrite Hp. cbn [truthy].
      destruct (String.eqb_spec pid "") as [|_]; [contradiction|]. cbn [negb].
      rewrite C, L, <- app_assoc. reflexivity. }
    split; [simpl; now rewrite Len|].
    split; [rewrite G, G1, <- app_assoc; reflexivity|].
    split; [intros pid' Ne; rewrite (O pid' Ne); now apply O1|].
    intros [|j] x Hx.
    + injection Hx as <-. exists t. rewrite Nat.add_0_r. repeat split.
    + destruct (Nth j x Hx) as (y & Hy & Iy & Ny). exists y.
      rewrite Nat.add_succ_r. repeat split; auto.
Qed.

(** X28. [importTasks] in the demo variant, given specifications that
    all name one existing project and carry no unparsable date: one task
    per specification comes back, in the order of the specifications, the
    k-th with the id generated for it and the name of the k-th
    specification ('Untitled Task' when missing or empty); the project's
    task list is the old list followed by exactly these tasks, and the
    lists of the other projects are as before. *)
Theorem demo_importTasks_appends envs specs st pid :
  pid <> "" ->
  has_project st pid ->
  (forall s, In s specs -> importable pid s) ->
  exists results st',
    Demo.importTasks envs specs st = (Ok results, st')
    /\ length results = length specs
    /\ Demo.getProjectTasks pid st' = Demo.getProjectTasks pid st ++ results
    /\ (forall pid', pid' <> pid ->
                     Demo.getProjectTasks pid' st' = Demo.getProjectTasks pid' st)
    /\ (forall k s, nth_error specs k = Some s ->
          exists t, nth_error results k = Some t
                    /\ Task.id t = uuid (envs k) 0
                    /\ Task.name t = str_or (TaskInput.name s) "Untitled Task").
Proof.
  intros Hpid HP Hall.
  destruct (demo_importLoop_appends envs pid Hpid specs 0 [] st HP Hall)
    as (new & st' & L & Len & G & O & Nth).
  exists new, st'. unfold Demo.importTasks. rewrite L. simpl.
  repeat split; auto.
Qed.

Lemma demo_importTasks_appends_witness :
  exists results st',
    Demo.importTasks sampleEnvs
      [datedInput "p1" (DateOk 1) (DateOk 2); namedInput "p1" None]
      (sampleStore [sampleTask "t1" OnHold []]) = (Ok results, st')
    /\ length results = 2
    /\ Demo.getProjectTasks "p1" st' = sampleTask "t1" OnHold [] :: results.
Proof.
  assert (HP : has_project (sampleStore [sampleTask "t1" OnHold []]) "p1").
  { exists (sampleProject [sampleTask "t1" OnHold []]). split; [now left|reflexivity]. }
  assert (Hall : forall s,
             In s [datedInput "p1" (DateOk 1) (DateOk 2); namedInput "p1" None] ->
             importable "p1" s).
  { intros s [<-|[<-|[]]]; repeat split; discriminate. }
  destruct (demo_importTasks_appends sampleEnvs _ _ "p1" ltac:(discriminate) HP Hall)
    as (results & st' & I & Len & G & _).
  exists results, st'. split; [exact I|]. split; [exact Len|exact G].
Defined.
